(** * The ChatKit widget compiler: JSON specifications to component trees

    A shallow embedding of the three modules of the backend that turn
    loosely typed JSON into ChatKit widgets:

    - [backend/chatkit_validation_reference.py]: the rule tables and
      [validate_and_map_parameter];
    - [backend/app/chatkit_widget_renderer.py]: the spec-driven compiler
      ([_parse_widget_component] and its per-type parsers) with its root
      wrapper [render_chatkit_widget_from_json];
    - [backend/app/json_widget.py]: the generic-data renderer
      ([_render_json_content]) and its plain-text transcript.

    Conventions of the embedding.

    - A Python value that [json.loads] can produce is a [json] term.  A
      Python [dict] is an association list in insertion order, each key
      bound once; lookups take the first binding of a key.
    - A Python [str] is a [string]; one [ascii] stands for one character.
    - A Python exception is a value of [exn], and code that may raise
      returns a [result].  A [try]/[except Exception] is a [match] on it.
    - The classes of [chatkit.widgets] belong to an external package.  A
      constructor call [Row(gap=2, children=cs)] is the term
      [Node Row [("gap", JInt 2)] cs]: the keyword arguments are recorded as
      given, in the order the call builds them, and the [children] keyword
      is kept apart.
    - The program is embedded at two levels.  [chatkit_widget_renderer]
      and [json_widget] record the calls: every constructor call yields
      its node and the recursion goes as deep as the data, so that these
      modules say what the program returns when it returns.
      [validated_renderer] and [bounded_json_widget] are the same
      functions with the two things that can stop them: a class may refuse
      the arguments of a call, and the interpreter allows only so many
      nested calls.  The classes are a parameter there, since their code
      is not part of the repository.  The two levels are related by
      [validated_facts._parse_widget_component_agrees] and
      [bounded_walk_facts.walk_agrees]. *)

From Stdlib Require Import String Ascii List ZArith NArith Bool Lia.
From Stdlib Require Import DecimalString Permutation.
Import ListNotations.

Set Warnings "-register-all".

Open Scope list_scope.
Open Scope string_scope.

(* ===================================================================== *)
(** * Python values *)
(* ===================================================================== *)

(** The values [json.loads] builds.  A float is carried by the text Python
    prints for it ([repr]), which is all the code ever asks of one. *)
Inductive json : Type :=
| JNull
| JBool (b : bool)
| JInt (z : Z)
| JFloat (repr : string)
| JStr (s : string)
| JArr (items : list json)
| JObj (members : list (string * json)).

Definition dict := list (string * json).

(** [type(v).__name__] *)
Definition type_name (v : json) : string :=
  match v with
  | JNull => "NoneType"
  | JBool _ => "bool"
  | JInt _ => "int"
  | JFloat _ => "float"
  | JStr _ => "str"
  | JArr _ => "list"
  | JObj _ => "dict"
  end.

(** The exceptions the modelled code can raise on JSON input. *)
Inductive exn : Type :=
| TypeError_not_iterable (tyname : string)   (* for x in <non-iterable> *)
| TypeError_unhashable (tyname : string)     (* set / dict lookup of a list or dict *)
| AttributeError_get (tyname : string)       (* <non-dict>.get *)
| Serialization_error.                       (* json.dumps failing *)

Inductive result (A : Type) : Type :=
| Ok (a : A)
| Raise (e : exn).

Arguments Ok {A} a.
Arguments Raise {A} e.

Definition bind {A B : Type} (r : result A) (k : A -> result B) : result B :=
  match r with
  | Ok a => k a
  | Raise e => Raise e
  end.

Notation "x <- r ;; k" := (bind r (fun x => k))
  (at level 61, r at next level, right associativity).

(** [str(e)] for the exceptions above (CPython's wording). *)
Definition str_exn (e : exn) : string :=
  match e with
  | TypeError_not_iterable t => "'" ++ t ++ "' object is not iterable"
  | TypeError_unhashable t => "unhashable type: '" ++ t ++ "'"
  | AttributeError_get t => "'" ++ t ++ "' object has no attribute 'get'"
  | Serialization_error => "Object is not JSON serializable"
  end.

(* --------------------------------------------------------------------- *)
(** ** Dictionaries *)

(** First binding of [k] in an association list. *)
Fixpoint assoc {A : Type} (k : string) (l : list (string * A)) : option A :=
  match l with
  | [] => None
  | (k', v) :: l' => if String.eqb k k' then Some v else assoc k l'
  end.

(** [k in d] *)
Definition contains {A : Type} (k : string) (d : list (string * A)) : bool :=
  match assoc k d with
  | Some _ => true
  | None => false
  end.

(** [d.get(k, default)] *)
Definition get {A : Type} (d : list (string * A)) (k : string) (default : A) : A :=
  match assoc k d with
  | Some v => v
  | None => default
  end.

(** [v.get]: only a dict has the method. *)
Definition as_dict (v : json) : result dict :=
  match v with
  | JObj d => Ok d
  | _ => Raise (AttributeError_get (type_name v))
  end.

Definition hashable (v : json) : bool :=
  match v with
  | JArr _ | JObj _ => false
  | _ => true
  end.

Fixpoint mem (s : string) (l : list string) : bool :=
  match l with
  | [] => false
  | x :: l' => String.eqb s x || mem s l'
  end.

(** [v in S] for a set [S] of strings: hashing [v] comes first. *)
Definition set_contains (S : list string) (v : json) : result bool :=
  if hashable v then
    Ok (match v with JStr s => mem s S | _ => false end)
  else Raise (TypeError_unhashable (type_name v)).

(** [m.get(v, default)] for a dict [m] from strings to strings. *)
Definition mapping_get (m : list (string * string)) (v : json) (default : string)
  : result string :=
  if hashable v then
    Ok (match v with JStr s => get m s default | _ => default end)
  else Raise (TypeError_unhashable (type_name v)).

(** Truth value of a JSON value ([not v] is its negation). *)
Definition truthy (v : json) : bool :=
  match v with
  | JNull => false
  | JBool b => b
  | JInt z => negb (Z.eqb z 0)
  | JFloat r => negb (String.eqb r "0.0" || String.eqb r "-0.0")
  | JStr s => negb (String.eqb s EmptyString)
  | JArr l => match l with [] => false | _ => true end
  | JObj d => match d with [] => false | _ => true end
  end.

(** [v == "lit"] *)
Definition eq_str (v : json) (lit : string) : bool :=
  match v with
  | JStr s => String.eqb s lit
  | _ => false
  end.

(* --------------------------------------------------------------------- *)
(** ** Text of values: [str], [repr] *)

Definition chr (n : N) : ascii := ascii_of_N n.

(** The double quote, as a character and as a one-character string. *)
Definition dquote : ascii := chr 34.
Definition DQ : string := String dquote EmptyString.

Definition str_int (z : Z) : string := NilZero.string_of_int (Z.to_int z).

Definition hex_digit (n : N) : ascii :=
  if (n <? 10)%N then ascii_of_N (48 + n) else ascii_of_N (87 + n).

(** Two lower-case hexadecimal digits of a character code. *)
Definition hex2 (c : ascii) : string :=
  let n := N_of_ascii c in
  String (hex_digit (n / 16)) (String (hex_digit (n mod 16)) EmptyString).

Fixpoint has_char (c : ascii) (s : string) : bool :=
  match s with
  | EmptyString => false
  | String c' s' => Ascii.eqb c c' || has_char c s'
  end.

(** Characters [repr] writes as they are (code points below 256). *)
Definition printable (c : ascii) : bool :=
  let n := N_of_ascii c in
  ((32 <=? n) && (n <? 127) || (161 <=? n) && negb (n =? 173))%N.

Definition repr_char (quote : ascii) (c : ascii) : string :=
  if Ascii.eqb c quote || Ascii.eqb c "\"%char then String "\"%char (String c EmptyString)
  else if Ascii.eqb c (chr 9) then "\t"
  else if Ascii.eqb c (chr 10) then "\n"
  else if Ascii.eqb c (chr 13) then "\r"
  else if printable c then String c EmptyString
  else "\x" ++ hex2 c.

Fixpoint concat_map (f : ascii -> string) (s : string) : string :=
  match s with
  | EmptyString => EmptyString
  | String c s' => f c ++ concat_map f s'
  end.

(** [repr(s)] of a string: single quotes unless the text has a single quote
    and no double quote. *)
Definition repr_str (s : string) : string :=
  let quote := if has_char "'"%char s && negb (has_char dquote s)
               then dquote else "'"%char in
  String quote (concat_map (repr_char quote) s) ++ String quote EmptyString.

Fixpoint join (sep : string) (l : list string) : string :=
  match l with
  | [] => EmptyString
  | [x] => x
  | x :: l' => x ++ sep ++ join sep l'
  end.

(** [repr(v)] *)
Fixpoint py_repr (v : json) : string :=
  match v with
  | JNull => "None"
  | JBool true => "True"
  | JBool false => "False"
  | JInt z => str_int z
  | JFloat r => r
  | JStr s => repr_str s
  | JArr l => "[" ++ join ", " (map py_repr l) ++ "]"
  | JObj d =>
      "{" ++ join ", " (map (fun kv => repr_str (fst kv) ++ ": " ++ py_repr (snd kv)) d) ++ "}"
  end.

(** [str(v)], what an f-string interpolates. *)
Definition py_str (v : json) : string :=
  match v with
  | JStr s => s
  | _ => py_repr v
  end.

(* --------------------------------------------------------------------- *)
(** ** [json.dumps(v, indent=2, ensure_ascii=False)] *)

(** One character inside a JSON string literal. *)
Definition escape_char (c : ascii) : string :=
  let n := N_of_ascii c in
  if Ascii.eqb c "\"%char then "\\"
  else if Ascii.eqb c dquote then "\" ++ DQ
  else if (n =? 8)%N then "\b"
  else if (n =? 12)%N then "\f"
  else if (n =? 10)%N then "\n"
  else if (n =? 13)%N then "\r"
  else if (n =? 9)%N then "\t"
  else if (n <? 32)%N then "\u00" ++ hex2 c
  else String c EmptyString.

Definition encode_str (s : string) : string :=
  DQ ++ concat_map escape_char s ++ DQ.

Definition encode_float (r : string) : string :=
  if String.eqb r "nan" then "NaN"
  else if String.eqb r "inf" then "Infinity"
  else if String.eqb r "-inf" then "-Infinity"
  else r.

Fixpoint spaces (n : nat) : string :=
  match n with
  | O => EmptyString
  | S n' => String " "%char (spaces n')
  end.

Definition LF : string := String (chr 10) EmptyString.

Definition newline_indent (level : nat) : string := LF ++ spaces (2 * level).

(** The encoder at nesting level [level]. *)
Fixpoint dumps_at (level : nat) (v : json) : string :=
  match v with
  | JNull => "null"
  | JBool true => "true"
  | JBool false => "false"
  | JInt z => str_int z
  | JFloat r => encode_float r
  | JStr s => encode_str s
  | JArr [] => "[]"
  | JArr l =>
      "[" ++ newline_indent (S level)
          ++ join ("," ++ newline_indent (S level)) (map (dumps_at (S level)) l)
          ++ newline_indent level ++ "]"
  | JObj [] => "{}"
  | JObj d =>
      "{" ++ newline_indent (S level)
          ++ join ("," ++ newline_indent (S level))
                  (map (fun kv => encode_str (fst kv) ++ ": " ++ dumps_at (S level) (snd kv)) d)
          ++ newline_indent level ++ "}"
  end.

(** On the values of [json] the encoder always succeeds; the [result]
    keeps the shape of the [try] blocks that call it. *)
Definition json_dumps (v : json) : result string := Ok (dumps_at 0 v).

(* ===================================================================== *)
(** * [chatkit_validation_reference.py] *)
(* ===================================================================== *)

(** An entry of the rule table is a list of permitted values or a sentence
    describing the parameter. *)
Inductive rule : Type :=
| Allowed (values : list string)
| Described (text : string).

Definition CHATKIT_VALIDATION_RULES : list (string * list (string * rule)) :=
  [ ("Button",
      [ ("variant", Allowed ["solid"; "soft"; "outline"; "ghost"]);
        ("size", Allowed ["xs"; "sm"; "md"; "lg"; "xl"]);
        ("action_param", Described "onClickAction") ]);
    ("Box",
      [ ("direction", Allowed ["row"; "col"]);
        ("align", Allowed ["start"; "center"; "end"; "stretch"]);
        ("justify", Allowed ["start"; "center"; "end"; "between"; "around"; "evenly"]) ]);
    ("Text",
      [ ("size", Allowed ["xs"; "sm"; "md"; "lg"; "xl"]);
        ("weight", Allowed ["normal"; "medium"; "semibold"; "bold"]);
        ("color", Allowed ["primary"; "secondary"; "tertiary"; "success"; "warning";
                           "error"; "accent"]);
        ("family", Allowed ["default"; "mono"]);
        ("style", Allowed ["normal"; "italic"]) ]);
    ("Card",
      [ ("size", Allowed ["xs"; "sm"; "md"; "lg"; "xl"]);
        ("theme", Allowed ["light"; "dark"]);
        ("background", Described "CSS background value (gradients, colors, etc.)");
        ("padding", Described "number (padding in pixels)");
        ("status", Allowed ["success"; "warning"; "error"]);
        ("collapsed", Described "boolean");
        ("asForm", Described "boolean");
        ("confirm", Described "object with label and action");
        ("cancel", Described "object with label and action") ]);
    ("Row",
      [ ("align", Allowed ["start"; "center"; "end"; "stretch"]);
        ("justify", Allowed ["start"; "center"; "end"; "between"; "around"; "evenly"]) ]);
    ("Col",
      [ ("align", Allowed ["start"; "center"; "end"; "stretch"]);
        ("justify", Allowed ["start"; "center"; "end"; "between"; "around"; "evenly"]) ]);
    ("Caption",
      [ ("size", Allowed ["xs"; "sm"; "md"; "lg"; "xl"]);
        ("weight", Allowed ["normal"; "medium"; "semibold"; "bold"]);
        ("color", Allowed ["primary"; "secondary"; "tertiary"; "success"; "warning";
                           "error"; "accent"; "muted"]);
        ("textAlign", Allowed ["left"; "center"; "right"; "justify"]) ]);
    ("Image",
      [ ("src", Described "URL string (required)");
        ("alt", Described "Alt text string");
        ("fit", Allowed ["cover"; "contain"; "fill"; "scale-down"; "none"]);
        ("position", Allowed ["center"; "top"; "bottom"; "left"; "right"]);
        ("size", Allowed ["xs"; "sm"; "md"; "lg"; "xl"]);
        ("radius", Described "number or string");
        ("width", Described "number");
        ("height", Described "number") ]);
    ("Spacer",
      [ ("minSize", Described "number (minimum space size)") ]);
    ("DatePicker",
      [ ("name", Described "string (required)");
        ("placeholder", Described "string");
        ("variant", Allowed ["default"; "outline"; "ghost"]);
        ("size", Allowed ["xs"; "sm"; "md"; "lg"; "xl"]);
        ("defaultValue", Described "date string");
        ("min", Described "date string");
        ("max", Described "date string");
        ("onChangeAction", Described "action object") ]);
    ("Select",
      [ ("name", Described "string (required)");
        ("options", Described "array of {label, value} objects (required)");
        ("placeholder", Described "string");
        ("variant", Allowed ["default"; "outline"; "ghost"]);
        ("size", Allowed ["xs"; "sm"; "md"; "lg"; "xl"]);
        ("defaultValue", Described "string");
        ("onChangeAction", Described "action object") ]) ].

Definition PARAMETER_MAPPINGS : list (string * list (string * string)) :=
  [ ("button_variant",
      [ ("primary", "solid"); ("secondary", "outline"); ("tertiary", "ghost");
        ("default", "solid") ]);
    ("box_direction",
      [ ("column", "col"); ("horizontal", "row"); ("vertical", "col");
        ("default", "col") ]);
    ("text_weight",
      [ ("regular", "normal"); ("strong", "bold"); ("default", "normal") ]) ].

(** [needle in hay] for two strings: [needle] occurs in [hay]. *)
Fixpoint str_in (needle hay : string) : bool :=
  String.prefix needle hay
  || match hay with
     | EmptyString => false
     | String _ hay' => str_in needle hay'
     end.

(** [value in valid_values] *)
Definition rule_contains (value : string) (r : rule) : bool :=
  match r with
  | Allowed l => mem value l
  | Described text => str_in value text
  end.

(** [if valid_values:] *)
Definition rule_truthy (r : rule) : bool :=
  match r with
  | Allowed [] => false
  | Allowed _ => true
  | Described EmptyString => false
  | Described _ => true
  end.

(** [valid_values[0]], read only when [valid_values] is not empty: the
    first member of a list, the first character of a sentence. *)
Definition rule_first (r : rule) : string :=
  match r with
  | Allowed (x :: _) => x
  | Described (String c _) => String c EmptyString
  | _ => EmptyString
  end.

(** [c.lower()] on one character (code points below 256). *)
Definition lower_char (c : ascii) : ascii :=
  let n := N_of_ascii c in
  if ((65 <=? n) && (n <=? 90) || (192 <=? n) && (n <=? 222) && negb (n =? 215))%N
  then ascii_of_N (n + 32)
  else c.

Fixpoint lower (s : string) : string :=
  match s with
  | EmptyString => EmptyString
  | String c s' => String (lower_char c) (lower s')
  end.

Definition validate_and_map_parameter (widget_type param_name value : string) : string :=
  (* Get validation rules for this widget type *)
  let widget_rules := get CHATKIT_VALIDATION_RULES widget_type [] in
  let valid_values := get widget_rules param_name (Allowed []) in
  (* If value is already valid, return it *)
  if rule_contains value valid_values then value
  else
    (* Try to map the value *)
    let mapping_key := lower widget_type ++ "_" ++ param_name in
    let mapped :=
      match assoc mapping_key PARAMETER_MAPPINGS with
      | Some mapping =>
          match assoc value mapping with
          | Some target => Some target
          | None => assoc "default" mapping   (* Return default if available *)
          end
      | None => None
      end in
    match mapped with
    | Some target => target
    | None =>
        (* Fallback to first valid value if available *)
        if rule_truthy valid_values then rule_first valid_values
        else value                           (* original value as last resort *)
    end.

(* ===================================================================== *)
(** * Widgets *)
(* ===================================================================== *)

(** The classes of [chatkit.widgets] the two renderers construct. *)
Inductive WidgetType : Type :=
| Card | Box | Row | Col
| Text | Title | Caption | Image | Spacer
| Button | DatePicker | Select.

(** A constructed widget: its class, its keyword arguments other than
    [children] in the order they are given, and its [children] (empty when
    the call passes none). *)
Inductive Widget : Type :=
| Node (cls : WidgetType) (kwargs : dict) (children : list Widget).

Definition cls_of (w : Widget) : WidgetType := let 'Node c _ _ := w in c.
Definition kwargs_of (w : Widget) : dict := let 'Node _ k _ := w in k.
Definition children_of (w : Widget) : list Widget := let 'Node _ _ c := w in c.

(** [d[k]], read under the guard [k in d]. *)
Definition item (d : dict) (k : string) : json := get d k JNull.

(** [for param in params: if param in spec: kwargs[param] = spec[param]] *)
Definition optional (spec : dict) (params : list string) : dict :=
  flat_map (fun param => match assoc param spec with
                         | Some v => [(param, v)]
                         | None => []
                         end) params.

(* ===================================================================== *)
(** * [app/chatkit_widget_renderer.py] *)
(* ===================================================================== *)

(** The parsers as a record of the constructor calls they make: each call
    yields its node.  What the classes and the stack make of the calls is
    in [validated_renderer] below. *)

Module chatkit_widget_renderer.

Local Open Scope list_scope.

Record ChatKitWidgetData : Type := {
  title : string;
  widget_spec : json;
  key : string            (* "chatkit_widget" unless given *)
}.

(** The colour set that [_parse_text], [_parse_title] and [_parse_caption]
    each declare locally, with the same members. *)
Definition VALID_COLORS : list string :=
  ["primary"; "secondary"; "tertiary"; "success"; "warning"; "error";
   "accent"; "muted"; "inherit"].

Definition color_mapping : list (string * string) :=
  [("default", "primary"); ("normal", "primary"); ("text", "primary");
   ("label", "primary"); ("disabled", "muted"); ("danger", "error");
   ("info", "accent")].

Definition VALID_DIRECTIONS : list string := ["row"; "col"].

Definition direction_mapping : list (string * string) :=
  [("column", "col"); ("row", "row"); ("col", "col"); ("horizontal", "row");
   ("vertical", "col")].

Definition VALID_VARIANTS : list string := ["solid"; "soft"; "outline"; "ghost"].

Definition variant_mapping : list (string * string) :=
  [("primary", "solid"); ("secondary", "outline"); ("tertiary", "ghost");
   ("outline", "outline"); ("solid", "solid"); ("soft", "soft"); ("ghost", "ghost")].

(** The button [_parse_card] builds from a [confirm] or [cancel] descriptor. *)
Definition action_button (descriptor : json) (label variant : string) : result Widget :=
  d <- as_dict descriptor ;;
  let button_kwargs :=
    [("label", get d "label" (JStr label)); ("variant", JStr variant); ("size", JStr "sm")] in
  Ok (Node Button
        (if contains "action" d
         then button_kwargs ++ [("onClickAction", item d "action")]
         else button_kwargs)
        []).

(** Each container parser starts with the same loop over [spec["children"]];
    [compiled] is what that loop yields (see [_parse_widget_component]). *)
Definition _parse_card (compiled : result (list Widget)) (spec : dict) : result Widget :=
  children <- compiled ;;
  (* Handle confirm/cancel buttons *)
  children <-
    (if contains "confirm" spec || contains "cancel" spec then
       cancel_button <-
         (if contains "cancel" spec then
            b <- action_button (item spec "cancel") "Cancel" "outline" ;; Ok [b]
          else Ok []) ;;
       confirm_button <-
         (if contains "confirm" spec then
            b <- action_button (item spec "confirm") "Confirm" "solid" ;; Ok [b]
          else Ok []) ;;
       let button_row_children := cancel_button ++ confirm_button in
       match button_row_children with
       | [] => Ok children
       | _ => Ok (children ++
                  [Node Row [("justify", JStr "end"); ("gap", JInt 2)] button_row_children])
       end
     else Ok children) ;;
  let card_kwargs := [("size", get spec "size" (JStr "md"))] in
  Ok (Node Card
        (card_kwargs
           ++ optional spec ["background"; "padding"; "theme"; "status"; "collapsed"; "asForm"])
        children).

Definition _parse_row (compiled : result (list Widget)) (spec : dict) : result Widget :=
  children <- compiled ;;
  Ok (Node Row
        [("gap", get spec "gap" (JInt 2));
         ("align", get spec "align" (JStr "center"));
         ("justify", get spec "justify" (JStr "start"))]
        children).

Definition _parse_col (compiled : result (list Widget)) (spec : dict) : result Widget :=
  children <- compiled ;;
  Ok (Node Col
        [("gap", get spec "gap" (JInt 2));
         ("align", get spec "align" (JStr "start"))]
        children).

Definition _parse_text (spec : dict) : result Widget :=
  (* Handle editable text (show placeholder if no value) *)
  let value := get spec "value" (JStr EmptyString) in
  value <-
    (if contains "editable" spec && negb (truthy value) then
       editable <- as_dict (item spec "editable") ;;
       Ok (get editable "placeholder" (JStr "[Editable text]"))
     else Ok value) ;;
  let color := get spec "color" JNull in
  mapped_color <-
    (match color with
     | JNull => Ok (JStr "primary")
     | _ =>
         known <- set_contains VALID_COLORS color ;;
         if negb known then
           m <- mapping_get color_mapping color "primary" ;; Ok (JStr m)
         else Ok color
     end) ;;
  let text_kwargs :=
    [("value", value);
     ("size", get spec "size" (JStr "md"));
     ("weight", get spec "weight" (JStr "normal"));
     ("color", mapped_color)] in
  Ok (Node Text
        (text_kwargs
           ++ optional spec ["width"; "minLines"]
           ++ (if contains "style" spec && eq_str (item spec "style") "italic"
               then [("italic", JBool true)] else []))
        []).

Definition _parse_title (spec : dict) : result Widget :=
  let color := get spec "color" (JStr "primary") in
  known <- set_contains VALID_COLORS color ;;
  let color := if negb known then JStr "primary" else color in
  Ok (Node Title
        [("value", get spec "value" (JStr EmptyString));
         ("size", get spec "size" (JStr "lg"));
         ("weight", get spec "weight" (JStr "semibold"));
         ("color", color)]
        []).

Definition _parse_box (compiled : result (list Widget)) (spec : dict) : result Widget :=
  children <- compiled ;;
  let direction := get spec "direction" (JStr "col") in
  mapped_direction <- mapping_get direction_mapping direction "col" ;;
  (* Ensure we're using a valid direction *)
  let mapped_direction :=
    if negb (mem mapped_direction VALID_DIRECTIONS) then "col" else mapped_direction in
  Ok (Node Box
        [("padding", get spec "padding" (JInt 0));
         ("gap", get spec "gap" (JInt 0));
         ("direction", JStr mapped_direction);
         ("align", get spec "align" (JStr "start"));
         ("justify", get spec "justify" (JStr "start"));
         ("background", get spec "background" JNull);
         ("radius", get spec "radius" JNull)]
        children).

Definition _parse_button (spec : dict) : result Widget :=
  let variant := get spec "variant" (JStr "solid") in
  mapped_variant <- mapping_get variant_mapping variant "solid" ;;
  (* Ensure we're using a valid variant *)
  let mapped_variant :=
    if negb (mem mapped_variant VALID_VARIANTS) then "solid" else mapped_variant in
  let button_kwargs :=
    [("label", get spec "label" (JStr "Button"));
     ("variant", JStr mapped_variant);
     ("size", get spec "size" (JStr "md"))] in
  Ok (Node Button
        (if contains "action" spec
         then button_kwargs ++ [("onClickAction", item spec "action")]
         else button_kwargs)
        []).

(** ChatKit has no Divider: a thin filler box inside vertical padding. *)
Definition _parse_divider (spec : dict) : result Widget :=
  Ok (Node Box
        [("padding", JObj [("top", JInt 2); ("bottom", JInt 2)])]
        [Node Box
           [("height", JInt 1); ("background", JStr "surface-tertiary");
            ("width", JStr "100%")]
           []]).

Definition _parse_caption (spec : dict) : result Widget :=
  let color := get spec "color" JNull in
  mapped_color <-
    (match color with
     | JNull => Ok (JStr "tertiary")
     | _ =>
         known <- set_contains VALID_COLORS color ;;
         if negb known then Ok (JStr "tertiary") else Ok color
     end) ;;
  let caption_kwargs :=
    [("value", get spec "value" (JStr EmptyString));
     ("color", mapped_color);
     ("size", get spec "size" (JStr "sm"));
     ("weight", get spec "weight" (JStr "normal"))] in
  Ok (Node Caption
        (caption_kwargs ++ optional spec ["textAlign"; "truncate"; "maxLines"])
        []).

Definition _parse_image (spec : dict) : result Widget :=
  let image_kwargs :=
    [("src", get spec "src" (JStr EmptyString));
     ("alt", get spec "alt" (JStr "Image"))] in
  Ok (Node Image
        (image_kwargs
           ++ optional spec
                ["fit"; "position"; "radius"; "frame"; "flush";
                 "height"; "width"; "size"; "minHeight"; "minWidth"; "minSize";
                 "maxHeight"; "maxWidth"; "maxSize"; "margin"; "background";
                 "aspectRatio"; "flex"])
        []).

Definition _parse_spacer (spec : dict) : result Widget :=
  Ok (Node Spacer (optional spec ["minSize"]) []).

Definition _parse_datepicker (spec : dict) : result Widget :=
  let datepicker_kwargs :=
    [("name", get spec "name" (JStr "date"));
     ("placeholder", get spec "placeholder" (JStr "Select date"))] in
  Ok (Node DatePicker
        (datepicker_kwargs
           ++ optional spec
                ["onChangeAction"; "defaultValue"; "min"; "max"; "variant";
                 "size"; "side"; "align"; "pill"; "block"; "clearable"; "disabled"])
        []).

Definition _parse_select (spec : dict) : result Widget :=
  let select_kwargs :=
    [("name", get spec "name" (JStr "select"));
     ("options", get spec "options" (JArr []));
     ("placeholder", get spec "placeholder" (JStr "Select option"))] in
  Ok (Node Select
        (select_kwargs
           ++ optional spec
                ["onChangeAction"; "defaultValue"; "variant"; "size";
                 "pill"; "block"; "clearable"; "disabled"])
        []).

(** The widget for a type tag no parser claims. *)
Definition unknown_widget (widget_type : json) : Widget :=
  Node Text
    [("value", JStr ("Unknown widget type: " ++ py_str widget_type)%string);
     ("color", JStr "tertiary");
     ("size", JStr "sm")]
    [].

(** The dispatch on the type tag, with the children loop's outcome at hand. *)
Definition dispatch (compiled : result (list Widget)) (spec : dict) (widget_type : json)
  : result Widget :=
  if eq_str widget_type "Card" then _parse_card compiled spec
  else if eq_str widget_type "Row" then _parse_row compiled spec
  else if eq_str widget_type "Col" then _parse_col compiled spec
  else if eq_str widget_type "Text" then _parse_text spec
  else if eq_str widget_type "Title" then _parse_title spec
  else if eq_str widget_type "Box" then _parse_box compiled spec
  else if eq_str widget_type "Button" then _parse_button spec
  else if eq_str widget_type "Divider" then _parse_divider spec
  else if eq_str widget_type "Caption" then _parse_caption spec
  else if eq_str widget_type "Image" then _parse_image spec
  else if eq_str widget_type "Spacer" then _parse_spacer spec
  else if eq_str widget_type "DatePicker" then _parse_datepicker spec
  else if eq_str widget_type "Select" then _parse_select spec
  else Ok (unknown_widget widget_type).

(** [_parse_widget_component].  The recursion goes through the value bound
    to ["children"]: the inner [locate] walks the members to that binding
    and [loop] is the [for] loop of the container parsers,

      children = []
      if "children" in spec:
          for child_spec in spec["children"]:
              child = _parse_widget_component(child_spec)
              if child:
                  children.append(child)

    Iterating a string yields one-character strings and iterating a dict
    yields its keys; none is a dict, so each compiles to [None] and is
    skipped.  Iterating [None], a boolean or a number raises. *)
Fixpoint _parse_widget_component (spec : json) : result (option Widget) :=
  match spec with
  | JObj members =>
      match assoc "type" members with
      | None => Ok None
      | Some widget_type =>
          let compiled :=
            (fix locate (m : dict) : result (list Widget) :=
               match m with
               | [] => Ok []
               | (k, v) :: m' =>
                   if String.eqb "children" k then
                     match v with
                     | JArr items =>
                         (fix loop (l : list json) : result (list Widget) :=
                            match l with
                            | [] => Ok []
                            | child_spec :: l' =>
                                child <- _parse_widget_component child_spec ;;
                                rest <- loop l' ;;
                                Ok (match child with
                                    | Some w => w :: rest
                                    | None => rest
                                    end)
                            end) items
                     | JStr _ | JObj _ => Ok []
                     | _ => Raise (TypeError_not_iterable (type_name v))
                     end
                   else locate m'
               end) members in
          w <- dispatch compiled members widget_type ;;
          Ok (Some w)
      end
  | _ => Ok None
  end.

(** The children loop, as the container parsers write it. *)
Fixpoint compile_each (l : list json) : result (list Widget) :=
  match l with
  | [] => Ok []
  | child_spec :: l' =>
      child <- _parse_widget_component child_spec ;;
      rest <- compile_each l' ;;
      Ok (match child with
          | Some w => w :: rest
          | None => rest
          end)
  end.

Definition compile_children (spec : dict) : result (list Widget) :=
  match assoc "children" spec with
  | None => Ok []
  | Some (JArr items) => compile_each items
  | Some (JStr _) | Some (JObj _) => Ok []
  | Some v => Raise (TypeError_not_iterable (type_name v))
  end.

Definition render_chatkit_widget_from_json (data : ChatKitWidgetData) : Widget :=
  match _parse_widget_component (widget_spec data) with
  | Ok widget =>
      match widget with
      | Some (Node Card kwargs children) =>
          (* If it's already a Card, return it directly *)
          Node Card kwargs children
      | _ =>
          (* Otherwise, wrap it in a Card *)
          Node Card
            [("key", JStr (key data)); ("padding", JInt 0)]
            (match widget with Some w => [w] | None => [] end)
      end
  | Raise e =>
      (* Fallback error widget *)
      Node Card
        [("key", JStr (key data)); ("padding", JInt 4)]
        [Node Text
           [("value", JStr ("Error rendering widget: " ++ str_exn e)%string);
            ("color", JStr "error");
            ("weight", JStr "medium")]
           []]
  end.

Definition chatkit_widget_copy_text (data : ChatKitWidgetData) : string :=
  match json_dumps (widget_spec data) with
  | Ok json_str =>
      (title data ++ LF ++ LF ++ "Widget Specification:" ++ LF ++ json_str)%string
  | Raise _ =>
      (title data ++ LF ++ LF ++ "ChatKit widget (could not serialize specification)")%string
  end.

End chatkit_widget_renderer.

(* ===================================================================== *)
(** * [app/json_widget.py] *)
(* ===================================================================== *)

(** The walk as a record of the constructor calls it makes, as deep as
    the data and [max_depth] take it.  The walk within the stack of the
    interpreter is in [bounded_json_widget] below. *)

Module json_widget.

Local Open Scope list_scope.
Local Open Scope Z_scope.

Record JsonWidgetData : Type := {
  title : string;
  data : json;
  key : string;           (* "json_widget" unless given *)
  max_depth : Z;          (* 3 unless given *)
  show_types : bool       (* True unless given *)
}.

(** [s[:n]] for [0 <= n] *)
Definition str_prefix (n : nat) (s : string) : string := String.substring 0 n s.

(** The leaf shown where the walk is cut off. *)
Definition max_depth_reached : Widget :=
  Node Text
    [("value", JStr "... (max depth reached)");
     ("color", JStr "tertiary");
     ("size", JStr "sm");
     ("style", JStr "italic")]
    [].

(** The text [_render_primitive] displays for a string. *)
Definition display_string (value : string) : string :=
  if (100 <? String.length value)%nat
  then (DQ ++ str_prefix 97 value ++ "..." ++ DQ)%string
  else (DQ ++ value ++ DQ)%string.

Definition _render_primitive (value : json) (show_types : bool) (key_name : string)
  : Widget :=
  let '(display_value, color, type_info) :=
    match value with
    | JNull => ("null", "tertiary", "null")
    | JBool b => (if b then "true" else "false", if b then "accent" else "error", "boolean")
    | JInt z => (str_int z, "success", "number")
    | JFloat r => (r, "success", "number")
    | JStr s => (display_string s, "primary", "string")
    | _ => (py_str value, "secondary", "unknown")
    end in
  let components :=
    [Node Text
       [("value", JStr display_value);
        ("color", JStr color);
        ("size", JStr "sm");
        ("family", JStr (match value with
                         | JNull | JStr _ => "default"
                         | _ => "mono"
                         end))]
       []] in
  Node Row
    [("gap", JInt 2); ("align", JStr "center")]
    (if show_types && negb (String.eqb type_info EmptyString) then
       components ++
       [Node Text
          [("value", JStr ("(" ++ type_info ++ ")")%string);
           ("color", JStr "tertiary");
           ("size", JStr "xs");
           ("style", JStr "italic")]
          []]
     else components).

(** The frame [_render_object] and [_render_array] put around their rows. *)
Definition rows_box (items : list Widget) : Widget :=
  Node Box
    [("padding", JInt 3); ("radius", JStr "md"); ("background", JStr "surface-tertiary")]
    [Node Col [("gap", JInt 2)] items].

Definition empty_literal (text : string) : Widget :=
  Node Text
    [("value", JStr text); ("color", JStr "tertiary"); ("size", JStr "sm");
     ("family", JStr "mono")]
    [].

(** One row of an object: the key as a label, then the rendered value. *)
Definition object_row (k : string) (value_component : Widget) : Widget :=
  let key_component :=
    Node Text
      [("value", JStr (k ++ ":")%string); ("weight", JStr "medium"); ("size", JStr "sm");
       ("color", JStr "secondary")]
      [] in
  Node Row
    [("gap", JInt 2); ("align", JStr "start")]
    [Node Box [("minWidth", JInt 100)] [key_component];
     Node Box [("flex", JStr "1")] [value_component]].

(** One row of an array: the index, then the rendered value. *)
Definition array_row (i : Z) (value_component : Widget) : Widget :=
  let index_component :=
    Node Text
      [("value", JStr ("[" ++ str_int i ++ "]")%string); ("weight", JStr "medium");
       ("size", JStr "sm"); ("color", JStr "tertiary"); ("family", JStr "mono")]
      [] in
  Node Row
    [("gap", JInt 2); ("align", JStr "start")]
    [Node Box [("minWidth", JInt 50)] [index_component];
     Node Box [("flex", JStr "1")] [value_component]].

(** [_render_json_content], with [_render_object] and [_render_array]
    in place: [rows] is the loop over [obj.items()] and [entries] the loop
    over [enumerate(arr)]. *)
Fixpoint _render_json_content (value : json) (depth max_depth : Z) (show_types : bool)
    (key_name : string) {struct value} : Widget :=
  if depth >? max_depth then max_depth_reached
  else
    match value with
    | JObj obj =>
        match obj with
        | [] => empty_literal "{}"
        | _ =>
            rows_box
              ((fix rows (l : dict) : list Widget :=
                  match l with
                  | [] => []
                  | (k, v) :: l' =>
                      object_row k
                        (_render_json_content v (depth + 1) max_depth show_types k)
                      :: rows l'
                  end) obj)
        end
    | JArr arr =>
        match arr with
        | [] => empty_literal "[]"
        | _ =>
            rows_box
              ((fix entries (i : Z) (l : list json) : list Widget :=
                  match l with
                  | [] => []
                  | v :: l' =>
                      array_row i
                        (_render_json_content v (depth + 1) max_depth show_types
                           ("item_" ++ str_int i)%string)
                      :: entries (i + 1) l'
                  end) 0 arr)
        end
    | _ => _render_primitive value show_types key_name
    end.

(** The two loops, named. *)
Definition object_rows (depth max_depth : Z) (show_types : bool) : dict -> list Widget :=
  fix rows (l : dict) : list Widget :=
    match l with
    | [] => []
    | (k, v) :: l' =>
        object_row k (_render_json_content v (depth + 1) max_depth show_types k)
        :: rows l'
    end.

Definition array_rows (depth max_depth : Z) (show_types : bool)
  : Z -> list json -> list Widget :=
  fix entries (i : Z) (l : list json) : list Widget :=
    match l with
    | [] => []
    | v :: l' =>
        array_row i
          (_render_json_content v (depth + 1) max_depth show_types
             ("item_" ++ str_int i)%string)
        :: entries (i + 1) l'
    end.

Definition _render_object (obj : dict) (depth max_depth : Z) (show_types : bool) : Widget :=
  match obj with
  | [] => empty_literal "{}"
  | _ => rows_box (object_rows depth max_depth show_types obj)
  end.

Definition _render_array (arr : list json) (depth max_depth : Z) (show_types : bool)
  : Widget :=
  match arr with
  | [] => empty_literal "[]"
  | _ => rows_box (array_rows depth max_depth show_types 0 arr)
  end.

Definition render_json_widget (d : JsonWidgetData) : Widget :=
  let header :=
    Node Box
      [("padding", JInt 4); ("background", JStr "surface-secondary")]
      [Node Row
         [("justify", JStr "between"); ("align", JStr "center")]
         [Node Title
            [("value", JStr (title d)); ("size", JStr "lg"); ("weight", JStr "semibold")]
            [];
          Node Text
            [("value", JStr "JSON Data"); ("size", JStr "xs"); ("color", JStr "tertiary");
             ("weight", JStr "medium")]
            []]] in
  let content := _render_json_content (data d) 0 (max_depth d) (show_types d) EmptyString in
  let body := Node Box [("padding", JInt 4); ("gap", JInt 3)] [content] in
  Node Card [("key", JStr (key d)); ("padding", JInt 0)] [header; body].


End json_widget.

(* ===================================================================== *)
(** * [app/chat.py]: the helpers and tools around the two renderers *)
(* ===================================================================== *)

Module chat.

Local Open Scope list_scope.

(** What a tool body ends with: a returned value or a [ValueError]. *)
Inductive outcome (A : Type) : Type :=
| Return (a : A)
| ValueError (msg : string).

Arguments Return {A} a.
Arguments ValueError {A} msg.

Definition SUPPORTED_COLOR_SCHEMES : list string := ["light"; "dark"].

Definition CLIENT_THEME_TOOL_NAME : string := "switch_theme".

(** [c.isspace()] on one character (code points below 256). *)
Definition is_space (c : ascii) : bool :=
  let n := N_of_ascii c in
  ((9 <=? n) && (n <=? 13) || (28 <=? n) && (n <=? 32) || (n =? 133) || (n =? 160))%N.

Fixpoint lstrip (s : string) : string :=
  match s with
  | EmptyString => EmptyString
  | String c s' => if is_space c then lstrip s' else s
  end.

Fixpoint rstrip (s : string) : string :=
  match s with
  | EmptyString => EmptyString
  | String c s' =>
      match rstrip s' with
      | EmptyString => if is_space c then EmptyString else String c EmptyString
      | kept => String c kept
      end
  end.

(** [s.strip()] *)
Definition strip (s : string) : string := rstrip (lstrip s).

Definition _normalize_color_scheme (value : string) : outcome string :=
  let normalized := lower (strip value) in
  if mem normalized SUPPORTED_COLOR_SCHEMES then Return normalized
  else if str_in "dark" normalized then Return "dark"
  else if str_in "light" normalized then Return "light"
  else ValueError "Theme must be either 'light' or 'dark'.".

(** [ClientToolCall(name=..., arguments=...)] *)
Record ClientToolCall : Type := {
  name : string;
  arguments : list (string * string)
}.

(** [switch_theme]: the state is [ctx.context.client_tool_call]; the
    result is the returned dict, or [None] after the [except] branch. *)
Definition switch_theme (client_tool_call : option ClientToolCall) (theme : string)
  : option ClientToolCall * option (list (string * string)) :=
  match _normalize_color_scheme theme with
  | Return requested =>
      (Some {| name := CLIENT_THEME_TOOL_NAME; arguments := [("theme", requested)] |},
       Some [("theme", requested)])
  | ValueError _ => (client_tool_call, None)
  end.

(** [_user_message_text]: a part of [item.content] is given by
    [getattr(part, "text", None)]. *)
Definition _user_message_text (content : list (option string)) : string :=
  let parts :=
    flat_map (fun text => match text with
                          | Some t => if negb (String.eqb t EmptyString) then [t] else []
                          | None => []
                          end) content in
  strip (join " " parts).

(** What [ctx.context.stream_widget(widget, copy_text=...)] receives. *)
Definition streamed : Type := (Widget * string)%type.

(** The body of the [render_chatkit_widget] tool once
    [json.loads(widget_json)] has returned [widget_spec]; [hash_value] is
    [hash(widget_json)].  The result pairs the widgets streamed with the
    way the call ends; [stream_widget] itself is taken to succeed. *)
Definition render_chatkit_widget (title : string) (widget_spec : json) (hash_value : Z)
  : list streamed * outcome dict :=
  let widget_data :=
    {| chatkit_widget_renderer.title := title;
       chatkit_widget_renderer.widget_spec := widget_spec;
       chatkit_widget_renderer.key :=
         ("chatkit_" ++ str_int (hash_value mod 10000))%string |} in
  let widget := chatkit_widget_renderer.render_chatkit_widget_from_json widget_data in
  let copy_text := chatkit_widget_renderer.chatkit_widget_copy_text widget_data in
  ([(widget, copy_text)],
   match as_dict widget_spec with
   | Ok spec =>
       Return [("title", JStr title);
               ("status", JStr "success");
               ("widget_type", get spec "type" (JStr "unknown"));
               ("has_children", JBool (contains "children" spec))]
   | Raise exc =>
       ValueError ("Error rendering ChatKit widget: " ++ str_exn exc)%string
   end).

End chat.

(* ===================================================================== *)
(** * The two renderers inside the running program *)
(* ===================================================================== *)

(** The modules above record the constructor calls the renderers make and
    recurse as deep as the data goes.  In the running program two things
    can stop them: a class of [chatkit.widgets] may refuse the arguments
    of a call, and the interpreter allows only so many nested calls.  The
    two modules below add them, in the words of the source again.
    [validated_renderer] is the spec-driven compiler with every
    constructor call put to the class and a budget of frames;
    [bounded_json_widget] is the generic-data walk with a budget of
    frames.  Only the calls among the functions of a module are counted
    as frames: what a constructor needs of the stack comes on top. *)

Module validated_renderer.

Local Open Scope list_scope.

(** What can be raised: an exception of the module's own code, the
    exception of a constructor that refuses its arguments (the
    [ValidationError] of the classes), with the text [str(e)] gives, or
    the interpreter's [RecursionError]. *)
Inductive py_exn : Type :=
| Native (e : exn)
| ValidationError (cls : WidgetType) (msg : string)
| RecursionError.

Inductive run (A : Type) : Type :=
| Fine (a : A)
| Fails (e : py_exn).

Arguments Fine {A} a.
Arguments Fails {A} e.

Definition and_then {A B : Type} (r : run A) (k : A -> run B) : run B :=
  match r with
  | Fine a => k a
  | Fails e => Fails e
  end.

Notation "x <~ r ;; k" := (and_then r (fun x => k))
  (at level 61, r at next level, right associativity).

(** A computation of the module's own code, inside the program. *)
Definition own {A : Type} (r : result A) : run A :=
  match r with
  | Ok a => Fine a
  | Raise e => Fails (Native e)
  end.

Section with_constructors.

(** The behaviour of the classes: [rejects c kwargs children] is [None]
    when the call of class [c] with the keywords [kwargs] and the given
    [children] builds the object, and the text of the [ValidationError]
    when the class refuses them. *)
Variable rejects : WidgetType -> dict -> list Widget -> option string.

(** The text the interpreter gives its [RecursionError]. *)
Variable recursion_message : string.

Definition str_py_exn (e : py_exn) : string :=
  match e with
  | Native e => str_exn e
  | ValidationError _ msg => msg
  | RecursionError => recursion_message
  end.

(** A constructor call. *)
Definition construct (c : WidgetType) (kwargs : dict) (children : list Widget) : run Widget :=
  match rejects c kwargs children with
  | None => Fine (Node c kwargs children)
  | Some msg => Fails (ValidationError c msg)
  end.

Definition action_button (descriptor : json) (label variant : string) : run Widget :=
  d <~ own (as_dict descriptor) ;;
  let button_kwargs :=
    [("label", get d "label" (JStr label)); ("variant", JStr variant); ("size", JStr "sm")] in
  construct Button
    (if contains "action" d
     then button_kwargs ++ [("onClickAction", item d "action")]
     else button_kwargs)
    [].

Definition _parse_card (compiled : run (list Widget)) (spec : dict) : run Widget :=
  children <~ compiled ;;
  (* Handle confirm/cancel buttons *)
  children <~
    (if contains "confirm" spec || contains "cancel" spec then
       cancel_button <~
         (if contains "cancel" spec then
            b <~ action_button (item spec "cancel") "Cancel" "outline" ;; Fine [b]
          else Fine []) ;;
       confirm_button <~
         (if contains "confirm" spec then
            b <~ action_button (item spec "confirm") "Confirm" "solid" ;; Fine [b]
          else Fine []) ;;
       let button_row_children := cancel_button ++ confirm_button in
       match button_row_children with
       | [] => Fine children
       | _ =>
           row <~ construct Row [("justify", JStr "end"); ("gap", JInt 2)]
                    button_row_children ;;
           Fine (children ++ [row])
       end
     else Fine children) ;;
  let card_kwargs := [("size", get spec "size" (JStr "md"))] in
  construct Card
    (card_kwargs
       ++ optional spec ["background"; "padding"; "theme"; "status"; "collapsed"; "asForm"])
    children.

Definition _parse_row (compiled : run (list Widget)) (spec : dict) : run Widget :=
  children <~ compiled ;;
  construct Row
    [("gap", get spec "gap" (JInt 2));
     ("align", get spec "align" (JStr "center"));
     ("justify", get spec "justify" (JStr "start"))]
    children.

Definition _parse_col (compiled : run (list Widget)) (spec : dict) : run Widget :=
  children <~ compiled ;;
  construct Col
    [("gap", get spec "gap" (JInt 2));
     ("align", get spec "align" (JStr "start"))]
    children.

Definition _parse_text (spec : dict) : run Widget :=
  (* Handle editable text (show placeholder if no value) *)
  let value := get spec "value" (JStr EmptyString) in
  value <~
    (if contains "editable" spec && negb (truthy value) then
       editable <~ own (as_dict (item spec "editable")) ;;
       Fine (get editable "placeholder" (JStr "[Editable text]"))
     else Fine value) ;;
  let color := get spec "color" JNull in
  mapped_color <~
    (match color with
     | JNull => Fine (JStr "primary")
     | _ =>
         known <~ own (set_contains chatkit_widget_renderer.VALID_COLORS color) ;;
         if negb known then
           m <~ own (mapping_get chatkit_widget_renderer.color_mapping color "primary") ;;
           Fine (JStr m)
         else Fine color
     end) ;;
  let text_kwargs :=
    [("value", value);
     ("size", get spec "size" (JStr "md"));
     ("weight", get spec "weight" (JStr "normal"));
     ("color", mapped_color)] in
  construct Text
    (text_kwargs
       ++ optional spec ["width"; "minLines"]
       ++ (if contains "style" spec && eq_str (item spec "style") "italic"
           then [("italic", JBool true)] else []))
    [].

Definition _parse_title (spec : dict) : run Widget :=
  let color := get spec "color" (JStr "primary") in
  known <~ own (set_contains chatkit_widget_renderer.VALID_COLORS color) ;;
  let color := if negb known then JStr "primary" else color in
  construct Title
    [("value", get spec "value" (JStr EmptyString));
     ("size", get spec "size" (JStr "lg"));
     ("weight", get spec "weight" (JStr "semibold"));
     ("color", color)]
    [].

Definition _parse_box (compiled : run (list Widget)) (spec : dict) : run Widget :=
  children <~ compiled ;;
  let direction := get spec "direction" (JStr "col") in
  mapped_direction <~
    own (mapping_get chatkit_widget_renderer.direction_mapping direction "col") ;;
  (* Ensure we're using a valid direction *)
  let mapped_direction :=
    if negb (mem mapped_direction chatkit_widget_renderer.VALID_DIRECTIONS)
    then "col" else mapped_direction in
  construct Box
    [("padding", get spec "padding" (JInt 0));
     ("gap", get spec "gap" (JInt 0));
     ("direction", JStr mapped_direction);
     ("align", get spec "align" (JStr "start"));
     ("justify", get spec "justify" (JStr "start"));
     ("background", get spec "background" JNull);
     ("radius", get spec "radius" JNull)]
    children.

Definition _parse_button (spec : dict) : run Widget :=
  let variant := get spec "variant" (JStr "solid") in
  mapped_variant <~
    own (mapping_get chatkit_widget_renderer.variant_mapping variant "solid") ;;
  (* Ensure we're using a valid variant *)
  let mapped_variant :=
    if negb (mem mapped_variant chatkit_widget_renderer.VALID_VARIANTS)
    then "solid" else mapped_variant in
  let button_kwargs :=
    [("label", get spec "label" (JStr "Button"));
     ("variant", JStr mapped_variant);
     ("size", get spec "size" (JStr "md"))] in
  construct Button
    (if contains "action" spec
     then button_kwargs ++ [("onClickAction", item spec "action")]
     else button_kwargs)
    [].

(** The inner box is built first, being an argument of the outer call. *)
Definition _parse_divider (spec : dict) : run Widget :=
  line <~ construct Box
            [("height", JInt 1); ("background", JStr "surface-tertiary");
             ("width", JStr "100%")]
            [] ;;
  construct Box [("padding", JObj [("top", JInt 2); ("bottom", JInt 2)])] [line].

Definition _parse_caption (spec : dict) : run Widget :=
  let color := get spec "color" JNull in
  mapped_color <~
    (match color with
     | JNull => Fine (JStr "tertiary")
     | _ =>
         known <~ own (set_contains chatkit_widget_renderer.VALID_COLORS color) ;;
         if negb known then Fine (JStr "tertiary") else Fine color
     end) ;;
  let caption_kwargs :=
    [("value", get spec "value" (JStr EmptyString));
     ("color", mapped_color);
     ("size", get spec "size" (JStr "sm"));
     ("weight", get spec "weight" (JStr "normal"))] in
  construct Caption
    (caption_kwargs ++ optional spec ["textAlign"; "truncate"; "maxLines"])
    [].

Definition _parse_image (spec : dict) : run Widget :=
  let image_kwargs :=
    [("src", get spec "src" (JStr EmptyString));
     ("alt", get spec "alt" (JStr "Image"))] in
  construct Image
    (image_kwargs
       ++ optional spec
            ["fit"; "position"; "radius"; "frame"; "flush";
             "height"; "width"; "size"; "minHeight"; "minWidth"; "minSize";
             "maxHeight"; "maxWidth"; "maxSize"; "margin"; "background";
             "aspectRatio"; "flex"])
    [].

Definition _parse_spacer (spec : dict) : run Widget :=
  construct Spacer (optional spec ["minSize"]) [].

Definition _parse_datepicker (spec : dict) : run Widget :=
  let datepicker_kwargs :=
    [("name", get spec "name" (JStr "date"));
     ("placeholder", get spec "placeholder" (JStr "Select date"))] in
  construct DatePicker
    (datepicker_kwargs
       ++ optional spec
            ["onChangeAction"; "defaultValue"; "min"; "max"; "variant";
             "size"; "side"; "align"; "pill"; "block"; "clearable"; "disabled"])
    [].

Definition _parse_select (spec : dict) : run Widget :=
  let select_kwargs :=
    [("name", get spec "name" (JStr "select"));
     ("options", get spec "options" (JArr []));
     ("placeholder", get spec "placeholder" (JStr "Select option"))] in
  construct Select
    (select_kwargs
       ++ optional spec
            ["onChangeAction"; "defaultValue"; "variant"; "size";
             "pill"; "block"; "clearable"; "disabled"])
    [].

(** Unknown widget type - render as text *)
Definition unknown_widget (widget_type : json) : run Widget :=
  construct Text
    [("value", JStr ("Unknown widget type: " ++ py_str widget_type)%string);
     ("color", JStr "tertiary");
     ("size", JStr "sm")]
    [].

(** A call of a function of the module: it needs a frame, and its body
    runs with one frame less. *)
Definition call {A : Type} (frames : nat) (body : nat -> run A) : run A :=
  match frames with
  | O => Fails RecursionError
  | S inside => body inside
  end.

(** The dispatch of [_parse_widget_component]; [compiled] is the outcome
    of the children loop of the parser called, by the frames the parser
    has left. *)
Definition dispatch (frames : nat) (compiled : nat -> run (list Widget)) (spec : dict)
    (widget_type : json) : run Widget :=
  if eq_str widget_type "Card" then call frames (fun inside => _parse_card (compiled inside) spec)
  else if eq_str widget_type "Row" then call frames (fun inside => _parse_row (compiled inside) spec)
  else if eq_str widget_type "Col" then call frames (fun inside => _parse_col (compiled inside) spec)
  else if eq_str widget_type "Text" then call frames (fun _ => _parse_text spec)
  else if eq_str widget_type "Title" then call frames (fun _ => _parse_title spec)
  else if eq_str widget_type "Box" then call frames (fun inside => _parse_box (compiled inside) spec)
  else if eq_str widget_type "Button" then call frames (fun _ => _parse_button spec)
  else if eq_str widget_type "Divider" then call frames (fun _ => _parse_divider spec)
  else if eq_str widget_type "Caption" then call frames (fun _ => _parse_caption spec)
  else if eq_str widget_type "Image" then call frames (fun _ => _parse_image spec)
  else if eq_str widget_type "Spacer" then call frames (fun _ => _parse_spacer spec)
  else if eq_str widget_type "DatePicker" then call frames (fun _ => _parse_datepicker spec)
  else if eq_str widget_type "Select" then call frames (fun _ => _parse_select spec)
  else unknown_widget widget_type.

(** [_parse_widget_component], called with [frames] frames left, with the
    children loop of the container parsers written in place as in
    [chatkit_widget_renderer]. *)
Fixpoint _parse_widget_component (frames : nat) (spec : json) {struct spec}
  : run (option Widget) :=
  match frames with
  | O => Fails RecursionError
  | S inside =>
      match spec with
      | JObj members =>
          match assoc "type" members with
          | None => Fine None
          | Some widget_type =>
              let compiled := fun deeper : nat =>
                (fix locate (m : dict) : run (list Widget) :=
                   match m with
                   | [] => Fine []
                   | (k, v) :: m' =>
                       if String.eqb "children" k then
                         match v with
                         | JArr items =>
                             (fix loop (l : list json) : run (list Widget) :=
                                match l with
                                | [] => Fine []
                                | child_spec :: l' =>
                                    child <~ _parse_widget_component deeper child_spec ;;
                                    rest <~ loop l' ;;
                                    Fine (match child with
                                          | Some w => w :: rest
                                          | None => rest
                                          end)
                                end) items
                         | JStr _ | JObj _ => Fine []
                         | _ => Fails (Native (TypeError_not_iterable (type_name v)))
                         end
                       else locate m'
                   end) members in
              w <~ dispatch inside compiled members widget_type ;;
              Fine (Some w)
          end
      | _ => Fine None
      end
  end.

Fixpoint compile_each (frames : nat) (l : list json) : run (list Widget) :=
  match l with
  | [] => Fine []
  | child_spec :: l' =>
      child <~ _parse_widget_component frames child_spec ;;
      rest <~ compile_each frames l' ;;
      Fine (match child with
            | Some w => w :: rest
            | None => rest
            end)
  end.

Definition compile_children (frames : nat) (spec : dict) : run (list Widget) :=
  match assoc "children" spec with
  | None => Fine []
  | Some (JArr items) => compile_each frames items
  | Some (JStr _) | Some (JObj _) => Fine []
  | Some v => Fails (Native (TypeError_not_iterable (type_name v)))
  end.

(** [render_chatkit_widget_from_json].  The wrapping [Card] is built
    inside the [try]; the error card is built in the [except] branch, where
    nothing catches a refusal. *)
Definition render_chatkit_widget_from_json (frames : nat)
    (data : chatkit_widget_renderer.ChatKitWidgetData) : run Widget :=
  call frames (fun inside =>
    let attempt :=
      widget <~ _parse_widget_component inside (chatkit_widget_renderer.widget_spec data) ;;
      match widget with
      | Some (Node Card kwargs children) => Fine (Node Card kwargs children)
      | _ =>
          construct Card
            [("key", JStr (chatkit_widget_renderer.key data)); ("padding", JInt 0)]
            (match widget with Some w => [w] | None => [] end)
      end in
    match attempt with
    | Fine root => Fine root
    | Fails e =>
        message <~ construct Text
                     [("value", JStr ("Error rendering widget: " ++ str_py_exn e)%string);
                      ("color", JStr "error");
                      ("weight", JStr "medium")]
                     [] ;;
        construct Card
          [("key", JStr (chatkit_widget_renderer.key data)); ("padding", JInt 4)]
          [message]
    end).

End with_constructors.

End validated_renderer.

Module bounded_json_widget.

Local Open Scope list_scope.
Local Open Scope Z_scope.

Inductive walk (A : Type) : Type :=
| Rendered (a : A)
| RecursionError.

Arguments Rendered {A} a.
Arguments RecursionError {A}.

Definition and_then {A B : Type} (r : walk A) (k : A -> walk B) : walk B :=
  match r with
  | Rendered a => k a
  | RecursionError => RecursionError
  end.

Notation "x <~ r ;; k" := (and_then r (fun x => k))
  (at level 61, r at next level, right associativity).

(** [frames] is the number of calls the interpreter still allows to be
    nested when a function is called, that call included: a call made
    with none left raises [RecursionError], and what the function calls
    has one frame less.  Only calls among the functions of the module are
    counted; what the constructors need comes on top of it.

    [_render_json_content] with [_render_object] and [_render_array] in
    place, each of them a call of its own. *)
Fixpoint _render_json_content (frames : nat) (value : json) (depth max_depth : Z)
    (show_types : bool) (key_name : string) {struct frames} : walk Widget :=
  match frames with
  | O => RecursionError
  | S inside =>
      if depth >? max_depth then Rendered json_widget.max_depth_reached
      else
        match value with
        | JObj obj =>
            (* return _render_object(value, depth, max_depth, show_types) *)
            match inside with
            | O => RecursionError
            | S deeper =>
                match obj with
                | [] => Rendered (json_widget.empty_literal "{}")
                | _ =>
                    items <~
                      (fix rows (l : dict) : walk (list Widget) :=
                         match l with
                         | [] => Rendered []
                         | (k, v) :: l' =>
                             value_component <~
                               _render_json_content deeper v (depth + 1) max_depth
                                 show_types k ;;
                             rest <~ rows l' ;;
                             Rendered (json_widget.object_row k value_component :: rest)
                         end) obj ;;
                    Rendered (json_widget.rows_box items)
                end
            end
        | JArr arr =>
            (* return _render_array(value, depth, max_depth, show_types) *)
            match inside with
            | O => RecursionError
            | S deeper =>
                match arr with
                | [] => Rendered (json_widget.empty_literal "[]")
                | _ =>
                    items <~
                      (fix entries (i : Z) (l : list json) : walk (list Widget) :=
                         match l with
                         | [] => Rendered []
                         | v :: l' =>
                             value_component <~
                               _render_json_content deeper v (depth + 1) max_depth
                                 show_types ("item_" ++ str_int i)%string ;;
                             rest <~ entries (i + 1) l' ;;
                             Rendered (json_widget.array_row i value_component :: rest)
                         end) 0 arr ;;
                    Rendered (json_widget.rows_box items)
                end
            end
        | _ =>
            (* return _render_primitive(value, show_types, key_name) *)
            match inside with
            | O => RecursionError
            | S _ => Rendered (json_widget._render_primitive value show_types key_name)
            end
        end
  end.

(** The loops of [_render_object] and [_render_array], by themselves. *)
Definition object_rows (frames : nat) (depth max_depth : Z) (show_types : bool)
  : dict -> walk (list Widget) :=
  fix rows (l : dict) : walk (list Widget) :=
    match l with
    | [] => Rendered []
    | (k, v) :: l' =>
        and_then
          (_render_json_content frames v (depth + 1) max_depth show_types k)
          (fun value_component =>
             and_then (rows l')
               (fun rest =>
                  Rendered (json_widget.object_row k value_component :: rest)))
    end.

Definition array_rows (frames : nat) (depth max_depth : Z) (show_types : bool)
  : Z -> list json -> walk (list Widget) :=
  fix entries (i : Z) (l : list json) : walk (list Widget) :=
    match l with
    | [] => Rendered []
    | v :: l' =>
        and_then
          (_render_json_content frames v (depth + 1) max_depth show_types
             ("item_" ++ str_int i)%string)
          (fun value_component =>
             and_then (entries (i + 1) l')
               (fun rest =>
                  Rendered (json_widget.array_row i value_component :: rest)))
    end.

(** [render_json_widget]: no [try] surrounds the walk. *)
Definition render_json_widget (frames : nat) (d : json_widget.JsonWidgetData)
  : walk Widget :=
  match frames with
  | O => RecursionError
  | S inside =>
      let header :=
        Node Box
          [("padding", JInt 4); ("background", JStr "surface-secondary")]
          [Node Row
             [("justify", JStr "between"); ("align", JStr "center")]
             [Node Title
                [("value", JStr (json_widget.title d)); ("size", JStr "lg");
                 ("weight", JStr "semibold")]
                [];
              Node Text
                [("value", JStr "JSON Data"); ("size", JStr "xs");
                 ("color", JStr "tertiary"); ("weight", JStr "medium")]
                []]] in
      content <~ _render_json_content inside (json_widget.data d) 0
                   (json_widget.max_depth d) (json_widget.show_types d) EmptyString ;;
      let body := Node Box [("padding", JInt 4); ("gap", JInt 3)] [content] in
      Rendered (Node Card [("key", JStr (json_widget.key d)); ("padding", JInt 0)]
                  [header; body])
  end.

End bounded_json_widget.

(* ===================================================================== *)
(** * Notions the properties are stated with *)
(* ===================================================================== *)

Import chatkit_widget_renderer json_widget.

(** The container classes of the component set. *)
Definition is_container (c : WidgetType) : bool :=
  match c with
  | Card | Box | Row | Col => true
  | _ => false
  end.

(** A tree is well formed when only containers carry children, at every
    node. *)
Fixpoint well_formed (w : Widget) : bool :=
  match w with
  | Node c _ children =>
      (is_container c || match children with [] => true | _ => false end)
      && forallb well_formed children
  end.

(** What a top-level entry point may hand to the transport layer: a
    well-formed tree whose root is a [Card]. *)
Definition valid_root (w : Widget) : Prop :=
  cls_of w = Card /\ well_formed w = true.

(** A node the compiler treats as absent: not an object, or an object
    without a ["type"] key. *)
Definition malformed (spec : json) : bool :=
  match spec with
  | JObj members => negb (contains "type" members)
  | _ => true
  end.

(** The type tags [_parse_widget_component] dispatches on. *)
Definition KNOWN_TYPES : list string :=
  ["Card"; "Row"; "Col"; "Text"; "Title"; "Box"; "Button"; "Divider"; "Caption";
   "Image"; "Spacer"; "DatePicker"; "Select"].

(** The tag is one of them. *)
Definition known_tag (t : json) : bool :=
  match t with
  | JStr s => mem s KNOWN_TYPES
  | _ => false
  end.

(** An object whose type tag no parser claims. *)
Definition has_unknown_type (spec : json) : bool :=
  match spec with
  | JObj members =>
      match assoc "type" members with
      | Some t => negb (known_tag t)
      | None => false
      end
  | _ => false
  end.

(** The leaf written for an unknown type tag: a [Text] of exactly the three
    keyword arguments of [unknown_widget], its value starting with the
    diagnostic phrase. *)
Definition is_diagnostic (w : Widget) : bool :=
  match w with
  | Node Text [(k1, JStr v); (k2, JStr c); (k3, JStr s)] [] =>
      String.eqb k1 "value" && String.prefix "Unknown widget type: " v
      && String.eqb k2 "color" && String.eqb c "tertiary"
      && String.eqb k3 "size" && String.eqb s "sm"
  | _ => false
  end.





(** The attribute each parser normalises against a set it declares, by
    type tag: the attribute's name and the set. *)
Definition normalized_attribute (tag : string) : option (string * list string) :=
  if String.eqb tag "Text" || String.eqb tag "Title" || String.eqb tag "Caption"
  then Some ("color", chatkit_widget_renderer.VALID_COLORS)
  else if String.eqb tag "Box"
  then Some ("direction", chatkit_widget_renderer.VALID_DIRECTIONS)
  else if String.eqb tag "Button"
  then Some ("variant", chatkit_widget_renderer.VALID_VARIANTS)
  else None.

(** The buttons [_parse_card] derives from one descriptor key. *)
Definition button_for (spec : dict) (k label variant : string) : result (list Widget) :=
  if contains k spec then
    b <- action_button (item spec k) label variant ;; Ok [b]
  else Ok [].

(** Every node the compiler returns is well formed. *)
Definition compiles_well_formed (spec : json) : Prop :=
  forall w, _parse_widget_component spec = Ok (Some w) -> well_formed w = true.


(** The zero-padding [Card] the root wrapper builds. *)
Definition default_card (key : string) (children : list Widget) : Widget :=
  Node Card [("key", JStr key); ("padding", JInt 0)] children.

(** The class of the node each type tag compiles to; a [Divider] is made
    of boxes, an unknown tag of a [Text]. *)
Definition class_of_tag (widget_type : json) : WidgetType :=
  if eq_str widget_type "Card" then Card
  else if eq_str widget_type "Row" then Row
  else if eq_str widget_type "Col" then Col
  else if eq_str widget_type "Text" then Text
  else if eq_str widget_type "Title" then Title
  else if eq_str widget_type "Box" then Box
  else if eq_str widget_type "Button" then Button
  else if eq_str widget_type "Divider" then Box
  else if eq_str widget_type "Caption" then Caption
  else if eq_str widget_type "Image" then Image
  else if eq_str widget_type "Spacer" then Spacer
  else if eq_str widget_type "DatePicker" then DatePicker
  else if eq_str widget_type "Select" then Select
  else Text.



Definition request (spec : json) : ChatKitWidgetData :=
  {| chatkit_widget_renderer.title := "Widget";
     widget_spec := spec;
     chatkit_widget_renderer.key := "chatkit_widget" |}.

Definition bare_row : json := JObj [("type", JStr "Row")].

Definition bare_text : json := JObj [("type", JStr "Text"); ("value", JStr "hello")].

(** The button a confirm or cancel descriptor stands for. *)
Definition descriptor_button (descriptor : dict) (label variant : string) : Widget :=
  Node Button
    ([("label", get descriptor "label" (JStr label));
      ("variant", JStr variant);
      ("size", JStr "sm")]
     ++ (if contains "action" descriptor
         then [("onClickAction", item descriptor "action")]
         else []))%list
    [].

Definition descriptor_buttons (descriptor : option dict) (label variant : string)
  : list Widget :=
  match descriptor with
  | Some d => [descriptor_button d label variant]
  | None => []
  end.

(** The trailing row of a [Card] with action descriptors. *)
Definition button_row (buttons : list Widget) : Widget :=
  Node Row [("justify", JStr "end"); ("gap", JInt 2)] buttons.

(** The keyword arguments [_parse_card] passes besides [children]. *)
Definition card_kwargs (spec : dict) : dict :=
  ([("size", get spec "size" (JStr "md"))]
   ++ optional spec ["background"; "padding"; "theme"; "status"; "collapsed"; "asForm"])%list.

(** A [Card] that carries [confirm] and no [cancel]. *)
Definition confirm_only_card : json :=
  JObj [("type", JStr "Card"); ("confirm", JObj [("label", JStr "Send")])].

(** Ten children, three of them (the 2nd, 5th and 9th) of unknown type. *)
Definition ten_children : list json :=
  [ JObj [("type", JStr "Text"); ("value", JStr "one")];
    JObj [("type", JStr "Bogus")];
    JObj [("type", JStr "Title"); ("value", JStr "three")];
    JObj [("type", JStr "Divider")];
    JObj [("type", JStr "Gauge"); ("value", JInt 5)];
    JObj [("type", JStr "Button"); ("label", JStr "six")];
    JObj [("type", JStr "Spacer")];
    JObj [("type", JStr "Caption"); ("value", JStr "eight")];
    JObj [("type", JStr "card")];
    JObj [("type", JStr "Row"); ("children", JArr [])] ].

(** What the children loop makes of [ten_children]. *)
Definition ten_compiled : list Widget :=
  Eval vm_compute in
    match chatkit_widget_renderer.compile_each ten_children with
    | Ok ws => ws
    | Raise _ => []
    end.

(** A [Row] whose [align] is none of the values listed for it. *)
Definition row_with_bad_align : json :=
  JObj [("type", JStr "Row"); ("align", JStr "diagonal")].

(** The keyword arguments [_parse_row] passes besides [children]. *)
Definition row_kwargs (spec : dict) : dict :=
  [("gap", get spec "gap" (JInt 2));
   ("align", get spec "align" (JStr "center"));
   ("justify", get spec "justify" (JStr "start"))]%list.

(** An object nested five levels deep. *)
Definition five_levels : json :=
  JObj [("l1", JObj [("l2", JObj [("l3", JObj [("l4", JObj [("l5", JStr "deep")])])])])].



(** Every target of an alias in [PARAMETER_MAPPINGS]. *)
Definition alias_targets : list string :=
  flat_map (fun entry => map snd (snd entry)) PARAMETER_MAPPINGS.

(** Every value some rule of [CHATKIT_VALIDATION_RULES] lists. *)
Definition listed_values : list string :=
  flat_map (fun entry =>
              flat_map (fun r => match snd r with
                                 | Allowed l => l
                                 | Described _ => []
                                 end) (snd entry))
           CHATKIT_VALIDATION_RULES.

(* --------------------------------------------------------------------- *)
(** ** Further notions *)

(** The type tags whose parser runs the children loop. *)
Definition CONTAINER_TYPES : list string := ["Card"; "Row"; "Col"; "Box"].


(** A value a [for] loop cannot iterate. *)
Definition not_iterable (v : json) : bool :=
  match v with
  | JNull | JBool _ | JInt _ | JFloat _ => true
  | _ => false
  end.

(** A descriptor [_parse_card] can read: absent, or an object. *)
Definition readable_descriptor (spec : dict) (k : string) : bool :=
  match assoc k spec with
  | None | Some (JObj _) => true
  | Some _ => false
  end.

(** The value is a dict. *)
Definition is_object (v : json) : bool :=
  match v with
  | JObj _ => true
  | _ => false
  end.

(** A [Text] spec whose [editable] is read and is not an object. *)
Definition unreadable_editable (spec : dict) : bool :=
  contains "editable" spec
  && negb (truthy (get spec "value" (JStr EmptyString)))
  && negb (is_object (item spec "editable")).

(** The keyword names the spec-driven renderer ever gives each class. *)
Definition allowed_kwargs (c : WidgetType) : list string :=
  match c with
  | Card => ["key"; "size"; "background"; "padding"; "theme"; "status"; "collapsed"; "asForm"]
  | Row => ["gap"; "align"; "justify"]
  | Col => ["gap"; "align"]
  | Box => ["padding"; "gap"; "direction"; "align"; "justify"; "background"; "radius";
            "height"; "width"]
  | Text => ["value"; "size"; "weight"; "color"; "width"; "minLines"; "italic"]
  | Title => ["value"; "size"; "weight"; "color"]
  | Caption => ["value"; "color"; "size"; "weight"; "textAlign"; "truncate"; "maxLines"]
  | Image => ["src"; "alt"; "fit"; "position"; "radius"; "frame"; "flush"; "height"; "width";
              "size"; "minHeight"; "minWidth"; "minSize"; "maxHeight"; "maxWidth"; "maxSize";
              "margin"; "background"; "aspectRatio"; "flex"]
  | Spacer => ["minSize"]
  | Button => ["label"; "variant"; "size"; "onClickAction"]
  | DatePicker => ["name"; "placeholder"; "onChangeAction"; "defaultValue"; "min"; "max";
                   "variant"; "size"; "side"; "align"; "pill"; "block"; "clearable";
                   "disabled"]
  | Select => ["name"; "options"; "placeholder"; "onChangeAction"; "defaultValue"; "variant";
               "size"; "pill"; "block"; "clearable"; "disabled"]
  end.

(** Every keyword of every node is one its class is ever given. *)
Fixpoint conforms (w : Widget) : bool :=
  match w with
  | Node c kwargs children =>
      forallb (fun kv => mem (fst kv) (allowed_kwargs c)) kwargs
      && forallb conforms children
  end.

(** Number of nodes on the longest path from the root down. *)
Fixpoint height (w : Widget) : nat :=
  match w with
  | Node _ _ children => S (list_max (map height children))
  end.

(** The rows of a rendered object or array: the children of the [Col]
    inside the frame. *)
Definition rows_of (w : Widget) : list Widget :=
  match w with
  | Node Box _ [Node Col _ rows] => rows
  | _ => []
  end.

(** The label of a row: the text of its first cell. *)
Definition row_label (row : Widget) : option json :=
  match row with
  | Node Row _ (Node Box _ [Node Text kwargs _] :: _) => assoc "value" kwargs
  | _ => None
  end.

(** [0, 1, ..., n-1] as Python integers. *)
Definition indices (n : nat) : list Z := map Z.of_nat (seq 0 n).

(** A string starts and ends with a character that is not a space, or is
    empty. *)
Definition trimmed (s : string) : Prop :=
  chat.lstrip s = s /\ chat.rstrip s = s.

(** The leaf shown where the walk stops, spelled as the source spells
    it. *)
Definition cutoff_leaf : Widget :=
  Node Text
    [("value", JStr "... (max depth reached)"); ("color", JStr "tertiary");
     ("size", JStr "sm"); ("style", JStr "italic")]
    [].

(** The value of a row: what its second cell holds. *)
Definition row_value (row : Widget) : option Widget :=
  match row with
  | Node Row _ [_; Node Box _ [v]] => Some v
  | _ => None
  end.

(** The part of the data a path of positions leads to: position [i] of
    an object is its [i]-th entry, position [i] of an array its [i]-th
    item; a primitive has no positions. *)
Fixpoint descend (value : json) (path : list nat) : option json :=
  match path with
  | [] => Some value
  | i :: path' =>
      match value with
      | JObj members =>
          match nth_error members i with
          | Some (_, v) => descend v path'
          | None => None
          end
      | JArr items =>
          match nth_error items i with
          | Some v => descend v path'
          | None => None
          end
      | _ => None
      end
  end.

(** The part of a widget the same path leads to: the value of row [i],
    then on from there. *)
Fixpoint cell (w : Widget) (path : list nat) : option Widget :=
  match path with
  | [] => Some w
  | i :: path' =>
      match nth_error (rows_of w) i with
      | Some row =>
          match row_value row with
          | Some v => cell v path'
          | None => None
          end
      | None => None
      end
  end.

(** What [five_levels] is to look like with [max_depth = 2]: three frames
    inside one another, and the leaf as the value of ["l3"]. *)
Definition five_levels_widget : Widget :=
  Node Box
    [("padding", JInt 3); ("radius", JStr "md"); ("background", JStr "surface-tertiary")]
    [Node Col [("gap", JInt 2)]
       [Node Row [("gap", JInt 2); ("align", JStr "start")]
          [Node Box [("minWidth", JInt 100)]
             [Node Text
                [("value", JStr "l1:"); ("weight", JStr "medium"); ("size", JStr "sm");
                 ("color", JStr "secondary")]
                []];
           Node Box [("flex", JStr "1")]
             [Node Box
                [("padding", JInt 3); ("radius", JStr "md");
                 ("background", JStr "surface-tertiary")]
                [Node Col [("gap", JInt 2)]
                   [Node Row [("gap", JInt 2); ("align", JStr "start")]
                      [Node Box [("minWidth", JInt 100)]
                         [Node Text
                            [("value", JStr "l2:"); ("weight", JStr "medium");
                             ("size", JStr "sm"); ("color", JStr "secondary")]
                            []];
                       Node Box [("flex", JStr "1")]
                         [Node Box
                            [("padding", JInt 3); ("radius", JStr "md");
                             ("background", JStr "surface-tertiary")]
                            [Node Col [("gap", JInt 2)]
                               [Node Row [("gap", JInt 2); ("align", JStr "start")]
                                  [Node Box [("minWidth", JInt 100)]
                                     [Node Text
                                        [("value", JStr "l3:"); ("weight", JStr "medium");
                                         ("size", JStr "sm"); ("color", JStr "secondary")]
                                        []];
                                   Node Box [("flex", JStr "1")]
                                     [Node Text
                                        [("value", JStr "... (max depth reached)");
                                         ("color", JStr "tertiary"); ("size", JStr "sm");
                                         ("style", JStr "italic")]
                                        []]]]]]]]]]]]].

(** An array of an array and a boolean. *)
Definition two_items : json := JArr [JArr [JInt 1]; JBool true].

(** What [two_items] is to look like with [max_depth = 0]: one frame of
    two rows, the leaf as the value of each. *)
Definition two_items_widget : Widget :=
  Node Box
    [("padding", JInt 3); ("radius", JStr "md"); ("background", JStr "surface-tertiary")]
    [Node Col [("gap", JInt 2)]
       [Node Row [("gap", JInt 2); ("align", JStr "start")]
          [Node Box [("minWidth", JInt 50)]
             [Node Text
                [("value", JStr "[0]"); ("weight", JStr "medium"); ("size", JStr "sm");
                 ("color", JStr "tertiary"); ("family", JStr "mono")]
                []];
           Node Box [("flex", JStr "1")]
             [Node Text
                [("value", JStr "... (max depth reached)"); ("color", JStr "tertiary");
                 ("size", JStr "sm"); ("style", JStr "italic")]
                []]];
        Node Row [("gap", JInt 2); ("align", JStr "start")]
          [Node Box [("minWidth", JInt 50)]
             [Node Text
                [("value", JStr "[1]"); ("weight", JStr "medium"); ("size", JStr "sm");
                 ("color", JStr "tertiary"); ("family", JStr "mono")]
                []];
           Node Box [("flex", JStr "1")]
             [Node Text
                [("value", JStr "... (max depth reached)"); ("color", JStr "tertiary");
                 ("size", JStr "sm"); ("style", JStr "italic")]
                []]]]].

(** [null] inside [n] arrays: what [json.loads] makes of [n] opening
    brackets, [null] and [n] closing brackets. *)
Fixpoint nest (n : nat) : json :=
  match n with
  | O => JNull
  | S n' => JArr [nest n']
  end.

(** A stand-in for the classes of [chatkit.widgets], to run examples
    with: it refuses a [Row] whose [align] is a string other than the four
    the reference table lists and an [Image] whose [src] is not a string,
    and accepts every other call. *)
Definition sample_classes (c : WidgetType) (kwargs : dict) (children : list Widget)
  : option string :=
  match c with
  | Row =>
      match assoc "align" kwargs with
      | Some (JStr a) =>
          if mem a ["start"; "center"; "end"; "stretch"] then None
          else Some "1 validation error for Row"
      | _ => None
      end
  | Image =>
      match assoc "src" kwargs with
      | Some (JStr _) => None
      | _ => Some "1 validation error for Image"
      end
  | _ => None
  end.

(** The children of the nodes a compilation kept. *)
Definition kept (outcomes : list (option Widget)) : list Widget :=
  flat_map (fun o => match o with Some w => [w] | None => [] end) outcomes.

(** The outcome of the program against the outcome of the calls it
    records: a result is the same result, an exception of the module's own
    code the same exception; a refusal by a class and an overflow of the
    stack have no counterpart. *)
Definition agrees {A : Type} (v : validated_renderer.run A) (r : result A) : Prop :=
  match v with
  | validated_renderer.Fine a => r = Ok a
  | validated_renderer.Fails (validated_renderer.Native e) => r = Raise e
  | validated_renderer.Fails _ => True
  end.

(** A parser whose last step is the one constructor call it makes: it
    raises what its own code raises, and otherwise the class decides. *)
Definition decided_by_the_class
    (rejects : WidgetType -> dict -> list Widget -> option string)
    (v : validated_renderer.run Widget) (r : result Widget) : Prop :=
  match r with
  | Raise e => v = validated_renderer.Fails (validated_renderer.Native e)
  | Ok (Node c kwargs children) => v = validated_renderer.construct rejects c kwargs children
  end.

(** Induction over JSON values, with the hypothesis available for every
    item of an array and every member of an object. *)
Section json_induction.
Variable P : json -> Prop.
Hypothesis HNull : P JNull.
Hypothesis HBool : forall b, P (JBool b).
Hypothesis HInt : forall z, P (JInt z).
Hypothesis HFloat : forall r, P (JFloat r).
Hypothesis HStr : forall s, P (JStr s).
Hypothesis HArr : forall items, Forall P items -> P (JArr items).
Hypothesis HObj : forall members, Forall (fun kv => P (snd kv)) members -> P (JObj members).

Fixpoint json_nested_ind (v : json) : P v :=
  match v with
  | JNull => HNull
  | JBool b => HBool b
  | JInt z => HInt z
  | JFloat r => HFloat r
  | JStr s => HStr s
  | JArr items =>
      HArr items
        ((fix all (l : list json) : Forall P l :=
            match l with
            | [] => Forall_nil P
            | x :: l' => Forall_cons x (json_nested_ind x) (all l')
            end) items)
  | JObj members =>
      HObj members
        ((fix all (l : list (string * json)) : Forall (fun kv => P (snd kv)) l :=
            match l with
            | [] => Forall_nil _
            | kv :: l' =>
                Forall_cons (P := fun kv => P (snd kv)) kv
                  (json_nested_ind (snd kv)) (all l')
            end) members)
  end.
End json_induction.

(* ===================================================================== *)
(** * Basic facts *)
(* ===================================================================== *)

Lemma assoc_In {A : Type} (k : string) (l : list (string * A)) (v : A) :
  assoc k l = Some v -> In (k, v) l.
Proof.
  induction l as [|[k' v'] l IH]; simpl; [discriminate|].
  destruct (String.eqb_spec k k') as [->|_].
  - intros [= ->]. now left.
  - intros H. right. auto.
Qed.

Lemma contains_false_assoc {A : Type} (k : string) (l : list (string * A)) :
  contains k l = false -> assoc k l = None.
Proof. unfold contains. destruct (assoc k l); [discriminate|reflexivity]. Qed.

Lemma bind_Ok {A B : Type} (r : result A) (k : A -> result B) (b : B) :
  bind r k = Ok b -> exists a, r = Ok a /\ k a = Ok b.
Proof. destruct r as [a|e]; simpl; [eauto|discriminate]. Qed.

Module renderer_facts.
Import chatkit_widget_renderer.
Local Open Scope list_scope.

(** The source-shaped reading of the compiler: look the type tag up, run
    the children loop on [spec["children"]], dispatch. *)
Lemma _parse_widget_component_eq (members : dict) :
  _parse_widget_component (JObj members) =
  match assoc "type" members with
  | None => Ok None
  | Some widget_type =>
      w <- dispatch (compile_children members) members widget_type ;; Ok (Some w)
  end.
Proof.
  cbn [_parse_widget_component].
  destruct (assoc "type" members) as [t|]; [|reflexivity].
  f_equal. f_equal.
  unfold compile_children.
  induction members as [|[k v] m IH]; [reflexivity|].
  cbn [assoc]. destruct (String.eqb "children" k); [|exact IH].
  destruct v; reflexivity.
Qed.

Lemma _parse_widget_component_malformed (spec : json) :
  malformed spec = true -> _parse_widget_component spec = Ok None.
Proof.
  destruct spec; try reflexivity.
  intros H. rewrite _parse_widget_component_eq.
  unfold malformed in H. apply negb_true_iff, contains_false_assoc in H.
  now rewrite H.
Qed.

(** Peeling a hypothesis [H : ... = Ok _] of a parser down to its leaves. *)
Ltac peel H :=
  repeat match type of H with
  | bind ?r _ = Ok _ =>
      let a := fresh "a" in
      let Ha := fresh "Ha" in
      apply bind_Ok in H; destruct H as (a & Ha & H)
  | (if ?b then _ else _) = Ok _ => let E := fresh "E" in destruct b eqn:E
  | (match ?x with _ => _ end) = Ok _ => let E := fresh "E" in destruct x eqn:E
  | Raise _ = Ok _ => discriminate H
  | Ok _ = Ok _ => injection H as H
  end.

Lemma action_button_leaf descriptor label variant b :
  action_button descriptor label variant = Ok b ->
  cls_of b = Button /\ children_of b = [] /\
  assoc "variant" (kwargs_of b) = Some (JStr variant).
Proof.
  unfold action_button. intros H. peel H; subst b.
  destruct (contains "action" a); cbn; auto.
Qed.

Lemma leaf_well_formed c kw : well_formed (Node c kw []) = true.
Proof. cbn. now rewrite orb_true_r. Qed.

Lemma button_for_leaves spec k label variant bs :
  button_for spec k label variant = Ok bs ->
  forall b, In b bs -> exists kw, b = Node Button kw [].
Proof.
  unfold button_for. intros H. peel H; subst bs; [|intros b []].
  intros b [<-|[]]. destruct (action_button_leaf _ _ _ _ Ha) as (Hc & Hch & _).
  destruct a as [c kw ch]. cbn in Hc, Hch. subst. now exists kw.
Qed.

(** What [_parse_card] returns: the compiled children, then one [Row] of
    the buttons when there is any. *)
Lemma _parse_card_Ok compiled spec w :
  _parse_card compiled spec = Ok w ->
  exists cs cancel confirm,
    compiled = Ok cs /\
    button_for spec "cancel" "Cancel" "outline" = Ok cancel /\
    button_for spec "confirm" "Confirm" "solid" = Ok confirm /\
    w = Node Card
          ([("size", get spec "size" (JStr "md"))]
             ++ optional spec ["background"; "padding"; "theme"; "status";
                               "collapsed"; "asForm"])
          (cs ++ match (cancel ++ confirm)%list with
                 | [] => []
                 | buttons =>
                     [Node Row [("justify", JStr "end"); ("gap", JInt 2)] buttons]
                 end).
Proof.
  unfold _parse_card, button_for. intros H.
  apply bind_Ok in H. destruct H as (cs & Hc & H).
  apply bind_Ok in H. destruct H as (cs' & Hc' & H).
  injection H as <-. exists cs.
  destruct (contains "confirm" spec) eqn:Econfirm;
    destruct (contains "cancel" spec) eqn:Ecancel; cbn [orb] in Hc'.
  4: { injection Hc' as <-. exists [], []. repeat split; auto.
       cbn [app]. now rewrite (app_nil_r cs). }
  all: apply bind_Ok in Hc'; destruct Hc' as (cancel & Hcancel & Hc').
  all: apply bind_Ok in Hc'; destruct Hc' as (confirm & Hconfirm & Hc').
  all: exists cancel, confirm; repeat split; try assumption.
  all: destruct (cancel ++ confirm); injection Hc' as <-;
       rewrite ?(app_nil_r cs); reflexivity.
Qed.

Lemma container_well_formed c kw children :
  is_container c = true -> forallb well_formed children = true ->
  well_formed (Node c kw children) = true.
Proof. intros Hc Hch. cbn [well_formed]. now rewrite Hc, Hch. Qed.

Lemma dispatch_well_formed compiled members widget_type w :
  (forall cs, compiled = Ok cs -> forallb well_formed cs = true) ->
  dispatch compiled members widget_type = Ok w ->
  well_formed w = true.
Proof.
  intros Hcs H. unfold dispatch in H.
  repeat match type of H with
  | (if ?b then _ else _) = Ok _ => destruct b
  end.
  - (* Card *)
    apply _parse_card_Ok in H.
    destruct H as (cs & cancel & confirm & Hc & Hcancel & Hconfirm & ->).
    apply container_well_formed; [reflexivity|].
    rewrite forallb_app, (Hcs _ Hc). cbn [andb].
    pose proof (button_for_leaves _ _ _ _ _ Hcancel) as Lcancel.
    pose proof (button_for_leaves _ _ _ _ _ Hconfirm) as Lconfirm.
    destruct (cancel ++ confirm)%list eqn:E; [reflexivity|]. rewrite <- E.
    cbn [forallb]. rewrite andb_true_r.
    apply container_well_formed; [reflexivity|].
    rewrite forallb_app.
    apply andb_true_intro; split; apply forallb_forall; intros b Hb;
      [apply Lcancel in Hb | apply Lconfirm in Hb];
      destruct Hb as (kw & ->); apply leaf_well_formed.
  - unfold _parse_row in H. peel H. subst w.
    apply container_well_formed; [reflexivity|auto].
  - unfold _parse_col in H. peel H. subst w.
    apply container_well_formed; [reflexivity|auto].
  - unfold _parse_text in H. peel H; subst w; apply leaf_well_formed.
  - unfold _parse_title in H. peel H; subst w; apply leaf_well_formed.
  - unfold _parse_box in H. peel H; subst w;
      (apply container_well_formed; [reflexivity|auto]).
  - unfold _parse_button in H. peel H; subst w; apply leaf_well_formed.
  - unfold _parse_divider in H. peel H. subst w. reflexivity.
  - unfold _parse_caption in H. peel H; subst w; apply leaf_well_formed.
  - unfold _parse_image in H. peel H; subst w; apply leaf_well_formed.
  - unfold _parse_spacer in H. peel H; subst w; apply leaf_well_formed.
  - unfold _parse_datepicker in H. peel H; subst w; apply leaf_well_formed.
  - unfold _parse_select in H. peel H; subst w; apply leaf_well_formed.
  - peel H. subst w. apply leaf_well_formed.
Qed.

Lemma compile_each_well_formed items cs :
  Forall compiles_well_formed items ->
  compile_each items = Ok cs -> forallb well_formed cs = true.
Proof.
  intros HF. revert cs. induction HF as [|c l Hc _ IH]; intros cs H.
  - injection H as <-. reflexivity.
  - cbn [compile_each] in H.
    apply bind_Ok in H. destruct H as (child & Hchild & H).
    apply bind_Ok in H. destruct H as (rest & Hrest & H).
    injection H as <-. specialize (IH _ Hrest).
    destruct child as [w|]; [|assumption].
    cbn [forallb]. now rewrite (Hc _ Hchild), IH.
Qed.

Lemma _parse_widget_component_well_formed (spec : json) :
  compiles_well_formed spec.
Proof.
  enough (H : compiles_well_formed spec /\
              forall items, spec = JArr items -> Forall compiles_well_formed items)
    by apply H.
  induction spec as [| | | | |items IH|members IH] using json_nested_ind;
    try (split; [intros w H; discriminate H | intros items H; discriminate H]).
  - split; [intros w H; discriminate H|].
    intros items' [= <-]. eapply Forall_impl; [|exact IH]. now intros a [Ha _].
  - split; [|intros items H; discriminate H].
    intros w H. rewrite _parse_widget_component_eq in H.
    destruct (assoc "type" members) as [t|]; [|discriminate H].
    apply bind_Ok in H. destruct H as (w' & Hd & H). injection H as <-.
    eapply dispatch_well_formed; [|exact Hd].
    intros cs Hcs. unfold compile_children in Hcs.
    destruct (assoc "children" members) as [v|] eqn:Hch.
    + apply assoc_In in Hch. rewrite Forall_forall in IH.
      specialize (IH _ Hch). cbn [snd] in IH. destruct IH as [_ IH].
      destruct v; try discriminate Hcs;
        try (injection Hcs as <-; reflexivity).
      eapply compile_each_well_formed; [|exact Hcs]. now apply IH.
    + injection Hcs as <-. reflexivity.
Qed.

End renderer_facts.

(* --------------------------------------------------------------------- *)
(** ** Strings *)



Lemma sapp_not_empty_r (a b : string) : b <> EmptyString -> a ++ b <> EmptyString.
Proof. destruct a; cbn; [auto|discriminate]. Qed.






Lemma prefix_nil (s : string) : String.prefix EmptyString s = true.
Proof. destruct s; reflexivity. Qed.





(* --------------------------------------------------------------------- *)
(** ** The generic-data renderer *)

Module json_widget_facts.
Import json_widget.
Local Open Scope list_scope.
Local Open Scope Z_scope.

(** The source-shaped reading of the walk. *)
Lemma _render_json_content_eq value depth max_depth show_types key_name :
  _render_json_content value depth max_depth show_types key_name =
  if depth >? max_depth then max_depth_reached
  else match value with
       | JObj obj => _render_object obj depth max_depth show_types
       | JArr arr => _render_array arr depth max_depth show_types
       | _ => _render_primitive value show_types key_name
       end.
Proof. destruct value; reflexivity. Qed.

Lemma _render_primitive_well_formed value show_types key_name :
  well_formed (_render_primitive value show_types key_name) = true.
Proof. destruct value as [|[]| | | | |], show_types; reflexivity. Qed.

Lemma rows_box_well_formed items :
  forallb well_formed items = true -> well_formed (rows_box items) = true.
Proof. intros H. cbn. now rewrite H. Qed.

Lemma _render_json_content_well_formed value :
  forall depth max_depth show_types key_name,
    well_formed (_render_json_content value depth max_depth show_types key_name) = true.
Proof.
  induction value as [| | | | |items IH|members IH] using json_nested_ind;
    intros depth max_depth show_types key_name;
    rewrite _render_json_content_eq;
    (destruct (depth >? max_depth); [reflexivity|]);
    try apply _render_primitive_well_formed.
  - unfold _render_array. destruct items as [|x l] eqn:E; [reflexivity|].
    rewrite <- E in *. clear E x l.
    apply rows_box_well_formed. generalize 0.
    induction IH as [|v l Hv _ IHl]; intros i; [reflexivity|].
    change (array_rows depth max_depth show_types i (v :: l))
      with (array_row i
              (_render_json_content v (depth + 1) max_depth show_types
                 ("item_" ++ str_int i)%string)
            :: array_rows depth max_depth show_types (i + 1) l).
    cbn [forallb]. rewrite IHl, andb_true_r.
    cbn. now rewrite Hv.
  - unfold _render_object. destruct members as [|x l] eqn:E; [reflexivity|].
    rewrite <- E in *. clear E x l.
    apply rows_box_well_formed.
    induction IH as [|[k v] l Hv _ IHl]; [reflexivity|].
    change (object_rows depth max_depth show_types ((k, v) :: l))
      with (object_row k (_render_json_content v (depth + 1) max_depth show_types k)
            :: object_rows depth max_depth show_types l).
    cbn [forallb]. rewrite IHl, andb_true_r.
    cbn. cbn in Hv. now rewrite Hv.
Qed.

End json_widget_facts.

Module bounded_walk_facts.
Import json_widget json_widget_facts.
Local Open Scope list_scope.
Local Open Scope Z_scope.

(** The walk with a budget, written with the loops of the two callees. *)
Lemma walk_content_eq deeper value depth max_depth show_types key_name :
  bounded_json_widget._render_json_content (S (S deeper)) value depth max_depth
    show_types key_name =
  if depth >? max_depth then bounded_json_widget.Rendered max_depth_reached
  else match value with
       | JObj [] => bounded_json_widget.Rendered (empty_literal "{}")
       | JObj obj =>
           bounded_json_widget.and_then
             (bounded_json_widget.object_rows deeper depth max_depth show_types obj)
             (fun items => bounded_json_widget.Rendered (rows_box items))
       | JArr [] => bounded_json_widget.Rendered (empty_literal "[]")
       | JArr arr =>
           bounded_json_widget.and_then
             (bounded_json_widget.array_rows deeper depth max_depth show_types 0 arr)
             (fun items => bounded_json_widget.Rendered (rows_box items))
       | _ => bounded_json_widget.Rendered (_render_primitive value show_types key_name)
       end.
Proof.
  destruct value as [| | | | |[|x l]|[|x l]]; reflexivity.
Qed.

Lemma walk_content_one value depth max_depth show_types key_name :
  bounded_json_widget._render_json_content 1 value depth max_depth show_types key_name =
  if depth >? max_depth then bounded_json_widget.Rendered max_depth_reached
  else bounded_json_widget.RecursionError.
Proof.
  cbn [bounded_json_widget._render_json_content].
  destruct (depth >? max_depth); [reflexivity|]. now destruct value.
Qed.

(** [null] inside [n] arrays needs two frames for each array and two for
    the [null], when [max_depth] does not cut the walk before. *)
Lemma nest_overflows (n : nat) :
  forall frames depth max_depth show_types key_name,
    (frames < 2 * n + 2)%nat -> depth + Z.of_nat n <= max_depth ->
    bounded_json_widget._render_json_content frames (nest n) depth max_depth
      show_types key_name
    = bounded_json_widget.RecursionError.
Proof.
  induction n as [|n IH]; intros frames depth max_depth st k Hf Hd;
    (destruct frames as [|[|deeper]]; [reflexivity| |]).
  - rewrite walk_content_one. destruct (Z.gtb_spec depth max_depth); [lia|reflexivity].
  - lia.
  - rewrite walk_content_one. destruct (Z.gtb_spec depth max_depth); [lia|reflexivity].
  - rewrite walk_content_eq. destruct (Z.gtb_spec depth max_depth); [lia|].
    cbn [nest bounded_json_widget.array_rows]. rewrite IH by lia. reflexivity.
Qed.

Section rows_within_budget.

Variables (deeper : nat) (depth max_depth : Z) (show_types : bool).

Hypothesis content_agrees :
  forall value key_name w,
    bounded_json_widget._render_json_content deeper value (depth + 1) max_depth
      show_types key_name
    = bounded_json_widget.Rendered w ->
    w = _render_json_content value (depth + 1) max_depth show_types key_name.

Lemma walk_object_rows_agree (l : dict) (rows : list Widget) :
  bounded_json_widget.object_rows deeper depth max_depth show_types l
  = bounded_json_widget.Rendered rows ->
  rows = object_rows depth max_depth show_types l.
Proof.
  revert rows. induction l as [|[k v] l' IHl]; intros rows E.
  - now injection E as <-.
  - cbn [bounded_json_widget.object_rows] in E.
    destruct (bounded_json_widget._render_json_content deeper v _ _ _ _) as [vc|] eqn:Ev;
      [|discriminate].
    apply content_agrees in Ev. subst vc. cbn [bounded_json_widget.and_then] in E.
    destruct (bounded_json_widget.object_rows deeper depth max_depth show_types l') as [rest|];
      [|discriminate].
    cbn [bounded_json_widget.and_then] in E. injection E as <-.
    now rewrite (IHl _ eq_refl).
Qed.

Lemma walk_array_rows_agree (l : list json) :
  forall (i : Z) (rows : list Widget),
    bounded_json_widget.array_rows deeper depth max_depth show_types i l
    = bounded_json_widget.Rendered rows ->
    rows = array_rows depth max_depth show_types i l.
Proof.
  induction l as [|v l' IHl]; intros i rows E.
  - now injection E as <-.
  - cbn [bounded_json_widget.array_rows] in E.
    destruct (bounded_json_widget._render_json_content deeper v _ _ _ _) as [vc|] eqn:Ev;
      [|discriminate].
    apply content_agrees in Ev. subst vc. cbn [bounded_json_widget.and_then] in E.
    destruct (bounded_json_widget.array_rows deeper depth max_depth show_types (i + 1) l')
      as [rest|] eqn:Er; [|discriminate].
    cbn [bounded_json_widget.and_then] in E. injection E as <-.
    now rewrite (IHl _ _ Er).
Qed.

End rows_within_budget.

(** What the walk returns within its budget is what [json_widget] gives. *)
Lemma walk_agrees (frames : nat) :
  forall value depth max_depth show_types key_name w,
    bounded_json_widget._render_json_content frames value depth max_depth
      show_types key_name
    = bounded_json_widget.Rendered w ->
    w = _render_json_content value depth max_depth show_types key_name.
Proof.
  induction frames as [frames IH] using lt_wf_ind.
  intros value depth max_depth st k w.
  destruct frames as [|[|deeper]]; [discriminate| |].
  - rewrite walk_content_one, _render_json_content_eq.
    destruct (depth >? max_depth); [|discriminate]. now intros [= <-].
  - rewrite walk_content_eq, _render_json_content_eq.
    destruct (depth >? max_depth); [now intros [= <-]|].
    assert (IHd := IH deeper ltac:(lia)). clear IH.
    destruct value as [| | | | |items|members]; try (now intros [= <-]).
    + destruct items as [|x l]; [now intros [= <-]|].
      unfold _render_array.
      destruct (bounded_json_widget.array_rows deeper depth max_depth st 0 (x :: l))
        as [rows|] eqn:E; [|discriminate].
      intros [= <-].
      now rewrite (walk_array_rows_agree deeper depth max_depth st
                     (fun v k' w' => IHd v (depth + 1) max_depth st k' w') _ _ _ E).
    + destruct members as [|x l]; [now intros [= <-]|].
      unfold _render_object.
      destruct (bounded_json_widget.object_rows deeper depth max_depth st (x :: l))
        as [rows|] eqn:E; [|discriminate].
      intros [= <-].
      now rewrite (walk_object_rows_agree deeper depth max_depth st
                     (fun v k' w' => IHd v (depth + 1) max_depth st k' w') _ _ E).
Qed.

(** The walk never nests more than two calls for each level [max_depth]
    lets it enter, and one for the leaf at the cutoff. *)
Lemma walk_completes (value : json) :
  forall frames depth max_depth show_types key_name,
    (2 * Z.to_nat (max_depth + 1 - depth) + 1 <= frames)%nat ->
    exists w,
      bounded_json_widget._render_json_content frames value depth max_depth show_types key_name
      = bounded_json_widget.Rendered w.
Proof.
  induction value as [| | | | |items IH|members IH] using json_nested_ind;
    intros frames depth max_depth st k Hf;
    (destruct frames as [|[|deeper]]; [lia| |]);
    rewrite ?walk_content_one, ?walk_content_eq;
    (destruct (Z.gtb_spec depth max_depth); [eauto|]); try lia; eauto.
  - destruct items as [|x l] eqn:E; [eauto|]. rewrite <- E in *. clear E x l.
    assert (Hrows : forall i, exists rows,
               bounded_json_widget.array_rows deeper depth max_depth st i items
               = bounded_json_widget.Rendered rows).
    { induction IH as [|v l Hv _ IHl]; intros i; [now exists []|].
      cbn [bounded_json_widget.array_rows].
      destruct (Hv deeper (depth + 1) max_depth st ("item_" ++ str_int i)%string) as (vc & ->);
        [lia|].
      destruct (IHl (i + 1)) as (rest & ->). cbn. eauto. }
    destruct (Hrows 0) as (rows & ->). cbn. destruct items; eauto.
  - destruct members as [|x l] eqn:E; [eauto|]. rewrite <- E in *. clear E x l.
    assert (Hrows : exists rows,
               bounded_json_widget.object_rows deeper depth max_depth st members
               = bounded_json_widget.Rendered rows).
    { induction IH as [|[k' v] l Hv _ IHl]; [now exists []|].
      cbn [bounded_json_widget.object_rows]. cbn in Hv.
      destruct (Hv deeper (depth + 1) max_depth st k') as (vc & ->); [lia|].
      destruct IHl as (rest & ->). cbn. eauto. }
    destruct Hrows as (rows & ->). cbn. destruct members; eauto.
Qed.

End bounded_walk_facts.

Module root_facts.
Import chatkit_widget_renderer renderer_facts.
Local Open Scope list_scope.

Lemma dispatch_class compiled members widget_type w :
  dispatch compiled members widget_type = Ok w ->
  cls_of w = class_of_tag widget_type.
Proof.
  unfold dispatch, class_of_tag. intros H.
  repeat match type of H with
  | (if ?b then _ else _) = Ok _ => destruct b
  end.
  1: apply _parse_card_Ok in H; destruct H as (? & ? & ? & _ & _ & _ & ->);
     reflexivity.
  all: unfold _parse_row, _parse_col, _parse_text, _parse_title, _parse_box,
         _parse_button, _parse_divider, _parse_caption, _parse_image, _parse_spacer,
         _parse_datepicker, _parse_select in H;
       peel H; subst w; reflexivity.
Qed.

Lemma compiled_class members widget_type w :
  assoc "type" members = Some widget_type ->
  _parse_widget_component (JObj members) = Ok (Some w) ->
  cls_of w = class_of_tag widget_type.
Proof.
  intros Ht H. rewrite _parse_widget_component_eq, Ht in H.
  apply bind_Ok in H. destruct H as (w' & Hd & [= <-]).
  eapply dispatch_class, Hd.
Qed.

Lemma render_of_compiled (d : ChatKitWidgetData) (w : Widget) :
  _parse_widget_component (widget_spec d) = Ok (Some w) ->
  render_chatkit_widget_from_json d =
  match cls_of w with
  | Card => w
  | _ => default_card (key d) [w]
  end.
Proof.
  intros H. unfold render_chatkit_widget_from_json. rewrite H.
  destruct w as [[] kw ch]; reflexivity.
Qed.

End root_facts.

Import chatkit_widget_renderer json_widget renderer_facts json_widget_facts root_facts.

(** C1.  [render_json_widget] lets an exception reach its caller.  On
    [null] inside [n] arrays, with a [max_depth] of [n] or more, the walk
    nests two calls for each array and three more; called with fewer
    frames left, it ends in the interpreter's [RecursionError], and
    [render_json_widget] has no handler for it.  The spec-driven entry
    point has one, [except Exception]. *)
Theorem deep_data_overflows_render_json_widget
    (frames n : nat) (title key : string) (max_depth : Z) (show_types : bool)
    (Hframes : (frames < 2 * n + 3)%nat)
    (Hdepth : (Z.of_nat n <= max_depth)%Z) :
  bounded_json_widget.render_json_widget frames
    {| json_widget.title := title;
       json_widget.data := nest n;
       json_widget.key := key;
       json_widget.max_depth := max_depth;
       json_widget.show_types := show_types |}
  = bounded_json_widget.RecursionError.
Proof.
  destruct frames as [|inside]; [reflexivity|].
  cbn [bounded_json_widget.render_json_widget json_widget.data json_widget.max_depth
       json_widget.show_types].
  rewrite bounded_walk_facts.nest_overflows by lia.
  reflexivity.
Qed.

Lemma deep_data_overflows_render_json_widget_witness :
  bounded_json_widget.render_json_widget 1000
    {| json_widget.title := "Report";
       json_widget.data := nest 600;
       json_widget.key := "json_1";
       json_widget.max_depth := 600;
       json_widget.show_types := true |}
  = bounded_json_widget.RecursionError.
Proof.
  apply (deep_data_overflows_render_json_widget 1000 600 "Report" "json_1" 600 true); lia.
Defined.

(** C2, as the specification words it, fails: a compiled [Row] is a
    container, yet the root wrapper does not return it as it is. *)
Lemma container_root_is_wrapped :
  exists w,
    _parse_widget_component (widget_spec (request bare_row)) = Ok (Some w) /\
    is_container (cls_of w) = true /\
    render_chatkit_widget_from_json (request bare_row) = default_card "chatkit_widget" [w] /\
    render_chatkit_widget_from_json (request bare_row) <> w.
Proof.
  eexists. split; [reflexivity|]. split; [reflexivity|]. split; [reflexivity|].
  discriminate.
Qed.

(** C2 (amended).  A compiled root that is a [Card] is returned as it is;
    any other compiled root, the containers [Row], [Col] and [Box]
    included, becomes the sole child of a zero-padding [Card].  A spec
    tagged [Text] compiles to a [Text] node and is wrapped; a spec tagged
    [Card] is returned unwrapped. *)
Theorem root_wrapper (d : ChatKitWidgetData) (w : Widget)
    (H : _parse_widget_component (widget_spec d) = Ok (Some w)) :
  (cls_of w = Card -> render_chatkit_widget_from_json d = w) /\
  (cls_of w <> Card ->
     render_chatkit_widget_from_json d = default_card (chatkit_widget_renderer.key d) [w]) /\
  (forall members,
     widget_spec d = JObj members -> assoc "type" members = Some (JStr "Text") ->
     cls_of w = Text /\
     render_chatkit_widget_from_json d = default_card (chatkit_widget_renderer.key d) [w]) /\
  (forall members,
     widget_spec d = JObj members -> assoc "type" members = Some (JStr "Card") ->
     cls_of w = Card /\ render_chatkit_widget_from_json d = w).
Proof.
  pose proof (render_of_compiled d w H) as R.
  assert (tagged : forall members t,
             widget_spec d = JObj members -> assoc "type" members = Some t ->
             cls_of w = class_of_tag t).
  { intros members t Hspec Ht. rewrite Hspec in H. exact (compiled_class _ _ _ Ht H). }
  split; [|split; [|split]].
  - intros Hc. now rewrite Hc in R.
  - intros Hc. destruct (cls_of w); try exact R. now destruct Hc.
  - intros members Hspec Ht. pose proof (tagged _ _ Hspec Ht) as Hc.
    split; [exact Hc|]. now rewrite Hc in R.
  - intros members Hspec Ht. pose proof (tagged _ _ Hspec Ht) as Hc.
    split; [exact Hc|]. now rewrite Hc in R.
Qed.

Lemma root_wrapper_witness :
  exists w,
    _parse_widget_component (widget_spec (request bare_text)) = Ok (Some w) /\
    cls_of w = Text /\
    render_chatkit_widget_from_json (request bare_text) = default_card "chatkit_widget" [w].
Proof.
  eexists. split; [reflexivity|].
  refine (proj1 (proj2 (proj2 (root_wrapper (request bare_text) _ eq_refl)))
            _ eq_refl eq_refl).
Defined.

(** C9.  A spec that is not an object, or that has no ["type"] key,
    compiles to nothing at the root, and the caller receives a
    zero-padding [Card] with no children. *)
Theorem absent_root_gives_empty_card (d : ChatKitWidgetData)
    (H : malformed (widget_spec d) = true) :
  _parse_widget_component (widget_spec d) = Ok None /\
  render_chatkit_widget_from_json d = default_card (chatkit_widget_renderer.key d) [].
Proof.
  apply _parse_widget_component_malformed in H.
  split; [exact H|]. unfold render_chatkit_widget_from_json. now rewrite H.
Qed.

Lemma absent_root_gives_empty_card_witness :
  malformed (JArr [JInt 1; JInt 2]) = true /\
  render_chatkit_widget_from_json (request (JArr [JInt 1; JInt 2]))
    = default_card "chatkit_widget" [].
Proof.
  split; [reflexivity|].
  apply (absent_root_gives_empty_card (request (JArr [JInt 1; JInt 2]))).
  reflexivity.
Defined.

Module compile_facts.
Import chatkit_widget_renderer renderer_facts root_facts.
Local Open Scope list_scope.

Lemma button_for_descriptor spec k label variant (descriptor : option dict) :
  assoc k spec = option_map JObj descriptor ->
  button_for spec k label variant = Ok (descriptor_buttons descriptor label variant).
Proof.
  intros H. unfold button_for, contains, item, get. rewrite H.
  destruct descriptor as [d|]; [|reflexivity].
  cbn. unfold descriptor_button. now destruct (contains "action" d).
Qed.

Lemma _parse_card_descriptors spec cs (cancel confirm : option dict) :
  assoc "cancel" spec = option_map JObj cancel ->
  assoc "confirm" spec = option_map JObj confirm ->
  _parse_card (Ok cs) spec =
  Ok (Node Card (card_kwargs spec)
        (cs ++ match descriptor_buttons cancel "Cancel" "outline"
                     ++ descriptor_buttons confirm "Confirm" "solid" with
               | [] => []
               | buttons => [button_row buttons]
               end)).
Proof.
  intros Hcancel Hconfirm.
  pose proof (button_for_descriptor spec "cancel" "Cancel" "outline" _ Hcancel) as Bc.
  pose proof (button_for_descriptor spec "confirm" "Confirm" "solid" _ Hconfirm) as Bf.
  unfold button_for in Bc, Bf. unfold _parse_card. cbn [bind].
  rewrite Bc, Bf. cbn [bind].
  unfold contains. rewrite Hcancel, Hconfirm.
  destruct cancel, confirm; cbn; rewrite ?(app_nil_r cs); reflexivity.
Qed.

Lemma prefix_app (a b : string) : String.prefix a (a ++ b) = true.
Proof.
  induction a as [|c a IH]; cbn; [apply prefix_nil|].
  destruct (ascii_dec c c) as [_|Hne]; [exact IH|now destruct Hne].
Qed.

Lemma unknown_widget_is_diagnostic t : is_diagnostic (unknown_widget t) = true.
Proof.
  unfold unknown_widget, is_diagnostic.
  rewrite prefix_app. reflexivity.
Qed.

Lemma dispatch_unknown compiled members t :
  known_tag t = false -> dispatch compiled members t = Ok (unknown_widget t).
Proof.
  intros H. unfold dispatch.
  destruct t; try reflexivity.
  cbn in H. cbn [eq_str].
  repeat (apply orb_false_elim in H; destruct H as [-> H]).
  reflexivity.
Qed.

Lemma dispatch_known_not_diagnostic compiled members t w :
  known_tag t = true -> dispatch compiled members t = Ok w ->
  is_diagnostic w = false.
Proof.
  intros Hk H.
  pose proof (dispatch_class _ _ _ _ H) as Hc.
  unfold dispatch in H. unfold class_of_tag in Hc.
  repeat match type of H with
  | (if ?b then _ else _) = Ok _ => destruct b eqn:?
  end;
  try (destruct w as [[] ? ?]; try discriminate Hc; reflexivity).
  - (* Text: four keyword arguments at least *)
    unfold _parse_text in H. peel H; subst w; cbn;
      repeat match goal with
      | |- context [match ?x with _ => _ end] => destruct x
      end; reflexivity.
  - (* no test succeeded, so the tag is not a known one *)
    destruct t; try discriminate Hk. cbn in Hk. cbn [eq_str] in *.
    repeat match goal with
    | E : String.eqb _ _ = false |- _ => rewrite E in Hk; clear E
    end.
    discriminate Hk.
Qed.

(** A compiled child is a diagnostic leaf exactly when its type tag is
    unknown. *)
Lemma diagnostic_iff_unknown spec w :
  _parse_widget_component spec = Ok (Some w) ->
  is_diagnostic w = has_unknown_type spec.
Proof.
  destruct spec; try discriminate.
  rewrite _parse_widget_component_eq. unfold has_unknown_type.
  destruct (assoc "type" members) as [t|]; [|discriminate].
  intros H. apply bind_Ok in H. destruct H as (w' & Hd & [= <-]).
  destruct (known_tag t) eqn:Hk; cbn [negb].
  - eapply dispatch_known_not_diagnostic; eauto.
  - rewrite dispatch_unknown in Hd by exact Hk. injection Hd as <-.
    apply unknown_widget_is_diagnostic.
Qed.

Lemma compile_each_all items ws :
  Forall2 (fun c w => _parse_widget_component c = Ok (Some w)) items ws ->
  compile_each items = Ok ws /\
  length ws = length items /\
  length (filter is_diagnostic ws) = length (filter has_unknown_type items).
Proof.
  induction 1 as [|c w items ws Hc _ (IH1 & IH2 & IH3)]; [now repeat split|].
  cbn [compile_each]. rewrite Hc, IH1. cbn [bind].
  repeat split; [cbn; now rewrite IH2|].
  cbn [filter]. rewrite (diagnostic_iff_unknown _ _ Hc).
  destruct (has_unknown_type c); cbn [length]; now rewrite IH3.
Qed.

Lemma compile_each_skips before bad after :
  malformed bad = true ->
  compile_each (before ++ bad :: after) = compile_each (before ++ after).
Proof.
  intros H. induction before as [|c l IH]; cbn [app compile_each].
  - rewrite (_parse_widget_component_malformed _ H). cbn [bind].
    now destruct (compile_each after).
  - now rewrite IH.
Qed.

Lemma assoc_middle {A : Type} k (pre post : list (string * A)) v :
  ~ In k (map fst pre) -> assoc k (pre ++ (k, v) :: post) = Some v.
Proof.
  induction pre as [|[k' v'] pre IH]; cbn; intros H.
  - now rewrite String.eqb_refl.
  - destruct (String.eqb_spec k k') as [->|_]; [now destruct H; left|].
    apply IH. intros Hin. apply H. now right.
Qed.

Lemma assoc_other {A : Type} k c (pre post : list (string * A)) v v' :
  k <> c -> assoc k (pre ++ (c, v) :: post) = assoc k (pre ++ (c, v') :: post).
Proof.
  intros Hne. induction pre as [|[k' x] pre IH]; cbn.
  - destruct (String.eqb_spec k c); [contradiction|reflexivity].
  - now rewrite IH.
Qed.

(** The parsers read a spec only through its bindings; two specs that
    agree on every key but ["children"] dispatch alike once the children
    are compiled. *)
Lemma dispatch_ext compiled spec spec' t :
  (forall k, k <> "children" -> assoc k spec = assoc k spec') ->
  dispatch compiled spec t = dispatch compiled spec' t.
Proof.
  intros H.
  unfold dispatch, _parse_card, _parse_row, _parse_col, _parse_text, _parse_title,
    _parse_box, _parse_button, _parse_divider, _parse_caption, _parse_image,
    _parse_spacer, _parse_datepicker, _parse_select, optional, get, contains, item, get.
  cbn [flat_map].
  repeat match goal with
  | |- context [assoc ?k spec] => rewrite (H k) by discriminate
  end.
  reflexivity.
Qed.

End compile_facts.

Module normalizer_facts.
Import chatkit_widget_renderer renderer_facts root_facts.
Local Open Scope list_scope.

(** [validate_and_map_parameter] on a rule that lists its values: the
    answer is listed as soon as the list is not empty and every target of
    the mapping consulted is listed. *)
Lemma validate_listed widget_type param_name l value :
  get (get CHATKIT_VALIDATION_RULES widget_type []) param_name (Allowed []) = Allowed l ->
  l <> [] ->
  (forall mapping,
     assoc (lower widget_type ++ "_" ++ param_name)%string PARAMETER_MAPPINGS = Some mapping ->
     forallb (fun kt => mem (snd kt) l) mapping = true) ->
  mem (validate_and_map_parameter widget_type param_name value) l = true.
Proof.
  intros Hrule Hne Hmap. unfold validate_and_map_parameter. rewrite Hrule.
  cbn [rule_contains]. destruct (mem value l) eqn:Hv; [exact Hv|].
  assert (Hfirst : mem (if rule_truthy (Allowed l) then rule_first (Allowed l) else value) l
                   = true).
  { destruct l as [|x l]; [now destruct Hne|]. cbn. now rewrite String.eqb_refl. }
  destruct (assoc (lower widget_type ++ "_" ++ param_name)%string PARAMETER_MAPPINGS)
    as [mapping|]; [|exact Hfirst].
  specialize (Hmap _ eq_refl). rewrite forallb_forall in Hmap.
  destruct (assoc value mapping) as [target|] eqn:E.
  - apply assoc_In in E. exact (Hmap _ E).
  - destruct (assoc "default" mapping) as [target|] eqn:E'; [|exact Hfirst].
    apply assoc_In in E'. exact (Hmap _ E').
Qed.

Lemma validate_and_map_parameter_listed widget_type param_name rules l value :
  assoc widget_type CHATKIT_VALIDATION_RULES = Some rules ->
  assoc param_name rules = Some (Allowed l) ->
  mem (validate_and_map_parameter widget_type param_name value) l = true.
Proof.
  intros Hw Hp.
  assert (Hrule : get (get CHATKIT_VALIDATION_RULES widget_type []) param_name (Allowed [])
                  = Allowed l).
  { unfold get. now rewrite Hw, Hp. }
  apply assoc_In in Hw. apply assoc_In in Hp.
  cbn in Hw.
  repeat (destruct Hw as [Hw|Hw]; [injection Hw as <- <-|]); [..|destruct Hw].
  all: cbn in Hp;
       repeat (destruct Hp as [Hp|Hp]; [try discriminate Hp; injection Hp as <- <-|]);
       [..|destruct Hp].
  all: apply validate_listed;
       [exact Hrule | discriminate
       | cbn; intros mapping Hm; try discriminate Hm; injection Hm as <-; reflexivity].
Qed.

Lemma set_contains_true S v :
  set_contains S v = Ok true -> exists s, v = JStr s /\ mem s S = true.
Proof.
  unfold set_contains. destruct v; cbn; try discriminate.
  intros [= H]. eauto.
Qed.

Lemma mapping_get_listed m v default r allow :
  mapping_get m v default = Ok r ->
  mem default allow = true ->
  forallb (fun kt => mem (snd kt) allow) m = true ->
  mem r allow = true.
Proof.
  unfold mapping_get. intros H Hd Hm.
  destruct (hashable v); [|discriminate H]. injection H as <-.
  destruct v; try exact Hd.
  unfold get. destruct (assoc s m) as [t|] eqn:E; [|exact Hd].
  apply assoc_In in E. rewrite forallb_forall in Hm. exact (Hm _ E).
Qed.

(** The attributes the parsers normalise end up in the set the parser
    declares, whatever was supplied. *)
Lemma normalized_attribute_listed members tag attr allow w :
  assoc "type" members = Some (JStr tag) ->
  normalized_attribute tag = Some (attr, allow) ->
  _parse_widget_component (JObj members) = Ok (Some w) ->
  exists c, assoc attr (kwargs_of w) = Some (JStr c) /\ mem c allow = true.
Proof.
  intros Ht Hn H. rewrite _parse_widget_component_eq, Ht in H.
  apply bind_Ok in H. destruct H as (w' & H & [= <-]).
  unfold normalized_attribute in Hn.
  destruct (String.eqb_spec tag "Text") as [->|_];
    [|destruct (String.eqb_spec tag "Title") as [->|_];
      [|destruct (String.eqb_spec tag "Caption") as [->|_];
        [|destruct (String.eqb_spec tag "Box") as [->|_];
          [|destruct (String.eqb_spec tag "Button") as [->|_]; [|discriminate Hn]]]]];
    cbn in Hn; injection Hn as <- <-; cbn [dispatch eq_str String.eqb Ascii.eqb Bool.eqb] in H.
  - (* Text *)
    unfold _parse_text in H.
    apply bind_Ok in H. destruct H as (value & _ & H).
    apply bind_Ok in H. destruct H as (mapped & Hm & H). injection H as <-.
    cbn. exists (match mapped with JStr c => c | _ => EmptyString end).
    destruct (get members "color" JNull) eqn:Ec;
      try (injection Hm as <-; split; reflexivity);
      (apply bind_Ok in Hm; destruct Hm as ([] & Hk & Hm); cbn [negb] in Hm;
       [ apply set_contains_true in Hk; destruct Hk as (s0 & Hs & Hin);
         injection Hm as <-; try discriminate Hs; injection Hs as <-; now split
       | apply bind_Ok in Hm; destruct Hm as (m & Hg & [= <-]); split; [reflexivity|];
         exact (mapping_get_listed _ _ _ _ VALID_COLORS Hg eq_refl eq_refl) ]).
  - (* Title *)
    unfold _parse_title in H.
    apply bind_Ok in H. destruct H as ([] & Hk & H); injection H as <-; cbn.
    + apply set_contains_true in Hk. destruct Hk as (s0 & -> & Hin). eauto.
    + eexists. split; reflexivity.
  - (* Caption *)
    unfold _parse_caption in H.
    apply bind_Ok in H. destruct H as (mapped & Hm & H). injection H as <-.
    cbn. exists (match mapped with JStr c => c | _ => EmptyString end).
    destruct (get members "color" JNull) eqn:Ec;
      try (injection Hm as <-; split; reflexivity);
      (apply bind_Ok in Hm; destruct Hm as ([] & Hk & Hm); cbn [negb] in Hm;
       [ apply set_contains_true in Hk; destruct Hk as (s0 & Hs & Hin);
         injection Hm as <-; try discriminate Hs; injection Hs as <-; now split
       | injection Hm as <-; split; reflexivity ]).
  - (* Box *)
    unfold _parse_box in H.
    apply bind_Ok in H. destruct H as (cs & _ & H).
    apply bind_Ok in H. destruct H as (md & _ & H). injection H as <-.
    cbn [kwargs_of]. exists (if negb (mem md VALID_DIRECTIONS) then "col" else md).
    split; [reflexivity|].
    destruct (mem md VALID_DIRECTIONS) eqn:E; [exact E|reflexivity].
  - (* Button *)
    unfold _parse_button in H.
    apply bind_Ok in H. destruct H as (mv & _ & H). injection H as <-.
    cbn [kwargs_of]. exists (if negb (mem mv VALID_VARIANTS) then "solid" else mv).
    split; [now destruct (contains "action" members)|].
    destruct (mem mv VALID_VARIANTS) eqn:E; [exact E|reflexivity].
Qed.

End normalizer_facts.

Import compile_facts normalizer_facts.

Open Scope list_scope.

Module validated_facts.
Import validated_renderer.
Local Open Scope list_scope.

Lemma agrees_and_then {A B : Type} (v : run A) (r : result A)
    (k : A -> run B) (k' : A -> result B) :
  agrees v r -> (forall a, agrees (k a) (k' a)) -> agrees (and_then v k) (bind r k').
Proof.
  destruct v as [a|[e| |]]; cbn; intros H Hk; subst; cbn; auto.
Qed.

Lemma agrees_own {A : Type} (r : result A) : agrees (own r) r.
Proof. now destruct r. Qed.

Lemma decided_agrees rejects v r : decided_by_the_class rejects v r -> agrees v r.
Proof.
  destruct r as [[c kw ch]|e]; cbn; intros ->; [|reflexivity].
  unfold construct. now destruct (rejects c kw ch).
Qed.

Section with_constructors.

Variable rejects : WidgetType -> dict -> list Widget -> option string.

Lemma agrees_construct c kwargs children :
  agrees (construct rejects c kwargs children) (Ok (Node c kwargs children)).
Proof. unfold construct. now destruct (rejects c kwargs children). Qed.

Ltac decide_leaf :=
  repeat match goal with
  | |- context [own (?f ?x)] => destruct (f x); cbn [own and_then bind]
  | |- context [own (?f ?x ?y)] => destruct (f x y); cbn [own and_then bind]
  | |- context [own (?f ?x ?y ?z)] => destruct (f x y z); cbn [own and_then bind]
  | |- decided_by_the_class _ (if ?b then _ else _) _ => destruct b; cbn [own and_then bind]
  | |- decided_by_the_class _ (and_then (if ?b then _ else _) _) _ =>
      destruct b; cbn [own and_then bind]
  | |- decided_by_the_class _ (and_then (match ?x with _ => _ end) _) _ =>
      destruct x; cbn [own and_then bind]
  end; try reflexivity.

Lemma action_button_decided descriptor label variant :
  decided_by_the_class rejects
    (action_button rejects descriptor label variant)
    (chatkit_widget_renderer.action_button descriptor label variant).
Proof.
  unfold action_button, chatkit_widget_renderer.action_button. decide_leaf.
Qed.

Lemma _parse_text_decided spec :
  decided_by_the_class rejects (_parse_text rejects spec)
    (chatkit_widget_renderer._parse_text spec).
Proof.
  unfold _parse_text, chatkit_widget_renderer._parse_text. decide_leaf.
Qed.

Lemma _parse_title_decided spec :
  decided_by_the_class rejects (_parse_title rejects spec)
    (chatkit_widget_renderer._parse_title spec).
Proof.
  unfold _parse_title, chatkit_widget_renderer._parse_title. decide_leaf.
Qed.

Lemma _parse_button_decided spec :
  decided_by_the_class rejects (_parse_button rejects spec)
    (chatkit_widget_renderer._parse_button spec).
Proof.
  unfold _parse_button, chatkit_widget_renderer._parse_button. decide_leaf.
Qed.

Lemma _parse_caption_decided spec :
  decided_by_the_class rejects (_parse_caption rejects spec)
    (chatkit_widget_renderer._parse_caption spec).
Proof.
  unfold _parse_caption, chatkit_widget_renderer._parse_caption. decide_leaf.
Qed.

Lemma _parse_image_decided spec :
  decided_by_the_class rejects (_parse_image rejects spec)
    (chatkit_widget_renderer._parse_image spec).
Proof. reflexivity. Qed.

Lemma _parse_spacer_decided spec :
  decided_by_the_class rejects (_parse_spacer rejects spec)
    (chatkit_widget_renderer._parse_spacer spec).
Proof. reflexivity. Qed.

Lemma _parse_datepicker_decided spec :
  decided_by_the_class rejects (_parse_datepicker rejects spec)
    (chatkit_widget_renderer._parse_datepicker spec).
Proof. reflexivity. Qed.

Lemma _parse_select_decided spec :
  decided_by_the_class rejects (_parse_select rejects spec)
    (chatkit_widget_renderer._parse_select spec).
Proof. reflexivity. Qed.

Lemma unknown_widget_decided t :
  decided_by_the_class rejects (unknown_widget rejects t)
    (Ok (chatkit_widget_renderer.unknown_widget t)).
Proof. reflexivity. Qed.

Lemma _parse_row_decided cs spec :
  decided_by_the_class rejects (_parse_row rejects (Fine cs) spec)
    (chatkit_widget_renderer._parse_row (Ok cs) spec).
Proof. reflexivity. Qed.

Lemma _parse_col_decided cs spec :
  decided_by_the_class rejects (_parse_col rejects (Fine cs) spec)
    (chatkit_widget_renderer._parse_col (Ok cs) spec).
Proof. reflexivity. Qed.

Lemma _parse_box_decided cs spec :
  decided_by_the_class rejects (_parse_box rejects (Fine cs) spec)
    (chatkit_widget_renderer._parse_box (Ok cs) spec).
Proof.
  unfold _parse_box, chatkit_widget_renderer._parse_box. cbn [and_then bind]. decide_leaf.
Qed.

Lemma _parse_divider_agrees spec :
  agrees (_parse_divider rejects spec) (chatkit_widget_renderer._parse_divider spec).
Proof.
  unfold _parse_divider, chatkit_widget_renderer._parse_divider, construct.
  repeat (match goal with |- context [rejects ?c ?k ?ch] => destruct (rejects c k ch) end;
          cbn [and_then]);
    now cbn.
Qed.

Ltac agree :=
  repeat first
    [ apply agrees_own
    | apply agrees_construct
    | apply (decided_agrees rejects), action_button_decided
    | apply agrees_and_then; [|intros ?]
    | match goal with
      | |- agrees (and_then (construct _ ?c ?k ?ch) _) (Ok _) =>
          unfold construct at 1; destruct (rejects c k ch); cbn [and_then]
      end
    | match goal with
      | |- agrees (if ?b then _ else _) _ => destruct b
      | |- agrees (match ?x with _ => _ end) _ => destruct x
      end
    | exact eq_refl
    | exact I ].

Lemma _parse_card_agrees compiled compiled' spec :
  agrees compiled compiled' ->
  agrees (_parse_card rejects compiled spec)
    (chatkit_widget_renderer._parse_card compiled' spec).
Proof.
  intros H. unfold _parse_card, chatkit_widget_renderer._parse_card.
  apply agrees_and_then; [exact H|intros children]. agree.
Qed.

Lemma container_agrees compiled compiled' spec :
  agrees compiled compiled' ->
  agrees (_parse_row rejects compiled spec) (chatkit_widget_renderer._parse_row compiled' spec) /\
  agrees (_parse_col rejects compiled spec) (chatkit_widget_renderer._parse_col compiled' spec) /\
  agrees (_parse_box rejects compiled spec) (chatkit_widget_renderer._parse_box compiled' spec).
Proof.
  intros H. repeat split;
    unfold _parse_row, chatkit_widget_renderer._parse_row,
           _parse_col, chatkit_widget_renderer._parse_col,
           _parse_box, chatkit_widget_renderer._parse_box;
    (apply agrees_and_then; [exact H|intros children]); agree.
Qed.

Lemma agrees_call {A : Type} frames (body : nat -> run A) r :
  (forall inside, agrees (body inside) r) -> agrees (call frames body) r.
Proof. destruct frames; cbn; auto. Qed.

Lemma dispatch_agrees frames compiled compiled' spec widget_type :
  (forall inside, agrees (compiled inside) compiled') ->
  agrees (dispatch rejects frames compiled spec widget_type)
    (chatkit_widget_renderer.dispatch compiled' spec widget_type).
Proof.
  intros H. unfold dispatch, chatkit_widget_renderer.dispatch.
  repeat match goal with
  | |- agrees (if ?b then _ else _) _ => destruct b
  end;
  try (apply agrees_call; intros inside);
  first
    [ apply _parse_card_agrees, H
    | apply (proj1 (container_agrees _ _ spec (H inside)))
    | apply (proj1 (proj2 (container_agrees _ _ spec (H inside))))
    | apply (proj2 (proj2 (container_agrees _ _ spec (H inside))))
    | apply _parse_divider_agrees
    | apply (decided_agrees rejects);
      first [ apply _parse_text_decided | apply _parse_title_decided
            | apply _parse_button_decided | apply _parse_caption_decided
            | apply _parse_image_decided | apply _parse_spacer_decided
            | apply _parse_datepicker_decided | apply _parse_select_decided
            | apply unknown_widget_decided ] ].
Qed.

Lemma program_dispatch_ext frames compiled compiled' spec widget_type :
  (forall inside, compiled inside = compiled' inside) ->
  dispatch rejects frames compiled spec widget_type
  = dispatch rejects frames compiled' spec widget_type.
Proof.
  intros H. unfold dispatch.
  repeat match goal with
  | |- (if ?b then _ else _) = _ => destruct b
  end;
  try reflexivity; destruct frames as [|inside]; cbn [call]; try reflexivity;
  now rewrite H.
Qed.

(** The source-shaped reading of the compiler with its budget. *)
Lemma program_component_eq inside members :
  _parse_widget_component rejects (S inside) (JObj members) =
  match assoc "type" members with
  | None => Fine None
  | Some widget_type =>
      w <~ dispatch rejects inside (fun deeper => compile_children rejects deeper members)
             members widget_type ;;
      Fine (Some w)
  end.
Proof.
  cbn [_parse_widget_component].
  destruct (assoc "type" members) as [t|]; [|reflexivity].
  f_equal. apply program_dispatch_ext. intros deeper.
  unfold compile_children.
  induction members as [|[k v] m IH]; [reflexivity|].
  cbn [assoc]. destruct (String.eqb "children" k); [|exact IH].
  destruct v as [| | | | |items|]; try reflexivity.
  induction items as [|c l IHl]; [reflexivity|].
  cbn [compile_each]. now rewrite <- IHl.
Qed.

Lemma compile_each_agrees frames items :
  Forall (fun c => forall frames',
            agrees (_parse_widget_component rejects frames' c)
              (chatkit_widget_renderer._parse_widget_component c)) items ->
  agrees (compile_each rejects frames items) (chatkit_widget_renderer.compile_each items).
Proof.
  induction 1 as [|c l Hc _ IH]; [exact eq_refl|].
  cbn [compile_each chatkit_widget_renderer.compile_each].
  apply agrees_and_then; [apply Hc|intros child].
  apply agrees_and_then; [exact IH|intros rest]. exact eq_refl.
Qed.

(** Whatever the classes and the stack allow, the program ends as the
    recorded calls say it does, or earlier: with the same result, with
    the same exception of its own code, or with a refusal or an overflow
    on the way. *)
Lemma _parse_widget_component_agrees (spec : json) :
  forall frames,
    agrees (_parse_widget_component rejects frames spec)
      (chatkit_widget_renderer._parse_widget_component spec).
Proof.
  set (Q := fun c => forall frames,
              agrees (_parse_widget_component rejects frames c)
                (chatkit_widget_renderer._parse_widget_component c)).
  enough (H : Q spec /\ forall items, spec = JArr items -> Forall Q items) by apply H.
  induction spec as [| | | | |items IH|members IH] using json_nested_ind;
    try (split; [intros [|inside]; [exact I|exact eq_refl] | intros items H; discriminate H]).
  - split; [intros [|inside]; [exact I|exact eq_refl]|].
    intros items' [= <-]. eapply Forall_impl; [|exact IH]. now intros a [Ha _].
  - split; [|intros items H; discriminate H].
    intros [|inside]; [exact I|].
    rewrite program_component_eq, renderer_facts._parse_widget_component_eq.
    destruct (assoc "type" members) as [t|]; [|exact eq_refl].
    apply agrees_and_then; [|intros w; exact eq_refl].
    apply dispatch_agrees. intros deeper.
    unfold compile_children, chatkit_widget_renderer.compile_children.
    destruct (assoc "children" members) as [v|] eqn:Hch; [|exact eq_refl].
    apply assoc_In in Hch. rewrite Forall_forall in IH.
    specialize (IH _ Hch). cbn [snd] in IH. destruct IH as [_ IH].
    destruct v; try exact eq_refl.
    apply compile_each_agrees. now apply IH.
Qed.

(** The root: every failure of the compilation, a refusal and an overflow
    included, is caught, and what is left to decide is whether the classes
    take the error card. *)
Lemma render_catches frames data recursion_message e :
  _parse_widget_component rejects frames (chatkit_widget_renderer.widget_spec data) = Fails e ->
  render_chatkit_widget_from_json rejects recursion_message (S frames) data =
  (message <~ construct rejects Text
                [("value", JStr ("Error rendering widget: "
                                 ++ str_py_exn recursion_message e)%string);
                 ("color", JStr "error");
                 ("weight", JStr "medium")]
                [] ;;
   construct rejects Card
     [("key", JStr (chatkit_widget_renderer.key data)); ("padding", JInt 4)]
     [message]).
Proof.
  intros H. unfold render_chatkit_widget_from_json. cbn [call]. now rewrite H.
Qed.

Lemma compile_children_agrees frames members :
  agrees (compile_children rejects frames members)
    (chatkit_widget_renderer.compile_children members).
Proof.
  unfold compile_children, chatkit_widget_renderer.compile_children.
  destruct (assoc "children" members) as [[| | | | |items|]|]; try exact eq_refl.
  apply compile_each_agrees. apply Forall_forall. intros c _ frames'.
  apply _parse_widget_component_agrees.
Qed.

Lemma dispatch_leaf_decided inside compiled compiled' members tag :
  In tag ["Text"; "Title"; "Button"; "Caption"; "Image"; "Spacer"; "DatePicker"; "Select"] ->
  decided_by_the_class rejects
    (dispatch rejects (S inside) compiled members (JStr tag))
    (chatkit_widget_renderer.dispatch compiled' members (JStr tag)).
Proof.
  cbn [In]. intros [<-|[<-|[<-|[<-|[<-|[<-|[<-|[<-|[]]]]]]]]];
    cbn [dispatch chatkit_widget_renderer.dispatch eq_str String.eqb Ascii.eqb Bool.eqb call];
    auto using _parse_text_decided, _parse_title_decided, _parse_button_decided,
      _parse_caption_decided, _parse_image_decided, _parse_spacer_decided,
      _parse_datepicker_decided, _parse_select_decided.
Qed.

Lemma dispatch_container_decided inside compiled cs members tag :
  In tag ["Row"; "Col"; "Box"] ->
  compiled inside = Fine cs ->
  decided_by_the_class rejects
    (dispatch rejects (S inside) compiled members (JStr tag))
    (chatkit_widget_renderer.dispatch (Ok cs) members (JStr tag)).
Proof.
  cbn [In]. intros [<-|[<-|[<-|[]]]] H;
    cbn [dispatch chatkit_widget_renderer.dispatch eq_str String.eqb Ascii.eqb Bool.eqb call];
    rewrite H;
    auto using _parse_row_decided, _parse_col_decided, _parse_box_decided.
Qed.


(** What a parser that ends in its one constructor call comes to, inside
    a node. *)
Lemma decided_outcome (v : run Widget) (r : result Widget) :
  decided_by_the_class rejects v r ->
  match r with
  | Raise e => (w <~ v ;; Fine (Some w)) = Fails (Native e)
  | Ok w =>
      (w <~ v ;; Fine (Some w)) =
      match rejects (cls_of w) (kwargs_of w) (children_of w) with
      | None => Fine (Some w)
      | Some msg => Fails (ValidationError (cls_of w) msg)
      end
  end.
Proof.
  destruct r as [[c kw ch]|e]; cbn; intros ->; [|reflexivity].
  unfold construct. now destruct (rejects c kw ch).
Qed.

(** A node of a type whose parser ends in its one constructor call: what
    the code of the parser raises, or else what the class says. *)
Lemma component_decided frames members tag :
  assoc "type" members = Some (JStr tag) ->
  In tag ["Text"; "Title"; "Button"; "Caption"; "Image"; "Spacer"; "DatePicker"; "Select"] \/
  (In tag ["Row"; "Col"; "Box"] /\
   exists cs, compile_children rejects frames members = Fine cs) ->
  match chatkit_widget_renderer._parse_widget_component (JObj members) with
  | Raise e =>
      _parse_widget_component rejects (S (S frames)) (JObj members) = Fails (Native e)
  | Ok (Some w) =>
      _parse_widget_component rejects (S (S frames)) (JObj members) =
      match rejects (cls_of w) (kwargs_of w) (children_of w) with
      | None => Fine (Some w)
      | Some msg => Fails (ValidationError (cls_of w) msg)
      end
  | Ok None => False
  end.
Proof.
  intros Htype Htag.
  rewrite program_component_eq, renderer_facts._parse_widget_component_eq, Htype.
  assert (Hd : decided_by_the_class rejects
                 (dispatch rejects (S frames)
                    (fun deeper => compile_children rejects deeper members) members (JStr tag))
                 (chatkit_widget_renderer.dispatch
                    (chatkit_widget_renderer.compile_children members) members (JStr tag))).
  { destruct Htag as [Hleaf|(Hcont & cs & Hcs)].
    - now apply dispatch_leaf_decided.
    - pose proof (compile_children_agrees frames members) as Ha.
      rewrite Hcs in Ha. cbn in Ha. rewrite Ha.
      now apply dispatch_container_decided. }
  apply decided_outcome in Hd.
  destruct (chatkit_widget_renderer.dispatch _ members (JStr tag)) as [w|e]; exact Hd.
Qed.

(** The buttons [_parse_card] derives from one descriptor key, inside the
    program. *)
Lemma program_button_for spec k label variant :
  (readable_descriptor spec k = false ->
   (if contains k spec
    then b <~ action_button rejects (item spec k) label variant ;; Fine [b]
    else Fine [])
   = Fails (Native (AttributeError_get (type_name (item spec k))))) /\
  (readable_descriptor spec k = true ->
   (exists bs,
      (if contains k spec
       then b <~ action_button rejects (item spec k) label variant ;; Fine [b]
       else Fine [])
      = Fine bs) \/
   (exists msg,
      (if contains k spec
       then b <~ action_button rejects (item spec k) label variant ;; Fine [b]
       else Fine [])
      = Fails (ValidationError Button msg))).
Proof.
  unfold readable_descriptor, contains, item, get.
  destruct (assoc k spec) as [v|]; [|split; [discriminate|eauto]].
  destruct v; split; try discriminate; try reflexivity.
  intros _. unfold action_button, construct. cbn [as_dict own and_then].
  match goal with |- context [rejects ?c ?kw ?ch] => destruct (rejects c kw ch) end;
    cbn [and_then]; eauto.
Qed.

(** A [Card] whose children compiled and whose descriptors can be read
    ends with a [Card], or with the refusal of one of the three classes
    it calls. *)
Lemma _parse_card_outcome cs spec :
  readable_descriptor spec "cancel" = true ->
  readable_descriptor spec "confirm" = true ->
  (exists w, _parse_card rejects (Fine cs) spec = Fine w) \/
  (exists c msg, In c [Button; Row; Card] /\
                 _parse_card rejects (Fine cs) spec = Fails (ValidationError c msg)).
Proof.
  intros Hc Hf. unfold _parse_card. cbn [and_then].
  destruct (proj2 (program_button_for spec "cancel" "Cancel" "outline") Hc)
    as [(bs & Ec)|(msg & Ec)];
    destruct (proj2 (program_button_for spec "confirm" "Confirm" "solid") Hf)
    as [(bs' & Ef)|(msg' & Ef)];
    destruct (contains "confirm" spec || contains "cancel" spec);
    rewrite ?Ec, ?Ef; cbn [and_then];
    try (right; exists Button; eexists; split; [cbn; tauto|reflexivity]);
    try (destruct (bs ++ bs'); cbn [and_then]);
    unfold construct;
    repeat (match goal with
            | |- context [rejects ?c ?kw ?ch] => destruct (rejects c kw ch) eqn:?
            end; cbn [and_then]);
    try (left; eexists; reflexivity);
    try (right; exists Row; eexists; split; [cbn; tauto|reflexivity]);
    try (right; exists Card; eexists; split; [cbn; tauto|reflexivity]).
Qed.

End with_constructors.
End validated_facts.

(** C3.  [_parse_row] hands the [align] of the spec to [Row] as it is.
    The reference table lists four values of [align] for a [Row], and
    ["diagonal"] is none of them; [validate_and_map_parameter], which no
    parser calls, would turn it into the listed ["start"].  For a [Row]
    that asks for ["diagonal"] the class receives ["diagonal"]: the node
    is a [Row] aligned that way if the class takes the call and the
    [ValidationError] of the class if it does not, in which case the root
    entry point returns the error card in place of the widget.  The
    direction of a [Box], which [_parse_box] checks against its own list,
    goes to the class as ["col"] for the same input. *)
Theorem unlisted_row_align_reaches_the_class
    (rejects : WidgetType -> dict -> list Widget -> option string)
    (recursion_message : string) (frames : nat) :
  (exists l,
     get (get CHATKIT_VALIDATION_RULES "Row" []) "align" (Allowed []) = Allowed l /\
     mem "diagonal" l = false /\
     validate_and_map_parameter "Row" "align" "diagonal" = "start" /\
     mem "start" l = true) /\
  validated_renderer._parse_widget_component rejects (S (S frames)) row_with_bad_align
  = match rejects Row
            [("gap", JInt 2); ("align", JStr "diagonal"); ("justify", JStr "start")] [] with
    | None =>
        validated_renderer.Fine
          (Some (Node Row
                   [("gap", JInt 2); ("align", JStr "diagonal"); ("justify", JStr "start")]
                   []))
    | Some msg => validated_renderer.Fails (validated_renderer.ValidationError Row msg)
    end /\
  (forall msg,
     rejects Row [("gap", JInt 2); ("align", JStr "diagonal"); ("justify", JStr "start")] []
     = Some msg ->
     validated_renderer.render_chatkit_widget_from_json rejects recursion_message
       (S (S (S frames))) (request row_with_bad_align)
     = validated_renderer.and_then
         (validated_renderer.construct rejects Text
            [("value", JStr ("Error rendering widget: " ++ msg)%string);
             ("color", JStr "error"); ("weight", JStr "medium")]
            [])
         (fun message =>
            validated_renderer.construct rejects Card
              [("key", JStr "chatkit_widget"); ("padding", JInt 4)] [message])) /\
  validated_renderer._parse_widget_component rejects (S (S frames))
    (JObj [("type", JStr "Box"); ("direction", JStr "diagonal")])
  = validated_renderer.and_then
      (validated_renderer.construct rejects Box
         [("padding", JInt 0); ("gap", JInt 0); ("direction", JStr "col");
          ("align", JStr "start"); ("justify", JStr "start");
          ("background", JNull); ("radius", JNull)]
         [])
      (fun w => validated_renderer.Fine (Some w)).
Proof.
  split; [|split; [|split]].
  - eexists. repeat split; reflexivity.
  - cbn. unfold validated_renderer.construct. now destruct (rejects Row _ _).
  - intros msg H.
    rewrite (validated_facts.render_catches rejects (S (S frames))
               (request row_with_bad_align) recursion_message
               (validated_renderer.ValidationError Row msg)); [reflexivity|].
    cbn. unfold validated_renderer.construct. now rewrite H.
  - reflexivity.
Qed.

Lemma unlisted_row_align_reaches_the_class_witness :
  validated_renderer.render_chatkit_widget_from_json sample_classes
    "maximum recursion depth exceeded" 3 (request row_with_bad_align)
  = validated_renderer.Fine
      (Node Card [("key", JStr "chatkit_widget"); ("padding", JInt 4)]
         [Node Text
            [("value", JStr "Error rendering widget: 1 validation error for Row");
             ("color", JStr "error"); ("weight", JStr "medium")]
            []]).
Proof.
  exact (proj1 (proj2 (proj2 (unlisted_row_align_reaches_the_class sample_classes
                                "maximum recursion depth exceeded" 0)))
           "1 validation error for Row" eq_refl).
Defined.

(** C4, as the specification words it, fails: a [Card] that carries only
    [confirm] ends with a row of one button, and no Cancel button is
    made. *)
Lemma confirm_alone_gives_one_button :
  _parse_widget_component confirm_only_card =
  Ok (Some (Node Card [("size", JStr "md")]
              [button_row
                 [Node Button
                    [("label", JStr "Send"); ("variant", JStr "solid"); ("size", JStr "sm")]
                    []]])).
Proof. reflexivity. Qed.

(** C4 (amended).  For a [Card] spec whose [cancel] and [confirm], where
    present, are objects, and at least one of which is present, the
    compiled children end with one [Row] holding the Cancel button
    (outline) if [cancel] is present, then the Confirm button (solid) if
    [confirm] is present.  With both present the row is Cancel, Confirm, in
    that order, wherever the two keys stand in the spec. *)
Theorem card_action_row (members : dict) (cs : list Widget)
    (cancel confirm : option dict)
    (Htype : assoc "type" members = Some (JStr "Card"))
    (Hchildren : compile_children members = Ok cs)
    (Hcancel : assoc "cancel" members = option_map JObj cancel)
    (Hconfirm : assoc "confirm" members = option_map JObj confirm)
    (Hsome : cancel <> None \/ confirm <> None) :
  _parse_widget_component (JObj members) =
  Ok (Some (Node Card (card_kwargs members)
              (cs ++ [button_row (descriptor_buttons cancel "Cancel" "outline"
                                  ++ descriptor_buttons confirm "Confirm" "solid")]))).
Proof.
  rewrite _parse_widget_component_eq, Htype, Hchildren.
  cbn [dispatch eq_str String.eqb Ascii.eqb Bool.eqb].
  rewrite (_parse_card_descriptors _ _ _ _ Hcancel Hconfirm).
  destruct cancel, confirm; try reflexivity.
  destruct Hsome as [H|H]; now destruct H.
Qed.

Lemma card_action_row_witness :
  _parse_widget_component
    (JObj [("confirm", JObj [("label", JStr "Send")]);
           ("type", JStr "Card");
           ("cancel", JObj [("action", JObj [("type", JStr "discard")])])]) =
  Ok (Some (Node Card [("size", JStr "md")]
              [button_row
                 [Node Button
                    [("label", JStr "Cancel"); ("variant", JStr "outline");
                     ("size", JStr "sm");
                     ("onClickAction", JObj [("type", JStr "discard")])]
                    [];
                  Node Button
                    [("label", JStr "Send"); ("variant", JStr "solid"); ("size", JStr "sm")]
                    []]])).
Proof.
  exact (card_action_row
           [("confirm", JObj [("label", JStr "Send")]);
            ("type", JStr "Card");
            ("cancel", JObj [("action", JObj [("type", JStr "discard")])])]
           []
           (Some [("action", JObj [("type", JStr "discard")])])
           (Some [("label", JStr "Send")])
           eq_refl eq_refl eq_refl eq_refl
           (or_introl (fun H => eq_ind (Some [("action", JObj [("type", JStr "discard")])])
                                  (fun o => match o with Some _ => True | None => False end)
                                  I None H))).
Defined.

(** C5.  A node whose type tag is a string outside the known set compiles
    to one [Text] leaf saying so, and does not fail.  Hence, in a container
    whose children all compile to a node, the compiled children are as
    many as the children of the spec, and the diagnostic leaves among them
    are as many as the children of unknown type: ten children with three
    unknown types give ten children, three of them diagnostic. *)
Theorem unknown_type_is_contained :
  (forall members s,
     assoc "type" members = Some (JStr s) -> mem s KNOWN_TYPES = false ->
     _parse_widget_component (JObj members) =
     Ok (Some (Node Text
                 [("value", JStr ("Unknown widget type: " ++ s)%string);
                  ("color", JStr "tertiary"); ("size", JStr "sm")]
                 []))) /\
  (forall members items ws,
     assoc "children" members = Some (JArr items) ->
     Forall2 (fun c w => _parse_widget_component c = Ok (Some w)) items ws ->
     compile_children members = Ok ws /\
     length ws = length items /\
     length (filter is_diagnostic ws) = length (filter has_unknown_type items) /\
     (assoc "type" members = Some (JStr "Row") ->
      _parse_widget_component (JObj members) = Ok (Some (Node Row (row_kwargs members) ws))) /\
     (assoc "type" members = Some (JStr "Card") ->
      contains "cancel" members = false -> contains "confirm" members = false ->
      _parse_widget_component (JObj members)
        = Ok (Some (Node Card (card_kwargs members) ws)))) /\
  (exists ws,
     _parse_widget_component
       (JObj [("type", JStr "Card"); ("children", JArr ten_children)])
       = Ok (Some (Node Card [("size", JStr "md")] ws)) /\
     length ws = 10 /\
     length (filter is_diagnostic ws) = 3).
Proof.
  split; [|split].
  - intros members s Ht Hk. rewrite _parse_widget_component_eq, Ht.
    rewrite dispatch_unknown by exact Hk. reflexivity.
  - intros members items ws Hch HF.
    destruct (compile_each_all _ _ HF) as (Hc & Hlen & Hdiag).
    assert (Hcc : compile_children members = Ok ws).
    { unfold compile_children. now rewrite Hch. }
    repeat split; try assumption.
    + intros Ht. rewrite _parse_widget_component_eq, Ht, Hcc. reflexivity.
    + intros Ht Hcancel Hconfirm.
      rewrite _parse_widget_component_eq, Ht, Hcc.
      cbn [dispatch eq_str String.eqb Ascii.eqb Bool.eqb].
      rewrite (_parse_card_descriptors _ _ None None)
        by (apply contains_false_assoc; assumption).
      cbn. now rewrite (app_nil_r ws).
  - eexists. repeat split; reflexivity.
Qed.

Lemma unknown_type_is_contained_witness :
  _parse_widget_component (JObj [("type", JStr "Bogus")]) =
  Ok (Some (Node Text
              [("value", JStr "Unknown widget type: Bogus");
               ("color", JStr "tertiary"); ("size", JStr "sm")]
              [])) /\
  _parse_widget_component (JObj [("type", JStr "Row"); ("children", JArr ten_children)])
    = Ok (Some (Node Row [("gap", JInt 2); ("align", JStr "center");
                          ("justify", JStr "start")] ten_compiled)) /\
  length ten_compiled = 10 /\
  length (filter is_diagnostic ten_compiled) = 3.
Proof.
  split.
  - apply (proj1 unknown_type_is_contained [("type", JStr "Bogus")] "Bogus");
      reflexivity.
  - assert (F : Forall2 (fun c w => _parse_widget_component c = Ok (Some w))
                  ten_children ten_compiled)
      by (repeat constructor).
    destruct (proj1 (proj2 unknown_type_is_contained)
                [("type", JStr "Row"); ("children", JArr ten_children)]
                ten_children ten_compiled eq_refl F)
      as (_ & Hlen & Hdiag & Hrow & _).
    split; [exact (Hrow eq_refl)|].
    split; [exact Hlen|exact Hdiag].
Defined.

Module omission_facts.
Import chatkit_widget_renderer renderer_facts root_facts compile_facts.
Local Open Scope list_scope.

Lemma compile_each_kept items outcomes :
  Forall2 (fun c o => _parse_widget_component c = Ok o) items outcomes ->
  compile_each items = Ok (kept outcomes).
Proof.
  induction 1 as [|c o items outcomes Hc _ IH]; [reflexivity|].
  cbn [compile_each]. rewrite Hc, IH. cbn [bind]. now destruct o.
Qed.

Lemma kept_app a b : kept (a ++ b) = kept a ++ kept b.
Proof. apply flat_map_app. Qed.

Lemma compile_each_around before after bad outcomes_before outcomes_after :
  malformed bad = true ->
  Forall2 (fun c o => _parse_widget_component c = Ok o) before outcomes_before ->
  Forall2 (fun c o => _parse_widget_component c = Ok o) after outcomes_after ->
  compile_each (before ++ bad :: after) = Ok (kept outcomes_before ++ kept outcomes_after).
Proof.
  intros Hbad Hb Ha.
  rewrite (compile_each_kept (before ++ bad :: after) (outcomes_before ++ None :: outcomes_after)).
  - now rewrite kept_app.
  - apply Forall2_app; [exact Hb|].
    constructor; [now apply _parse_widget_component_malformed|exact Ha].
Qed.

Lemma container_children members tag cs p :
  assoc "type" members = Some (JStr tag) ->
  In tag CONTAINER_TYPES ->
  compile_children members = Ok cs ->
  _parse_widget_component (JObj members) = Ok (Some p) ->
  exists extra, children_of p = cs ++ extra /\ (tag <> "Card" -> extra = []).
Proof.
  intros Htype Htag Hcs H.
  rewrite _parse_widget_component_eq, Htype, Hcs in H.
  apply bind_Ok in H. destruct H as (w & Hd & H). injection H as <-.
  cbn [In CONTAINER_TYPES] in Htag.
  destruct Htag as [<-|[<-|[<-|[<-|[]]]]];
    cbn [dispatch eq_str String.eqb Ascii.eqb Bool.eqb] in Hd.
  - apply _parse_card_Ok in Hd.
    destruct Hd as (cs' & cancel & confirm & Hcs' & _ & _ & ->).
    injection Hcs' as <-. cbn [children_of]. eexists. split; [reflexivity|].
    intros Hne. now contradiction Hne.
  - injection Hd as <-. exists []. now rewrite app_nil_r.
  - injection Hd as <-. exists []. now rewrite app_nil_r.
  - unfold _parse_box in Hd. cbn [bind] in Hd.
    apply bind_Ok in Hd. destruct Hd as (m & _ & Hd). injection Hd as <-.
    exists []. now rewrite app_nil_r.
Qed.

End omission_facts.

(** C6.  A node that is not an object, or has no ["type"] key, compiles
    to nothing and raises nothing, in the running program as in the
    record of its calls.  In a list of children it leaves no trace: the
    loop returns what the siblings before it compiled to, followed by
    what the siblings after it compiled to, each sibling compiled as it
    would be alone.  A container that lists it has these as its children
    (a [Card] may add its row of buttons after them), and compiles as if
    the node were not listed. *)
Theorem malformed_node_is_omitted :
  (forall spec, malformed spec = true -> _parse_widget_component spec = Ok None) /\
  (forall rejects frames spec,
     malformed spec = true ->
     validated_renderer._parse_widget_component rejects (S frames) spec
     = validated_renderer.Fine None) /\
  (forall before after bad outcomes_before outcomes_after,
     malformed bad = true ->
     Forall2 (fun c o => _parse_widget_component c = Ok o) before outcomes_before ->
     Forall2 (fun c o => _parse_widget_component c = Ok o) after outcomes_after ->
     compile_each (before ++ bad :: after)
     = Ok (kept outcomes_before ++ kept outcomes_after)) /\
  (forall members tag before after bad outcomes_before outcomes_after p,
     assoc "type" members = Some (JStr tag) ->
     In tag CONTAINER_TYPES ->
     assoc "children" members = Some (JArr (before ++ bad :: after)) ->
     malformed bad = true ->
     Forall2 (fun c o => _parse_widget_component c = Ok o) before outcomes_before ->
     Forall2 (fun c o => _parse_widget_component c = Ok o) after outcomes_after ->
     _parse_widget_component (JObj members) = Ok (Some p) ->
     exists extra,
       children_of p = (kept outcomes_before ++ kept outcomes_after) ++ extra /\
       (tag <> "Card" -> extra = [])) /\
  (forall pre post before after bad,
     malformed bad = true ->
     ~ In "children" (map fst pre) ->
     _parse_widget_component
       (JObj (pre ++ ("children", JArr (before ++ bad :: after)) :: post))
     = _parse_widget_component
         (JObj (pre ++ ("children", JArr (before ++ after)) :: post))).
Proof.
  split; [exact _parse_widget_component_malformed|].
  split; [|split; [|split]].
  - intros rejects frames [| | | | | |members] H; try reflexivity.
    cbn [validated_renderer._parse_widget_component].
    unfold malformed, contains in H.
    now destruct (assoc "type" members).
  - exact omission_facts.compile_each_around.
  - intros members tag before after bad ob oa p Htype Htag Hch Hbad Hb Ha Hp.
    apply (omission_facts.container_children members tag _ p Htype Htag); [|exact Hp].
    unfold compile_children. rewrite Hch.
    now apply omission_facts.compile_each_around.
  - intros pre post before after bad Hbad Hpre.
    assert (Hc : compile_children (pre ++ ("children", JArr (before ++ bad :: after)) :: post)
                 = compile_each (before ++ after)).
    { unfold compile_children. rewrite (assoc_middle _ _ _ _ Hpre).
      now apply compile_each_skips. }
    rewrite !_parse_widget_component_eq.
    rewrite (assoc_other "type" "children" pre post _ (JArr (before ++ after)))
      by discriminate.
    destruct (assoc "type" _) as [t|]; [|reflexivity].
    rewrite Hc. unfold compile_children. rewrite (assoc_middle _ _ _ _ Hpre).
    f_equal. apply dispatch_ext. intros k Hk. now apply assoc_other.
Qed.

Lemma malformed_node_is_omitted_witness :
  _parse_widget_component
    (JObj [("type", JStr "Col");
           ("children",
            JArr [JObj [("type", JStr "Spacer")];
                  JObj [("value", JStr "no type")];
                  JObj [("type", JStr "Title"); ("value", JStr "kept")]])])
  = Ok (Some (Node Col [("gap", JInt 2); ("align", JStr "start")]
                [Node Spacer [] [];
                 Node Title
                   [("value", JStr "kept"); ("size", JStr "lg");
                    ("weight", JStr "semibold"); ("color", JStr "primary")]
                   []])) /\
  compile_each
    [JObj [("type", JStr "Spacer")];
     JObj [("value", JStr "no type")];
     JObj [("type", JStr "Title"); ("value", JStr "kept")]]
  = Ok [Node Spacer [] [];
        Node Title
          [("value", JStr "kept"); ("size", JStr "lg"); ("weight", JStr "semibold");
           ("color", JStr "primary")]
          []].
Proof.
  split; [reflexivity|].
  apply (proj1 (proj2 (proj2 malformed_node_is_omitted))
           [JObj [("type", JStr "Spacer")]]
           [JObj [("type", JStr "Title"); ("value", JStr "kept")]]
           (JObj [("value", JStr "no type")])
           [Some (Node Spacer [] [])]
           [Some (Node Title
                    [("value", JStr "kept"); ("size", JStr "lg");
                     ("weight", JStr "semibold"); ("color", JStr "primary")]
                    [])]).
  - reflexivity.
  - repeat constructor.
  - repeat constructor.
Defined.

Module cutoff_facts.
Import json_widget json_widget_facts.
Local Open Scope list_scope.
Local Open Scope Z_scope.

Lemma key_name_is_not_shown value depth max_depth show_types key_name key_name' :
  _render_json_content value depth max_depth show_types key_name
  = _render_json_content value depth max_depth show_types key_name'.
Proof. rewrite !_render_json_content_eq. now destruct value. Qed.

Lemma nth_error_object_rows depth max_depth show_types members i :
  nth_error (object_rows depth max_depth show_types members) i
  = option_map
      (fun kv => object_row (fst kv)
                   (_render_json_content (snd kv) (depth + 1) max_depth show_types (fst kv)))
      (nth_error members i).
Proof.
  revert i. induction members as [|[k v] l IH]; intros [|i]; try reflexivity.
  apply IH.
Qed.

Lemma nth_error_array_rows depth max_depth show_types items :
  forall (j : Z) (i : nat),
    nth_error (array_rows depth max_depth show_types j items) i
    = option_map
        (fun v => array_row (j + Z.of_nat i)
                    (_render_json_content v (depth + 1) max_depth show_types
                       ("item_" ++ str_int (j + Z.of_nat i))%string))
        (nth_error items i).
Proof.
  induction items as [|v l IH]; intros j [|i]; try reflexivity.
  - cbn [array_rows nth_error option_map]. now rewrite Z.add_0_r.
  - cbn [nth_error].
    change (array_rows depth max_depth show_types j (v :: l))
      with (array_row j
              (_render_json_content v (depth + 1) max_depth show_types
                 ("item_" ++ str_int j)%string)
            :: array_rows depth max_depth show_types (j + 1) l).
    cbn [nth_error]. rewrite IH.
    replace (j + 1 + Z.of_nat i) with (j + Z.of_nat (S i)) by lia. reflexivity.
Qed.

(** One step down: the value of row [i] is the rendering of entry [i],
    one level deeper. *)
Lemma cell_step value depth max_depth show_types key_name i v :
  depth <= max_depth ->
  descend value [i] = Some v ->
  exists row,
    nth_error (rows_of (_render_json_content value depth max_depth show_types key_name)) i
    = Some row /\
    row_value row
    = Some (_render_json_content v (depth + 1) max_depth show_types key_name).
Proof.
  intros Hd Hv. rewrite _render_json_content_eq.
  destruct (Z.gtb_spec depth max_depth); [lia|].
  destruct value as [| | | | |items|members]; try discriminate Hv; cbn [descend] in Hv.
  - destruct (nth_error items i) as [x|] eqn:E; [|discriminate Hv]. injection Hv as ->.
    unfold _render_array. destruct items as [|y l] eqn:El; [now destruct i|].
    rewrite <- El in *. cbn [rows_of rows_box].
    rewrite nth_error_array_rows, E. cbn [option_map]. eexists. split; [reflexivity|].
    cbn [row_value array_row]. f_equal. apply key_name_is_not_shown.
  - destruct (nth_error members i) as [[k x]|] eqn:E; [|discriminate Hv]. injection Hv as ->.
    unfold _render_object. destruct members as [|y l] eqn:El; [now destruct i|].
    rewrite <- El in *. cbn [rows_of rows_box].
    rewrite nth_error_object_rows, E. cbn [option_map fst snd]. eexists. split; [reflexivity|].
    cbn [row_value object_row]. f_equal. apply key_name_is_not_shown.
Qed.

Lemma descend_step value i path sub :
  descend value (i :: path) = Some sub ->
  exists v, descend value [i] = Some v /\ descend v path = Some sub.
Proof.
  cbn [descend].
  destruct value as [| | | | |items|members]; try discriminate.
  - destruct (nth_error items i) as [x|]; [eauto|discriminate].
  - destruct (nth_error members i) as [[k x]|]; [eauto|discriminate].
Qed.

(** The widget follows the data down to the cutoff: what a path leads to
    in the widget is the rendering of what it leads to in the data, at
    the depth of the path. *)
Lemma cell_of_rendering max_depth show_types key_name path :
  forall value sub depth,
    descend value path = Some sub ->
    depth + Z.of_nat (length path) <= max_depth + 1 ->
    cell (_render_json_content value depth max_depth show_types key_name) path
    = Some (_render_json_content sub (depth + Z.of_nat (length path)) max_depth
              show_types key_name).
Proof.
  induction path as [|i path IH]; intros value sub depth Hs Hd.
  - injection Hs as ->. cbn [length cell]. now rewrite Z.add_0_r.
  - apply descend_step in Hs. destruct Hs as (v & Hv & Hs).
    cbn [length] in Hd |- *.
    destruct (cell_step value depth max_depth show_types key_name i v ltac:(lia) Hv)
      as (row & Hrow & Hval).
    cbn [cell]. rewrite Hrow, Hval.
    rewrite (IH v sub (depth + 1) Hs ltac:(lia)).
    do 2 f_equal. lia.
Qed.

Lemma rows_of_leaf value show_types key_name :
  rows_of (_render_primitive value show_types key_name) = [].
Proof. unfold _render_primitive. now destruct value as [|[]| | | | |], show_types. Qed.

(** Nothing lies beyond the cutoff. *)
Lemma nothing_beyond max_depth show_types key_name path :
  forall value depth,
    path <> [] ->
    max_depth + 1 < depth + Z.of_nat (length path) ->
    cell (_render_json_content value depth max_depth show_types key_name) path = None.
Proof.
  induction path as [|i path IH]; intros value depth Hne Hd; [contradiction|].
  cbn [cell].
  destruct (nth_error (rows_of (_render_json_content value depth max_depth show_types key_name)) i)
    as [row|] eqn:Hrow; [|reflexivity].
  rewrite _render_json_content_eq in Hrow.
  destruct (Z.gtb_spec depth max_depth) as [Hcut|Hin]; [now destruct i|].
  assert (Hp : path <> []).
  { intros ->. cbn [length] in Hd. lia. }
  cbn [length] in Hd.
  destruct value as [| | | | |items|members];
    try (rewrite rows_of_leaf in Hrow; now destruct i).
  - unfold _render_array in Hrow. destruct items as [|y l] eqn:El; [now destruct i|].
    rewrite <- El in *. cbn [rows_of rows_box] in Hrow.
    rewrite nth_error_array_rows in Hrow.
    destruct (nth_error items i) as [x|]; [|discriminate Hrow].
    injection Hrow as <-. cbn [row_value array_row].
    rewrite (key_name_is_not_shown _ _ _ _ _ key_name).
    apply IH; [exact Hp|lia].
  - unfold _render_object in Hrow. destruct members as [|y l] eqn:El; [now destruct i|].
    rewrite <- El in *. cbn [rows_of rows_box] in Hrow.
    rewrite nth_error_object_rows in Hrow.
    destruct (nth_error members i) as [[k x]|]; [|discriminate Hrow].
    injection Hrow as <-. cbn [row_value object_row option_map fst snd].
    rewrite (key_name_is_not_shown _ _ _ _ _ key_name).
    apply IH; [exact Hp|lia].
Qed.

End cutoff_facts.

(** C7.  Once the depth is above [max_depth] the walk returns the
    "max depth reached" leaf, whatever the value.  From any start at or
    below the cutoff the widget follows the data level by level, through
    objects and arrays alike: what a path leads to in the widget is the
    rendering of what it leads to in the data, the leaf where the path
    reaches depth [max_depth + 1], and nothing beyond.  The cutoff is
    also what bounds the calls the walk nests: two for each level down
    to it and one for the leaf are enough, whatever the data.  With
    [max_depth = 2], an object nested five levels deep shows the leaf at
    depth 3, as the value of its third key; with [max_depth = 0], an
    array shows it as the value of each of its items. *)
Theorem depth_cutoff :
  (forall value depth max_depth show_types key_name,
     (max_depth < depth)%Z ->
     _render_json_content value depth max_depth show_types key_name = cutoff_leaf) /\
  (forall value path sub depth max_depth show_types key_name,
     descend value path = Some sub ->
     (depth + Z.of_nat (length path) = max_depth + 1)%Z ->
     cell (_render_json_content value depth max_depth show_types key_name) path
     = Some cutoff_leaf) /\
  (forall value path sub depth max_depth show_types key_name,
     descend value path = Some sub ->
     (depth + Z.of_nat (length path) <= max_depth)%Z ->
     cell (_render_json_content value depth max_depth show_types key_name) path
     = Some (_render_json_content sub (depth + Z.of_nat (length path)) max_depth
               show_types key_name) /\
     cell (_render_json_content value depth max_depth show_types key_name) path
     <> Some cutoff_leaf) /\
  (forall value path depth max_depth show_types key_name,
     path <> [] ->
     (max_depth + 1 < depth + Z.of_nat (length path))%Z ->
     cell (_render_json_content value depth max_depth show_types key_name) path = None) /\
  (forall value frames depth max_depth show_types key_name,
     (2 * Z.to_nat (max_depth + 1 - depth) + 1 <= frames)%nat ->
     bounded_json_widget._render_json_content frames value depth max_depth show_types key_name
     = bounded_json_widget.Rendered
         (_render_json_content value depth max_depth show_types key_name)) /\
  _render_json_content five_levels 0 2 true EmptyString = five_levels_widget /\
  _render_json_content two_items 0 0 true EmptyString = two_items_widget.
Proof.
  assert (Hcut : forall value depth max_depth show_types key_name,
            (max_depth < depth)%Z ->
            _render_json_content value depth max_depth show_types key_name = cutoff_leaf).
  { intros value depth max_depth show_types key_name H.
    rewrite json_widget_facts._render_json_content_eq.
    destruct (Z.gtb_spec depth max_depth); [reflexivity|lia]. }
  split; [exact Hcut|]. split; [|split; [|split; [|split; [|split]]]].
  - intros value path sub depth max_depth show_types key_name Hs Hd.
    rewrite (cutoff_facts.cell_of_rendering _ _ _ _ _ _ _ Hs) by lia.
    f_equal. apply Hcut. lia.
  - intros value path sub depth max_depth show_types key_name Hs Hd.
    rewrite (cutoff_facts.cell_of_rendering _ _ _ _ _ _ _ Hs) by lia.
    split; [reflexivity|].
    rewrite json_widget_facts._render_json_content_eq.
    destruct (Z.gtb_spec (depth + Z.of_nat (length path)) max_depth); [lia|].
    intros [= Hleaf]. revert Hleaf.
    destruct sub as [|[]| | | | [|x l] | [|x l]]; try discriminate;
      unfold _render_primitive; destruct show_types; discriminate.
  - intros value path depth max_depth show_types key_name.
    apply cutoff_facts.nothing_beyond.
  - intros value frames depth max_depth show_types key_name Hf.
    destruct (bounded_walk_facts.walk_completes value frames depth max_depth
                show_types key_name Hf) as (w & Hw).
    rewrite Hw. f_equal. exact (bounded_walk_facts.walk_agrees _ _ _ _ _ _ _ Hw).
  - reflexivity.
  - reflexivity.
Qed.

Lemma depth_cutoff_witness :
  cell (_render_json_content five_levels 0 2 true EmptyString) [0; 0; 0]%nat
  = Some cutoff_leaf.
Proof.
  apply (proj1 (proj2 depth_cutoff) five_levels [0; 0; 0]%nat
           (JObj [("l4", JObj [("l5", JStr "deep")])]) 0%Z 2%Z true EmptyString).
  - reflexivity.
  - reflexivity.
Defined.



(** C10.  The rule for the [background] of a [Card] is a sentence, not a
    list.  A value is then accepted when it occurs in the sentence
    (["gradients"] does), and a value that does not is answered with the
    first character of the sentence: for ["red"] the answer is ["C"],
    which is not the value supplied, not the target of any alias and not
    listed by any rule. *)
Theorem description_rule_answers_first_character :
  get (get CHATKIT_VALIDATION_RULES "Card" []) "background" (Allowed [])
    = Described "CSS background value (gradients, colors, etc.)" /\
  rule_contains "red" (Described "CSS background value (gradients, colors, etc.)")
    = str_in "red" "CSS background value (gradients, colors, etc.)" /\
  str_in "red" "CSS background value (gradients, colors, etc.)" = false /\
  validate_and_map_parameter "Card" "background" "red" = "C" /\
  "C" <> "red" /\
  mem "C" alias_targets = false /\
  mem "C" listed_values = false /\
  validate_and_map_parameter "Card" "background" "gradients" = "gradients".
Proof. repeat split; try reflexivity. discriminate. Qed.

(* ===================================================================== *)
(** * Further properties of the spec-driven compiler *)
(* ===================================================================== *)

Module children_loop.
Import chatkit_widget_renderer renderer_facts root_facts compile_facts.
Local Open Scope list_scope.

(** Only a malformed node compiles to nothing. *)
Lemma compiles_to_none spec :
  _parse_widget_component spec = Ok None -> malformed spec = true.
Proof.
  destruct spec; try reflexivity.
  rewrite _parse_widget_component_eq. cbn [malformed]. unfold contains.
  destruct (assoc "type" members) as [t|]; [|reflexivity].
  destruct (dispatch _ _ _); discriminate.
Qed.

Lemma compile_each_length items ws :
  compile_each items = Ok ws ->
  length ws = length (filter (fun c => negb (malformed c)) items).
Proof.
  revert ws. induction items as [|c l IH]; intros ws H; cbn [compile_each] in H.
  - now injection H as <-.
  - apply bind_Ok in H. destruct H as (child & Hc & H).
    apply bind_Ok in H. destruct H as (rest & Hr & H). injection H as <-.
    specialize (IH _ Hr). cbn [filter].
    destruct child as [w|].
    + destruct (malformed c) eqn:Em.
      * rewrite (_parse_widget_component_malformed _ Em) in Hc. discriminate Hc.
      * cbn. now rewrite IH.
    + now rewrite (compiles_to_none _ Hc).
Qed.


(** A container parser fails as its children loop does. *)
Lemma dispatch_container_raises members tag e :
  In tag CONTAINER_TYPES ->
  dispatch (Raise e) members (JStr tag) = Raise e.
Proof.
  intros Hin. cbn in Hin.
  destruct Hin as [<-|[<-|[<-|[<-|[]]]]]; reflexivity.
Qed.

End children_loop.
Import children_loop.

(** X1.  The children loop works through an array piece by piece: the
    nodes compiled from [l1 ++ l2] are those of [l1] followed by those of
    [l2], and the loop fails as soon as one of the two pieces does, the
    first one first. *)
Theorem compile_each_app (l1 l2 : list json) :
  compile_each (l1 ++ l2) =
  (ws1 <- compile_each l1 ;; ws2 <- compile_each l2 ;; Ok (ws1 ++ ws2)).
Proof.
  induction l1 as [|c l1 IH]; cbn [app compile_each].
  - cbn [bind]. now destruct (compile_each l2).
  - destruct (_parse_widget_component c) as [child|e]; [|reflexivity].
    cbn [bind]. rewrite IH.
    destruct (compile_each l1) as [ws1|e]; [|reflexivity]. cbn [bind].
    destruct (compile_each l2) as [ws2|e]; [|reflexivity]. cbn [bind].
    now destruct child.
Qed.

(** X2.  When the children loop succeeds, it yields one node for each
    child that is an object with a ["type"] key, and nothing for the
    others. *)
Theorem compiled_children_count (items : list json) (ws : list Widget)
    (H : compile_each items = Ok ws) :
  length ws = length (filter (fun c => negb (malformed c)) items) /\
  length ws <= length items.
Proof.
  pose proof (compile_each_length _ _ H) as E. split; [exact E|].
  rewrite E. apply filter_length_le.
Qed.

Lemma compiled_children_count_witness :
  length ten_compiled = length (filter (fun c => negb (malformed c)) ten_children) /\
  length ten_compiled <= length ten_children.
Proof. apply (compiled_children_count ten_children ten_compiled). reflexivity. Defined.



(** X4.  What stands under ["children"] need not be an array.  A string
    or an object is iterated without yielding a node, so the container
    compiles as if it had no children; [None], a boolean or a number
    cannot be iterated, and every container raises a [TypeError] that
    names the type. *)
Theorem children_that_are_not_an_array
    (tag : string) (members : dict) (v : json)
    (Htag : In tag CONTAINER_TYPES)
    (Htype : assoc "type" members = Some (JStr tag))
    (Hchildren : assoc "children" members = Some v) :
  (forall s, v = JStr s -> compile_children members = Ok []) /\
  (forall m, v = JObj m -> compile_children members = Ok []) /\
  (not_iterable v = true ->
   _parse_widget_component (JObj members) = Raise (TypeError_not_iterable (type_name v))).
Proof.
  split; [|split].
  - intros s ->. unfold compile_children. now rewrite Hchildren.
  - intros m ->. unfold compile_children. now rewrite Hchildren.
  - intros Hv. rewrite _parse_widget_component_eq, Htype.
    assert (Hc : compile_children members = Raise (TypeError_not_iterable (type_name v))).
    { unfold compile_children. rewrite Hchildren.
      destruct v; try discriminate Hv; reflexivity. }
    rewrite Hc. now rewrite (dispatch_container_raises _ _ _ Htag).
Qed.

Lemma children_that_are_not_an_array_witness :
  _parse_widget_component (JObj [("type", JStr "Box"); ("children", JInt 3)])
  = Raise (TypeError_not_iterable "int").
Proof.
  refine (proj2 (proj2 (children_that_are_not_an_array "Box"
                          [("type", JStr "Box"); ("children", JInt 3)] (JInt 3)
                          _ eq_refl eq_refl)) eq_refl).
  right. right. right. left. reflexivity.
Defined.

Module parser_failures.
Import chatkit_widget_renderer renderer_facts root_facts compile_facts normalizer_facts.
Local Open Scope list_scope.

Lemma set_contains_hashable S v :
  hashable v = true -> exists b, set_contains S v = Ok b.
Proof. unfold set_contains. intros ->. eauto. Qed.

Lemma set_contains_unhashable S v :
  hashable v = false -> set_contains S v = Raise (TypeError_unhashable (type_name v)).
Proof. unfold set_contains. now intros ->. Qed.

Lemma mapping_get_hashable m v default :
  hashable v = true -> exists r, mapping_get m v default = Ok r.
Proof. unfold mapping_get. intros ->. eauto. Qed.

Lemma mapping_get_unhashable m v default :
  hashable v = false ->
  mapping_get m v default = Raise (TypeError_unhashable (type_name v)).
Proof. unfold mapping_get. now intros ->. Qed.

Ltac split_mem :=
  repeat match goal with
  | |- context [mem ?x ?l] => destruct (mem x l)
  end.

Lemma _parse_text_outcome spec :
  (unreadable_editable spec = true ->
   _parse_text spec = Raise (AttributeError_get (type_name (item spec "editable")))) /\
  (unreadable_editable spec = false -> hashable (get spec "color" JNull) = false ->
   _parse_text spec = Raise (TypeError_unhashable (type_name (get spec "color" JNull)))) /\
  (unreadable_editable spec = false -> hashable (get spec "color" JNull) = true ->
   exists kwargs, _parse_text spec = Ok (Node Text kwargs [])).
Proof.
  unfold unreadable_editable, _parse_text.
  destruct (contains "editable" spec && negb (truthy (get spec "value" (JStr EmptyString))))
    eqn:Eed; cbn [andb].
  - destruct (item spec "editable") eqn:Ei; cbn [is_object negb as_dict bind type_name];
      repeat split; try discriminate; try reflexivity.
    + intros _ Hh. destruct (get spec "color" JNull); try discriminate Hh; reflexivity.
    + intros _ Hh. destruct (get spec "color" JNull) as [| | | |s| |];
        try discriminate Hh; unfold set_contains, mapping_get;
        cbn [hashable bind negb]; try destruct (mem s VALID_COLORS);
        cbn [hashable bind negb]; eauto.
  - cbn [bind]. repeat split; try discriminate.
    + intros _ Hh. destruct (get spec "color" JNull); try discriminate Hh; reflexivity.
    + intros _ Hh. destruct (get spec "color" JNull) as [| | | |s| |];
        try discriminate Hh; unfold set_contains, mapping_get;
        cbn [hashable bind negb]; try destruct (mem s VALID_COLORS);
        cbn [hashable bind negb]; eauto.
Qed.

Lemma button_for_outcome spec k label variant :
  (readable_descriptor spec k = true ->
   exists bs, button_for spec k label variant = Ok bs) /\
  (readable_descriptor spec k = false ->
   button_for spec k label variant = Raise (AttributeError_get (type_name (item spec k)))).
Proof.
  unfold readable_descriptor, button_for, contains, item, get.
  destruct (assoc k spec) as [v|]; [|split; [eauto|discriminate]].
  destruct v; split; try discriminate; try reflexivity.
  intros _. cbn. eauto.
Qed.


Lemma normalised_attribute_recorded
    (members : dict) (tag attr : string) (allow : list string)
    (Htype : assoc "type" members = Some (JStr tag))
    (Htag : In tag ["Title"; "Caption"; "Button"; "Box"])
    (Hattr : normalized_attribute tag = Some (attr, allow))
    (Hchildren : tag = "Box" -> exists cs, compile_children members = Ok cs) :
  (hashable (get members attr JNull) = true ->
   exists w, _parse_widget_component (JObj members) = Ok (Some w)) /\
  (hashable (get members attr JNull) = false ->
   _parse_widget_component (JObj members)
   = Raise (TypeError_unhashable (type_name (get members attr JNull)))).
Proof.
  rewrite _parse_widget_component_eq, Htype.
  cbn in Htag.
  destruct Htag as [<-|[<-|[<-|[<-|[]]]]]; cbn in Hattr; injection Hattr as <- <-;
    cbn [dispatch eq_str String.eqb Ascii.eqb Bool.eqb].
  - (* Title *)
    unfold _parse_title, get. destruct (assoc "color" members) as [v|].
    + split; intros H.
      * destruct (set_contains_hashable VALID_COLORS v H) as (b & ->). cbn. eauto.
      * now rewrite (set_contains_unhashable _ _ H).
    + split; [intros _; cbn; eauto|discriminate].
  - (* Caption *)
    unfold _parse_caption, get. destruct (assoc "color" members) as [v|].
    + split; intros H.
      * destruct v; try discriminate H; cbn [bind]; eauto;
          (destruct (set_contains_hashable VALID_COLORS _ H) as ([] & ->); cbn; eauto).
      * destruct v; try discriminate H; reflexivity.
    + split; [intros _; cbn; eauto|discriminate].
  - (* Button *)
    unfold _parse_button, get. destruct (assoc "variant" members) as [v|].
    + split; intros H.
      * destruct (mapping_get_hashable variant_mapping v "solid" H) as (r & ->).
        cbn [bind]. eauto.
      * now rewrite (mapping_get_unhashable _ _ _ H).
    + split; [intros _; cbn; eauto|discriminate].
  - (* Box *)
    destruct (Hchildren eq_refl) as (cs & ->).
    unfold _parse_box. cbn [bind].
    destruct (assoc "direction" members) as [v|] eqn:E.
    + assert (E1 : get members "direction" (JStr "col") = v)
        by (unfold get; now rewrite E).
      assert (E2 : get members "direction" JNull = v)
        by (unfold get; now rewrite E).
      rewrite E1, E2. split; intros H.
      * destruct (mapping_get_hashable direction_mapping v "col" H) as (r & ->).
        cbn [bind]. eauto.
      * now rewrite (mapping_get_unhashable _ _ _ H).
    + assert (E1 : get members "direction" (JStr "col") = JStr "col")
        by (unfold get; now rewrite E).
      assert (E2 : get members "direction" JNull = JNull)
        by (unfold get; now rewrite E).
      rewrite E1, E2. split; [intros _; cbn; eauto|discriminate].
Qed.

Lemma card_descriptors_recorded (members : dict) (cs : list Widget)
    (Htype : assoc "type" members = Some (JStr "Card"))
    (Hchildren : compile_children members = Ok cs) :
  (readable_descriptor members "cancel" = false ->
   _parse_widget_component (JObj members)
   = Raise (AttributeError_get (type_name (item members "cancel")))) /\
  (readable_descriptor members "cancel" = true ->
   readable_descriptor members "confirm" = false ->
   _parse_widget_component (JObj members)
   = Raise (AttributeError_get (type_name (item members "confirm")))) /\
  (readable_descriptor members "cancel" = true ->
   readable_descriptor members "confirm" = true ->
   exists kwargs children,
     _parse_widget_component (JObj members) = Ok (Some (Node Card kwargs (cs ++ children)))).
Proof.
  rewrite _parse_widget_component_eq, Htype, Hchildren.
  cbn [dispatch eq_str String.eqb Ascii.eqb Bool.eqb].
  destruct (button_for_outcome members "cancel" "Cancel" "outline") as (Hc1 & Hc2).
  destruct (button_for_outcome members "confirm" "Confirm" "solid") as (Hf1 & Hf2).
  unfold button_for in *. unfold _parse_card. cbn [bind].
  assert (Hno : forall k, readable_descriptor members k = false -> contains k members = true).
  { intros k. unfold readable_descriptor, contains.
    destruct (assoc k members); [reflexivity|discriminate]. }
  split; [|split].
  - intros H. rewrite (Hc2 H), (Hno _ H), orb_true_r. reflexivity.
  - intros Hc Hf. destruct (Hc1 Hc) as (bs & ->).
    rewrite (Hf2 Hf), (Hno _ Hf). reflexivity.
  - intros Hc Hf.
    destruct (Hc1 Hc) as (bs & Ec). destruct (Hf1 Hf) as (bs' & Ef).
    destruct (contains "confirm" members || contains "cancel" members).
    + rewrite Ec. cbn [bind]. rewrite Ef. cbn [bind].
      destruct (bs ++ bs'); cbn [bind]; eauto.
      exists (card_kwargs members), []. now rewrite app_nil_r.
    + cbn [bind]. exists (card_kwargs members), []. now rewrite app_nil_r.
Qed.

End parser_failures.
Import parser_failures.



(** X6.  A [Text] spec fails in the code of its parser in two cases only.
    When ["editable"] is present, the value is absent or falsy and the
    editable entry is not an object, reading its placeholder raises an
    [AttributeError]; otherwise, when the colour is a list or an object,
    looking it up raises a [TypeError].  In every other case the parser
    reaches its one call of [Text], and what the class says is the
    outcome: the leaf asked for, or the [ValidationError]. *)
Theorem text_failures
    (rejects : WidgetType -> dict -> list Widget -> option string)
    (frames : nat) (members : dict)
    (Htype : assoc "type" members = Some (JStr "Text")) :
  (unreadable_editable members = true ->
   validated_renderer._parse_widget_component rejects (S (S frames)) (JObj members)
   = validated_renderer.Fails
       (validated_renderer.Native
          (AttributeError_get (type_name (item members "editable"))))) /\
  (unreadable_editable members = false -> hashable (get members "color" JNull) = false ->
   validated_renderer._parse_widget_component rejects (S (S frames)) (JObj members)
   = validated_renderer.Fails
       (validated_renderer.Native
          (TypeError_unhashable (type_name (get members "color" JNull))))) /\
  (unreadable_editable members = false -> hashable (get members "color" JNull) = true ->
   exists kwargs,
     _parse_widget_component (JObj members) = Ok (Some (Node Text kwargs [])) /\
     validated_renderer._parse_widget_component rejects (S (S frames)) (JObj members)
     = match rejects Text kwargs [] with
       | None => validated_renderer.Fine (Some (Node Text kwargs []))
       | Some msg => validated_renderer.Fails (validated_renderer.ValidationError Text msg)
       end).
Proof.
  rewrite _parse_widget_component_eq, validated_facts.program_component_eq, Htype.
  cbn [dispatch validated_renderer.dispatch eq_str String.eqb Ascii.eqb Bool.eqb
       validated_renderer.call].
  pose proof (validated_facts.decided_outcome rejects _ _
                (validated_facts._parse_text_decided rejects members)) as Hd.
  destruct (_parse_text_outcome members) as (H1 & H2 & H3).
  split; [|split].
  - intros H. rewrite (H1 H) in Hd. exact Hd.
  - intros H H'. rewrite (H2 H H') in Hd. exact Hd.
  - intros H H'. destruct (H3 H H') as (kw & E). rewrite E in Hd |- *.
    exists kw. split; [reflexivity|exact Hd].
Qed.

Lemma text_failures_witness :
  validated_renderer._parse_widget_component sample_classes 2
    (JObj [("type", JStr "Text"); ("editable", JBool true)])
  = validated_renderer.Fails (validated_renderer.Native (AttributeError_get "bool")).
Proof.
  apply (proj1 (text_failures sample_classes 0
                  [("type", JStr "Text"); ("editable", JBool true)] eq_refl)).
  reflexivity.
Defined.

(** X7.  A [Title], a [Caption] or a [Button] fails in the code of its
    parser exactly when the attribute the parser normalises (colour,
    colour, variant) is a list or an object, with a [TypeError] naming the
    type; the same holds of the direction of a [Box] whose children
    compile.  Otherwise the parser reaches its one constructor call, and
    what the class says is the outcome. *)
Theorem normalised_attribute_failures
    (rejects : WidgetType -> dict -> list Widget -> option string)
    (frames : nat) (members : dict) (tag attr : string) (allow : list string)
    (Htype : assoc "type" members = Some (JStr tag))
    (Htag : In tag ["Title"; "Caption"; "Button"; "Box"])
    (Hattr : normalized_attribute tag = Some (attr, allow))
    (Hchildren : tag = "Box" ->
                 exists cs, validated_renderer.compile_children rejects frames members
                            = validated_renderer.Fine cs) :
  (hashable (get members attr JNull) = false ->
   validated_renderer._parse_widget_component rejects (S (S frames)) (JObj members)
   = validated_renderer.Fails
       (validated_renderer.Native
          (TypeError_unhashable (type_name (get members attr JNull))))) /\
  (hashable (get members attr JNull) = true ->
   exists w,
     _parse_widget_component (JObj members) = Ok (Some w) /\
     validated_renderer._parse_widget_component rejects (S (S frames)) (JObj members)
     = match rejects (cls_of w) (kwargs_of w) (children_of w) with
       | None => validated_renderer.Fine (Some w)
       | Some msg =>
           validated_renderer.Fails (validated_renderer.ValidationError (cls_of w) msg)
       end).
Proof.
  assert (Hfree : tag = "Box" -> exists cs, compile_children members = Ok cs).
  { intros Hb. destruct (Hchildren Hb) as (cs & Hcs). exists cs.
    pose proof (validated_facts.compile_children_agrees rejects frames members) as Ha.
    now rewrite Hcs in Ha. }
  destruct (normalised_attribute_recorded members tag attr allow Htype Htag Hattr Hfree)
    as (Hyes & Hno).
  assert (Hd := validated_facts.component_decided rejects frames members tag Htype).
  assert (Hkind :
    In tag ["Text"; "Title"; "Button"; "Caption"; "Image"; "Spacer"; "DatePicker"; "Select"] \/
    (In tag ["Row"; "Col"; "Box"] /\
     exists cs, validated_renderer.compile_children rejects frames members
                = validated_renderer.Fine cs)).
  { cbn [In] in Htag. destruct Htag as [<-|[<-|[<-|[<-|[]]]]].
    - left. cbn. tauto.
    - left. cbn. tauto.
    - left. cbn. tauto.
    - right. split; [cbn; tauto|]. now apply Hchildren. }
  specialize (Hd Hkind).
  split.
  - intros H. rewrite (Hno H) in Hd. exact Hd.
  - intros H. destruct (Hyes H) as (w & E). rewrite E in Hd. eauto.
Qed.

Lemma normalised_attribute_failures_witness :
  validated_renderer._parse_widget_component sample_classes 2
    (JObj [("type", JStr "Button"); ("variant", JArr [JStr "solid"])])
  = validated_renderer.Fails (validated_renderer.Native (TypeError_unhashable "list")).
Proof.
  refine (proj1 (normalised_attribute_failures sample_classes 0
                   [("type", JStr "Button"); ("variant", JArr [JStr "solid"])]
                   "Button" "variant" VALID_VARIANTS eq_refl _ eq_refl _) eq_refl).
  - right. right. left. reflexivity.
  - discriminate.
Defined.

(** X8.  A [Card] whose children compile fails in the code of its parser
    exactly when [cancel] or [confirm] is present and is not an object:
    reading its label raises an [AttributeError] naming the type.
    [cancel] is read first, and its button is built before [confirm] is
    read, so that a refusal of that button comes before the error of an
    unreadable [confirm].  With both readable, the parser ends with the
    [Card] asked for, or with the refusal of a [Button], of the [Row] of
    buttons or of the [Card]. *)
Theorem card_descriptor_failures
    (rejects : WidgetType -> dict -> list Widget -> option string)
    (frames : nat) (members : dict) (cs : list Widget)
    (Htype : assoc "type" members = Some (JStr "Card"))
    (Hchildren : validated_renderer.compile_children rejects frames members
                 = validated_renderer.Fine cs) :
  (readable_descriptor members "cancel" = false ->
   validated_renderer._parse_widget_component rejects (S (S frames)) (JObj members)
   = validated_renderer.Fails
       (validated_renderer.Native (AttributeError_get (type_name (item members "cancel"))))) /\
  (readable_descriptor members "cancel" = true ->
   readable_descriptor members "confirm" = false ->
   validated_renderer._parse_widget_component rejects (S (S frames)) (JObj members)
   = validated_renderer.Fails
       (validated_renderer.Native (AttributeError_get (type_name (item members "confirm"))))
   \/
   exists msg,
     validated_renderer._parse_widget_component rejects (S (S frames)) (JObj members)
     = validated_renderer.Fails (validated_renderer.ValidationError Button msg)) /\
  (readable_descriptor members "cancel" = true ->
   readable_descriptor members "confirm" = true ->
   exists kwargs children,
     _parse_widget_component (JObj members) = Ok (Some (Node Card kwargs (cs ++ children))) /\
     (validated_renderer._parse_widget_component rejects (S (S frames)) (JObj members)
      = validated_renderer.Fine (Some (Node Card kwargs (cs ++ children)))
      \/
      exists c msg,
        In c [Button; Row; Card] /\
        validated_renderer._parse_widget_component rejects (S (S frames)) (JObj members)
        = validated_renderer.Fails (validated_renderer.ValidationError c msg))).
Proof.
  assert (Hfree : compile_children members = Ok cs).
  { pose proof (validated_facts.compile_children_agrees rejects frames members) as Ha.
    now rewrite Hchildren in Ha. }
  pose proof (validated_facts._parse_widget_component_agrees rejects (JObj members)
                (S (S frames))) as Hagree.
  destruct (card_descriptors_recorded members cs Htype Hfree) as (_ & _ & H3).
  rewrite validated_facts.program_component_eq, Htype in Hagree |- *.
  cbn [validated_renderer.dispatch eq_str String.eqb Ascii.eqb Bool.eqb
       validated_renderer.call] in Hagree |- *.
  rewrite Hchildren in Hagree |- *.
  assert (Hno : forall k, readable_descriptor members k = false -> contains k members = true).
  { intros k. unfold readable_descriptor, contains.
    destruct (assoc k members); [reflexivity|discriminate]. }
  split; [|split].
  - intros H. unfold validated_renderer._parse_card.
    cbn [validated_renderer.and_then].
    rewrite (proj1 (validated_facts.program_button_for rejects members
                      "cancel" "Cancel" "outline") H).
    now rewrite (Hno _ H), orb_true_r.
  - intros Hc Hf. unfold validated_renderer._parse_card.
    cbn [validated_renderer.and_then].
    rewrite (proj1 (validated_facts.program_button_for rejects members
                      "confirm" "Confirm" "solid") Hf).
    rewrite (Hno _ Hf). cbn [orb].
    destruct (proj2 (validated_facts.program_button_for rejects members
                       "cancel" "Cancel" "outline") Hc) as [(bs & Ec)|(msg & Ec)];
      rewrite Ec; cbn [validated_renderer.and_then]; eauto.
  - intros Hc Hf. destruct (H3 Hc Hf) as (kwargs & children & E).
    exists kwargs, children. split; [exact E|].
    rewrite E in Hagree.
    destruct (validated_facts._parse_card_outcome rejects cs members Hc Hf)
      as [(w & Ew)|(c & msg & Hin & Ew)]; rewrite Ew in Hagree |- *;
      cbn [validated_renderer.and_then] in Hagree |- *.
    + left. cbn in Hagree. injection Hagree as <-. reflexivity.
    + right. eauto.
Qed.

Lemma card_descriptor_failures_witness :
  validated_renderer._parse_widget_component sample_classes 2
    (JObj [("type", JStr "Card"); ("confirm", JStr "Send"); ("cancel", JNull)])
  = validated_renderer.Fails (validated_renderer.Native (AttributeError_get "NoneType")).
Proof.
  apply (proj1 (card_descriptor_failures sample_classes 0
                  [("type", JStr "Card"); ("confirm", JStr "Send"); ("cancel", JNull)]
                  [] eq_refl eq_refl)).
  reflexivity.
Defined.

Module normal_forms.
Import chatkit_widget_renderer renderer_facts root_facts compile_facts normalizer_facts.
Local Open Scope list_scope.

Ltac split_on v :=
  repeat match goal with
  | |- context [String.eqb v ?lit] =>
      destruct (String.eqb_spec v lit) as [->|?]; [reflexivity|]
  end.

(** A listed value supplied for a normalised attribute is kept. *)
Lemma listed_value_kept members tag attr allow c w :
  assoc "type" members = Some (JStr tag) ->
  normalized_attribute tag = Some (attr, allow) ->
  assoc attr members = Some (JStr c) ->
  mem c allow = true ->
  _parse_widget_component (JObj members) = Ok (Some w) ->
  assoc attr (kwargs_of w) = Some (JStr c).
Proof.
  intros Ht Hn Ha Hc H. rewrite _parse_widget_component_eq, Ht in H.
  apply bind_Ok in H. destruct H as (w' & H & [= <-]).
  unfold normalized_attribute in Hn.
  destruct (String.eqb_spec tag "Text") as [->|_];
    [|destruct (String.eqb_spec tag "Title") as [->|_];
      [|destruct (String.eqb_spec tag "Caption") as [->|_];
        [|destruct (String.eqb_spec tag "Box") as [->|_];
          [|destruct (String.eqb_spec tag "Button") as [->|_]; [|discriminate Hn]]]]];
    cbn in Hn; injection Hn as <- <-; cbn [dispatch eq_str String.eqb Ascii.eqb Bool.eqb] in H.
  - assert (Eg : get members "color" JNull = JStr c) by (unfold get; now rewrite Ha).
    unfold _parse_text in H.
    apply bind_Ok in H. destruct H as (value & _ & H).
    rewrite Eg in H. unfold set_contains in H.
    cbn [hashable bind] in H. rewrite Hc in H. cbn [negb bind] in H.
    injection H as <-. reflexivity.
  - assert (Eg : get members "color" (JStr "primary") = JStr c)
      by (unfold get; now rewrite Ha).
    unfold _parse_title in H. rewrite Eg in H.
    unfold set_contains in H. cbn [hashable bind] in H. rewrite Hc in H.
    injection H as <-. reflexivity.
  - assert (Eg : get members "color" JNull = JStr c) by (unfold get; now rewrite Ha).
    unfold _parse_caption in H. rewrite Eg in H.
    unfold set_contains in H. cbn [hashable bind] in H. rewrite Hc in H.
    cbn [negb bind] in H. injection H as <-. reflexivity.
  - assert (Eg : get members "direction" (JStr "col") = JStr c)
      by (unfold get; now rewrite Ha).
    unfold _parse_box in H.
    apply bind_Ok in H. destruct H as (cs & _ & H).
    rewrite Eg in H.
    cbn in Hc. repeat (apply orb_prop in Hc; destruct Hc as [Hc|Hc]);
      try discriminate Hc; apply String.eqb_eq in Hc; subst c;
      injection H as <-; reflexivity.
  - assert (Eg : get members "variant" (JStr "solid") = JStr c)
      by (unfold get; now rewrite Ha).
    unfold _parse_button in H. rewrite Eg in H.
    cbn in Hc. repeat (apply orb_prop in Hc; destruct Hc as [Hc|Hc]);
      try discriminate Hc; apply String.eqb_eq in Hc; subst c;
      injection H as <-; now destruct (contains "action" members).
Qed.

Lemma button_variant_as_reference (v : string) :
  (mv <- mapping_get variant_mapping (JStr v) "solid" ;;
   Ok (if negb (mem mv VALID_VARIANTS) then "solid" else mv))
  = Ok (validate_and_map_parameter "Button" "variant" v).
Proof.
  unfold validate_and_map_parameter, mapping_get, get. cbn.
  f_equal. split_on v. reflexivity.
Qed.

Lemma box_direction_as_reference (v : string) :
  (md <- mapping_get direction_mapping (JStr v) "col" ;;
   Ok (if negb (mem md VALID_DIRECTIONS) then "col" else md))
  = Ok (validate_and_map_parameter "Box" "direction" v).
Proof.
  unfold validate_and_map_parameter, mapping_get, get. cbn.
  f_equal. split_on v. reflexivity.
Qed.

End normal_forms.
Import normal_forms.

(** X9.  Normalising is idempotent on the attributes the parsers
    normalise: the colour, direction or variant found on a compiled node,
    supplied again for the same attribute of a node of the same type,
    comes out unchanged. *)
Theorem normalised_values_are_fixed_points
    (members members' : dict) (tag attr : string) (allow : list string)
    (w w' : Widget) (c : string)
    (Htype : assoc "type" members = Some (JStr tag))
    (Hattr : normalized_attribute tag = Some (attr, allow))
    (Hw : _parse_widget_component (JObj members) = Ok (Some w))
    (Hc : assoc attr (kwargs_of w) = Some (JStr c))
    (Htype' : assoc "type" members' = Some (JStr tag))
    (Hsupplied : assoc attr members' = Some (JStr c))
    (Hw' : _parse_widget_component (JObj members') = Ok (Some w')) :
  assoc attr (kwargs_of w') = Some (JStr c).
Proof.
  destruct (normalized_attribute_listed _ _ _ _ _ Htype Hattr Hw) as (c0 & Hc0 & Hin).
  rewrite Hc in Hc0. injection Hc0 as <-.
  exact (listed_value_kept _ _ _ _ _ _ Htype' Hattr Hsupplied Hin Hw').
Qed.

Lemma normalised_values_are_fixed_points_witness :
  assoc "color"
    (kwargs_of (Node Text [("value", JStr EmptyString); ("size", JStr "md");
                           ("weight", JStr "normal"); ("color", JStr "muted")] []))
  = Some (JStr "muted").
Proof.
  exact (normalised_values_are_fixed_points
           [("type", JStr "Text"); ("color", JStr "disabled")]
           [("type", JStr "Text"); ("color", JStr "muted")]
           "Text" "color" VALID_COLORS
           (Node Text [("value", JStr EmptyString); ("size", JStr "md");
                       ("weight", JStr "normal"); ("color", JStr "muted")] [])
           (Node Text [("value", JStr EmptyString); ("size", JStr "md");
                       ("weight", JStr "normal"); ("color", JStr "muted")] [])
           "muted" eq_refl eq_refl eq_refl eq_refl eq_refl eq_refl eq_refl).
Defined.

(** X10.  On strings, the renderer and the reference agree where both
    normalise: the variant of a compiled [Button] and the direction of a
    compiled [Box] are what [validate_and_map_parameter] answers for the
    supplied value. *)
Theorem renderer_agrees_with_reference (members : dict) (v : string) (w : Widget)
    (Hw : _parse_widget_component (JObj members) = Ok (Some w)) :
  (assoc "type" members = Some (JStr "Button") ->
   assoc "variant" members = Some (JStr v) ->
   assoc "variant" (kwargs_of w)
   = Some (JStr (validate_and_map_parameter "Button" "variant" v))) /\
  (assoc "type" members = Some (JStr "Box") ->
   assoc "direction" members = Some (JStr v) ->
   assoc "direction" (kwargs_of w)
   = Some (JStr (validate_and_map_parameter "Box" "direction" v))).
Proof.
  rewrite _parse_widget_component_eq in Hw.
  split; intros Ht Ha; rewrite Ht in Hw;
    apply bind_Ok in Hw; destruct Hw as (w' & H & [= <-]);
    cbn [dispatch eq_str String.eqb Ascii.eqb Bool.eqb] in H.
  - assert (Eg : get members "variant" (JStr "solid") = JStr v)
      by (unfold get; now rewrite Ha).
    unfold _parse_button in H. rewrite Eg in H.
    pose proof (button_variant_as_reference v) as R.
    destruct (mapping_get variant_mapping (JStr v) "solid") as [mv|e];
      [|discriminate R].
    cbn [bind] in R, H. injection R as R. injection H as <-.
    cbn [kwargs_of]. rewrite <- R. now destruct (contains "action" members).
  - unfold _parse_box in H.
    assert (Eg : get members "direction" (JStr "col") = JStr v)
      by (unfold get; now rewrite Ha).
    apply bind_Ok in H. destruct H as (cs & _ & H).
    rewrite Eg in H.
    pose proof (box_direction_as_reference v) as R.
    destruct (mapping_get direction_mapping (JStr v) "col") as [md|e];
      [|discriminate R].
    cbn [bind] in R, H. injection R as R. injection H as <-.
    cbn [kwargs_of]. now rewrite <- R.
Qed.

Lemma renderer_agrees_with_reference_witness :
  assoc "direction"
    (kwargs_of (Node Box [("padding", JInt 0); ("gap", JInt 0); ("direction", JStr "row");
                          ("align", JStr "start"); ("justify", JStr "start");
                          ("background", JNull); ("radius", JNull)] []))
  = Some (JStr (validate_and_map_parameter "Box" "direction" "horizontal")).
Proof.
  exact (proj2 (renderer_agrees_with_reference
                  [("type", JStr "Box"); ("direction", JStr "horizontal")]
                  "horizontal" _ eq_refl) eq_refl eq_refl).
Defined.

(* ===================================================================== *)
(** * Further properties of the validation reference *)
(* ===================================================================== *)

Module reference_facts.
Import normalizer_facts.
Local Open Scope list_scope.

Lemma validate_of_listed widget_type param_name rules l value :
  assoc widget_type CHATKIT_VALIDATION_RULES = Some rules ->
  assoc param_name rules = Some (Allowed l) ->
  mem value l = true ->
  validate_and_map_parameter widget_type param_name value = value.
Proof.
  intros Hw Hp Hv. unfold validate_and_map_parameter, get.
  rewrite Hw, Hp. cbn [rule_contains]. now rewrite Hv.
Qed.

Lemma validate_unruled widget_type param_name value :
  get (get CHATKIT_VALIDATION_RULES widget_type []) param_name (Allowed []) = Allowed [] ->
  validate_and_map_parameter widget_type param_name value =
  match assoc (lower widget_type ++ "_" ++ param_name)%string PARAMETER_MAPPINGS with
  | Some mapping =>
      match assoc value mapping with
      | Some target => target
      | None => get mapping "default" value
      end
  | None => value
  end.
Proof.
  intros H. unfold validate_and_map_parameter. rewrite H. cbn [rule_contains mem rule_truthy].
  destruct (assoc _ PARAMETER_MAPPINGS) as [mapping|]; [|reflexivity].
  unfold get. destruct (assoc value mapping); [reflexivity|].
  now destruct (assoc "default" mapping).
Qed.

End reference_facts.
Import reference_facts.

(** X11.  Where the rule for a parameter is a list,
    [validate_and_map_parameter] keeps a listed value as it is, and is
    idempotent: validating its own answer changes nothing. *)
Theorem validate_and_map_parameter_idempotent
    (widget_type param_name : string) (rules : list (string * rule)) (l : list string)
    (value : string)
    (Hrules : assoc widget_type CHATKIT_VALIDATION_RULES = Some rules)
    (Hrule : assoc param_name rules = Some (Allowed l)) :
  (mem value l = true ->
   validate_and_map_parameter widget_type param_name value = value) /\
  validate_and_map_parameter widget_type param_name
    (validate_and_map_parameter widget_type param_name value)
  = validate_and_map_parameter widget_type param_name value.
Proof.
  split.
  - apply (validate_of_listed _ _ _ _ _ Hrules Hrule).
  - apply (validate_of_listed _ _ _ _ _ Hrules Hrule).
    apply (validate_and_map_parameter_listed _ _ _ _ _ Hrules Hrule).
Qed.

Lemma validate_and_map_parameter_idempotent_witness :
  validate_and_map_parameter "Text" "weight"
    (validate_and_map_parameter "Text" "weight" "strong")
  = validate_and_map_parameter "Text" "weight" "strong".
Proof.
  exact (proj2 (validate_and_map_parameter_idempotent "Text" "weight"
                  (get CHATKIT_VALIDATION_RULES "Text" [])
                  ["normal"; "medium"; "semibold"; "bold"] "strong" eq_refl eq_refl)).
Defined.

(** X12.  For a widget type or a parameter the rule table does not have,
    nothing is validated.  Without a mapping for the pair the value comes
    back as it is.  With one (the mapping is found through the lower-cased
    type, so the type ["button"] has one although the table spells it
    ["Button"]) the answer is always one of the mapping's targets, the
    default one unless the value is an alias. *)
Theorem validate_without_a_rule (widget_type param_name value : string)
    (Hnone : get (get CHATKIT_VALIDATION_RULES widget_type []) param_name (Allowed [])
             = Allowed []) :
  (assoc (lower widget_type ++ "_" ++ param_name)%string PARAMETER_MAPPINGS = None ->
   validate_and_map_parameter widget_type param_name value = value) /\
  (forall mapping,
     assoc (lower widget_type ++ "_" ++ param_name)%string PARAMETER_MAPPINGS = Some mapping ->
     In (validate_and_map_parameter widget_type param_name value) (map snd mapping) /\
     (assoc value mapping = None ->
      Some (validate_and_map_parameter widget_type param_name value)
      = assoc "default" mapping)).
Proof.
  rewrite (validate_unruled _ _ _ Hnone). split.
  - now intros ->.
  - intros mapping Hm. rewrite Hm.
    assert (Hd : exists d, assoc "default" mapping = Some d).
    { apply assoc_In in Hm. cbn in Hm.
      repeat (destruct Hm as [Hm|Hm]; [injection Hm as _ <-; cbn; eauto|]).
      destruct Hm. }
    destruct Hd as (d & Hd). unfold get. rewrite Hd.
    destruct (assoc value mapping) as [t|] eqn:E.
    + split; [|discriminate]. apply assoc_In in E.
      apply (in_map snd) in E. exact E.
    + split; [|reflexivity]. apply assoc_In in Hd.
      apply (in_map snd) in Hd. exact Hd.
Qed.

Lemma validate_without_a_rule_witness :
  In (validate_and_map_parameter "button" "variant" "soft")
     ["solid"; "outline"; "ghost"; "solid"] /\
  validate_and_map_parameter "Gauge" "needle" "thin" = "thin".
Proof.
  split.
  - exact (proj1 (proj2 (validate_without_a_rule "button" "variant" "soft" eq_refl)
                    _ eq_refl)).
  - exact (proj1 (validate_without_a_rule "Gauge" "needle" "thin" eq_refl) eq_refl).
Defined.

(* ===================================================================== *)
(** * Further properties of the compiled tree *)
(* ===================================================================== *)

Module tree_facts.
Import chatkit_widget_renderer renderer_facts root_facts compile_facts.
Local Open Scope list_scope.

Lemma assoc_not_In {A : Type} k (l : list (string * A)) :
  ~ In k (map fst l) -> assoc k l = None.
Proof.
  induction l as [|[k' v] l IH]; cbn; [reflexivity|]. intros H.
  destruct (String.eqb_spec k k') as [->|_]; [destruct H; now left|].
  apply IH. intros Hin. apply H. now right.
Qed.

(** With each key bound once, a lookup does not see the order of the
    bindings. *)
Lemma assoc_Permutation {A : Type} (l l' : list (string * A)) :
  Permutation l l' -> NoDup (map fst l) ->
  forall k, assoc k l = assoc k l'.
Proof.
  induction 1 as [|[k0 v0] l l' _ IH|[k1 v1] [k2 v2] l|l l' l'' H1 IH1 H2 IH2];
    intros Hnd k.
  - reflexivity.
  - cbn. inversion Hnd; subst. now rewrite IH.
  - cbn. inversion Hnd as [|? ? Hnot _]; subst.
    destruct (String.eqb_spec k k2) as [->|_]; [|reflexivity].
    destruct (String.eqb_spec k2 k1) as [->|_]; [|reflexivity].
    destruct Hnot. now left.
  - rewrite IH1 by exact Hnd. apply IH2.
    eapply Permutation_NoDup; [|exact Hnd].
    now apply Permutation_map.
Qed.

(** The compiler reads an object through its bindings only. *)
Lemma _parse_widget_component_ext members members' :
  (forall k, assoc k members = assoc k members') ->
  _parse_widget_component (JObj members) = _parse_widget_component (JObj members').
Proof.
  intros H. rewrite !_parse_widget_component_eq, <- (H "type").
  destruct (assoc "type" members) as [t|]; [|reflexivity].
  unfold compile_children. rewrite <- (H "children").
  f_equal. apply dispatch_ext. intros k _. apply H.
Qed.

(** A property of nodes that every parser establishes from its compiled
    children holds of every compiled node. *)
Lemma compiled_ind (Q : Widget -> Prop) :
  (forall compiled members t w,
     (forall cs, compiled = Ok cs -> Forall Q cs) ->
     dispatch compiled members t = Ok w -> Q w) ->
  forall spec w, _parse_widget_component spec = Ok (Some w) -> Q w.
Proof.
  intros Hd spec.
  enough (H : (forall w, _parse_widget_component spec = Ok (Some w) -> Q w) /\
              forall items, spec = JArr items ->
                Forall (fun c => forall w, _parse_widget_component c = Ok (Some w) -> Q w)
                       items)
    by apply H.
  induction spec as [| | | | |items IH|members IH] using json_nested_ind;
    try (split; [intros w H; discriminate H | intros items H; discriminate H]).
  - split; [intros w H; discriminate H|].
    intros items' [= <-]. eapply Forall_impl; [|exact IH]. now intros a [Ha _].
  - split; [|intros items H; discriminate H].
    intros w H. rewrite _parse_widget_component_eq in H.
    destruct (assoc "type" members) as [t|]; [|discriminate H].
    apply bind_Ok in H. destruct H as (w' & Hw & H). injection H as <-.
    eapply Hd; [|exact Hw].
    intros cs Hcs. unfold compile_children in Hcs.
    destruct (assoc "children" members) as [v|] eqn:Hch;
      [|injection Hcs as <-; constructor].
    apply assoc_In in Hch. rewrite Forall_forall in IH.
    specialize (IH _ Hch). cbn [snd] in IH. destruct IH as [_ IH].
    destruct v; try discriminate Hcs; try (injection Hcs as <-; constructor).
    specialize (IH _ eq_refl). clear Hch. revert cs Hcs.
    induction IH as [|c l Hc _ IHl]; intros cs Hcs; cbn [compile_each] in Hcs.
    + injection Hcs as <-. constructor.
    + apply bind_Ok in Hcs. destruct Hcs as (child & Hchild & Hcs).
      apply bind_Ok in Hcs. destruct Hcs as (rest & Hrest & Hcs).
      injection Hcs as <-. specialize (IHl _ Hrest).
      destruct child as [x|]; [constructor; auto|exact IHl].
Qed.

Lemma Ok_inj {A : Type} (a b : A) : Ok a = Ok b -> a = b.
Proof. now intros [= ->]. Qed.

Lemma optional_conforms spec params allowed :
  forallb (fun p => mem p allowed) params = true ->
  forallb (fun kv : string * json => mem (fst kv) allowed) (optional spec params) = true.
Proof.
  unfold optional. induction params as [|p params IH]; cbn; [reflexivity|].
  intros H. apply andb_prop in H. destruct H as [Hp H].
  rewrite forallb_app, (IH H), andb_true_r.
  destruct (assoc p spec); cbn; [now rewrite Hp|reflexivity].
Qed.

Lemma optional_no_key spec params k :
  mem k params = false -> assoc k (optional spec params) = None.
Proof.
  intros H. apply assoc_not_In. intros Hin.
  unfold optional in Hin. rewrite in_map_iff in Hin.
  destruct Hin as ([k' v] & <- & Hin). rewrite in_flat_map in Hin.
  destruct Hin as (p & Hp & Hin). destruct (assoc p spec); [|destruct Hin].
  destruct Hin as [[= <- <-]|[]]. cbn [fst] in H.
  induction params as [|q params IH]; [destruct Hp|].
  cbn in H. apply orb_false_elim in H. destruct H as [Hq H].
  destruct Hp as [->|Hp]; [now rewrite String.eqb_refl in Hq|auto].
Qed.

Lemma button_for_conforms spec k label variant bs :
  button_for spec k label variant = Ok bs -> forallb conforms bs = true.
Proof.
  unfold button_for, action_button. intros H. peel H; subst; [|reflexivity].
  peel Ha. subst.
  match goal with
  | |- context [contains "action" ?x] => destruct (contains "action" x)
  end; reflexivity.
Qed.

Lemma dispatch_conforms compiled members t w :
  (forall cs, compiled = Ok cs -> Forall (fun c => conforms c = true) cs) ->
  dispatch compiled members t = Ok w -> conforms w = true.
Proof.
  intros Hcs H.
  assert (Hch : forall cs, compiled = Ok cs -> forallb conforms cs = true).
  { intros cs Hc. apply forallb_forall. apply Forall_forall. auto. }
  unfold dispatch in H.
  repeat match type of H with
  | (if ?b then _ else _) = Ok _ => destruct b
  end.
  - apply _parse_card_Ok in H.
    destruct H as (cs & cancel & confirm & Hc & Hcancel & Hconfirm & ->).
    cbn [conforms]. rewrite forallb_app.
    rewrite (optional_conforms _ _ (allowed_kwargs Card)) by reflexivity.
    rewrite andb_true_r. cbn [forallb fst mem allowed_kwargs String.eqb Ascii.eqb Bool.eqb orb].
    rewrite forallb_app, (Hch _ Hc). cbn [andb].
    apply button_for_conforms in Hcancel, Hconfirm.
    destruct (cancel ++ confirm) eqn:E; [reflexivity|]. rewrite <- E.
    cbn. now rewrite forallb_app, Hcancel, Hconfirm.
  - unfold _parse_row in H. peel H. subst w. cbn. auto.
  - unfold _parse_col in H. peel H. subst w. cbn. auto.
  - unfold _parse_text in H.
    apply bind_Ok in H. destruct H as (value & _ & H).
    apply bind_Ok in H. destruct H as (mapped & _ & H).
    apply Ok_inj in H. subst w. cbn [conforms forallb]. rewrite andb_true_r.
    rewrite !forallb_app.
    rewrite (optional_conforms _ _ (allowed_kwargs Text)) by reflexivity.
    now destruct (contains "style" members && eq_str (item members "style") "italic").
  - unfold _parse_title in H. peel H; subst w; reflexivity.
  - unfold _parse_box in H. peel H; subst w; cbn; auto.
  - unfold _parse_button in H. peel H; subst w.
    now destruct (contains "action" members).
  - unfold _parse_divider in H. peel H. subst w. reflexivity.
  - unfold _parse_caption in H.
    apply bind_Ok in H. destruct H as (mapped & _ & H).
    apply Ok_inj in H. subst w. cbn [conforms forallb]. rewrite andb_true_r.
    rewrite forallb_app.
    now rewrite (optional_conforms _ _ (allowed_kwargs Caption)) by reflexivity.
  - unfold _parse_image in H. apply Ok_inj in H. subst w.
    cbn [conforms forallb]. rewrite andb_true_r, forallb_app.
    now rewrite (optional_conforms _ _ (allowed_kwargs Image)) by reflexivity.
  - unfold _parse_spacer in H. apply Ok_inj in H. subst w.
    cbn [conforms forallb]. rewrite andb_true_r.
    now rewrite (optional_conforms _ _ (allowed_kwargs Spacer)) by reflexivity.
  - unfold _parse_datepicker in H. apply Ok_inj in H. subst w.
    cbn [conforms forallb]. rewrite andb_true_r, forallb_app.
    now rewrite (optional_conforms _ _ (allowed_kwargs DatePicker)) by reflexivity.
  - unfold _parse_select in H. apply Ok_inj in H. subst w.
    cbn [conforms forallb]. rewrite andb_true_r, forallb_app.
    now rewrite (optional_conforms _ _ (allowed_kwargs Select)) by reflexivity.
  - peel H. subst w. reflexivity.
Qed.

End tree_facts.
Import tree_facts.

(** X13.  The compiler does not see the order of the keys of an object:
    two specs with the same bindings, each key bound once, compile to the
    same result, be it a node, nothing or an exception. *)
Theorem key_order_is_irrelevant (members members' : dict)
    (Hperm : Permutation members members')
    (Hkeys : NoDup (map fst members)) :
  _parse_widget_component (JObj members) = _parse_widget_component (JObj members').
Proof.
  apply _parse_widget_component_ext. now apply assoc_Permutation.
Qed.

Lemma key_order_is_irrelevant_witness :
  _parse_widget_component
    (JObj [("type", JStr "Text"); ("value", JStr "hello")])
  = _parse_widget_component
      (JObj [("value", JStr "hello"); ("type", JStr "Text")]).
Proof.
  apply key_order_is_irrelevant.
  - apply perm_swap.
  - cbn. constructor; [intros [H|[]]; discriminate H|].
    constructor; [intros []|constructor].
Defined.

(** X14.  The output schema is closed: on every node of the tree the
    spec-driven entry point returns, each keyword is one the renderer
    writes for that class.  A key of the spec that no parser reads never
    reaches the tree. *)
Theorem output_schema_is_closed (d : ChatKitWidgetData) :
  conforms (render_chatkit_widget_from_json d) = true.
Proof.
  unfold render_chatkit_widget_from_json.
  destruct (_parse_widget_component (widget_spec d)) as [[w|]|e] eqn:H;
    try reflexivity.
  apply (compiled_ind (fun w => conforms w = true) dispatch_conforms) in H.
  destruct w as [c kw ch].
  destruct c; try exact H; cbn [conforms forallb] in *; now rewrite H.
Qed.

(** X15.  A [Card] at the root is returned without the caller's key: the
    key (like the title) is used only for the card that wraps another
    root, is empty, or reports an error. *)
Theorem card_root_drops_the_key (d : ChatKitWidgetData) (members : dict) (w : Widget)
    (Hspec : widget_spec d = JObj members)
    (Htype : assoc "type" members = Some (JStr "Card"))
    (Hw : _parse_widget_component (JObj members) = Ok (Some w)) :
  render_chatkit_widget_from_json d = w /\
  assoc "key" (kwargs_of (render_chatkit_widget_from_json d)) = None.
Proof.
  assert (R : render_chatkit_widget_from_json d = w).
  { rewrite <- Hspec in Hw. rewrite (render_of_compiled d w Hw).
    rewrite Hspec in Hw. now rewrite (compiled_class _ _ _ Htype Hw). }
  split; [exact R|]. rewrite R.
  rewrite _parse_widget_component_eq, Htype in Hw.
  apply bind_Ok in Hw. destruct Hw as (w' & H & [= <-]).
  cbn [dispatch eq_str String.eqb Ascii.eqb Bool.eqb] in H.
  apply _parse_card_Ok in H. destruct H as (cs & cancel & confirm & _ & _ & _ & ->).
  cbn [kwargs_of app assoc String.eqb Ascii.eqb Bool.eqb].
  now apply optional_no_key.
Qed.

Lemma card_root_drops_the_key_witness :
  assoc "key"
    (kwargs_of (render_chatkit_widget_from_json
                  (request (JObj [("type", JStr "Card"); ("key", JStr "mine")]))))
  = None.
Proof.
  exact (proj2 (card_root_drops_the_key
                  (request (JObj [("type", JStr "Card"); ("key", JStr "mine")]))
                  [("type", JStr "Card"); ("key", JStr "mine")]
                  (Node Card [("size", JStr "md")] [])
                  eq_refl eq_refl eq_refl)).
Defined.

(* ===================================================================== *)
(** * Further properties of the generic-data renderer *)
(* ===================================================================== *)

Module walk_facts.
Import json_widget json_widget_facts.
Local Open Scope list_scope.
Local Open Scope Z_scope.

Lemma height_positive w : (1 <= height w)%nat.
Proof. destruct w. cbn. lia. Qed.

Lemma height_rows_box items :
  height (rows_box items) = (2 + list_max (map height items))%nat.
Proof. unfold rows_box. cbn [height map list_max fold_right]. lia. Qed.

Lemma height_object_row k vc : height (object_row k vc) = (2 + height vc)%nat.
Proof.
  pose proof (height_positive vc). unfold object_row.
  cbn [height map list_max fold_right]. lia.
Qed.

Lemma height_array_row i vc : height (array_row i vc) = (2 + height vc)%nat.
Proof.
  pose proof (height_positive vc). unfold array_row.
  cbn [height map list_max fold_right]. lia.
Qed.

Lemma height_primitive value show_types key_name :
  height (_render_primitive value show_types key_name) = 2%nat.
Proof. destruct value as [|[]| | | | |], show_types; reflexivity. Qed.

Lemma list_max_bound (l : list nat) (b : nat) :
  Forall (fun n => (n <= b)%nat) l -> (list_max l <= b)%nat.
Proof. intros H. now apply list_max_le. Qed.

Lemma height_bound value :
  forall depth max_depth show_types key_name,
    Z.of_nat (height (_render_json_content value depth max_depth show_types key_name))
    <= Z.max 1 (4 * (max_depth + 1 - depth) + 1).
Proof.
  induction value as [| | | | |items IH|members IH] using json_nested_ind;
    intros depth max_depth show_types key_name;
    rewrite _render_json_content_eq;
    (destruct (Z.gtb_spec depth max_depth); [cbn; lia|]);
    try (rewrite height_primitive; lia).
  - unfold _render_array. destruct items as [|x l] eqn:E; [cbn; lia|].
    rewrite <- E in *. clear E x l. rewrite height_rows_box.
    enough (Hrows : (list_max (map height (array_rows depth max_depth show_types 0 items))
                 <= Z.to_nat (4 * (max_depth - depth) + 3))%nat) by lia.
    apply list_max_bound. generalize 0.
    induction IH as [|v l Hv _ IHl]; intros i; [constructor|].
    change (array_rows depth max_depth show_types i (v :: l))
      with (array_row i
              (_render_json_content v (depth + 1) max_depth show_types
                 ("item_" ++ str_int i)%string)
            :: array_rows depth max_depth show_types (i + 1) l).
    cbn [map]. constructor; [|apply IHl].
    rewrite height_array_row.
    specialize (Hv (depth + 1) max_depth show_types ("item_" ++ str_int i)%string). lia.
  - unfold _render_object. destruct members as [|x l] eqn:E; [cbn; lia|].
    rewrite <- E in *. clear E x l. rewrite height_rows_box.
    enough (Hrows : (list_max (map height (object_rows depth max_depth show_types members))
                 <= Z.to_nat (4 * (max_depth - depth) + 3))%nat) by lia.
    apply list_max_bound.
    induction IH as [|[k v] l Hv _ IHl]; [constructor|].
    change (object_rows depth max_depth show_types ((k, v) :: l))
      with (object_row k (_render_json_content v (depth + 1) max_depth show_types k)
            :: object_rows depth max_depth show_types l).
    cbn [map]. constructor; [|apply IHl].
    rewrite height_object_row. cbn [snd] in Hv.
    specialize (Hv (depth + 1) max_depth show_types k). lia.
Qed.

Lemma object_row_labels depth max_depth show_types members :
  map row_label (object_rows depth max_depth show_types members)
  = map (fun kv => Some (JStr (fst kv ++ ":")%string)) members.
Proof.
  induction members as [|[k v] l IH]; [reflexivity|].
  change (object_rows depth max_depth show_types ((k, v) :: l))
    with (object_row k (_render_json_content v (depth + 1) max_depth show_types k)
          :: object_rows depth max_depth show_types l).
  cbn [map]. now rewrite IH.
Qed.

Lemma array_row_labels depth max_depth show_types items :
  forall i,
    map row_label (array_rows depth max_depth show_types i items)
    = map (fun n => Some (JStr ("[" ++ str_int (i + Z.of_nat n) ++ "]")%string))
          (seq 0 (length items)).
Proof.
  induction items as [|v l IH]; intros i; [reflexivity|].
  change (array_rows depth max_depth show_types i (v :: l))
    with (array_row i
            (_render_json_content v (depth + 1) max_depth show_types
               ("item_" ++ str_int i)%string)
          :: array_rows depth max_depth show_types (i + 1) l).
  cbn [map length seq]. rewrite IH, <- seq_shift, map_map.
  f_equal.
  - cbn [row_label array_row assoc String.eqb Ascii.eqb Bool.eqb].
    now rewrite Z.add_0_r.
  - apply map_ext. intros n.
    now replace (i + 1 + Z.of_nat n) with (i + Z.of_nat (S n)) by lia.
Qed.

End walk_facts.
Import walk_facts.

(** X16.  The depth limit is a ceiling on the tree that is built: the
    widget for a value rendered at [depth] is at most
    [4 * (max_depth + 1 - depth) + 1] nodes high (one node when the depth
    is already above the limit), however deep the data is; the whole
    widget of [render_json_widget] is at most [4 * max_depth + 7] nodes
    high, and 4 when [max_depth] is negative. *)
Theorem widget_height_is_bounded_by_max_depth
    (value : json) (depth max_depth : Z) (show_types : bool) (key_name : string)
    (d : JsonWidgetData) :
  (Z.of_nat (height (_render_json_content value depth max_depth show_types key_name))
   <= Z.max 1 (4 * (max_depth + 1 - depth) + 1))%Z /\
  (Z.of_nat (height (render_json_widget d))
   <= Z.max 4 (4 * json_widget.max_depth d + 7))%Z.
Proof.
  split; [apply height_bound|].
  pose proof (height_bound (data d) 0 (json_widget.max_depth d)
                (json_widget.show_types d) EmptyString) as H.
  unfold render_json_widget. cbv zeta.
  set (content := _render_json_content (data d) 0 (json_widget.max_depth d)
                    (json_widget.show_types d) EmptyString) in *.
  pose proof (height_positive content).
  cbn [height map list_max fold_right]. lia.
Qed.

(** X17.  An object is rendered with one row per member, in the order of
    the members, each labelled by its key followed by a colon; an array
    with one row per item, labelled [[0]], [[1]], ... in order.  (When
    the depth is within the limit; an empty object or array has no
    rows.) *)
Theorem rows_follow_the_data
    (depth max_depth : Z) (show_types : bool) (key_name : string)
    (Hdepth : (depth <= max_depth)%Z) :
  (forall members,
     map row_label
       (rows_of (_render_json_content (JObj members) depth max_depth show_types key_name))
     = map (fun kv => Some (JStr (fst kv ++ ":")%string)) members) /\
  (forall items,
     map row_label
       (rows_of (_render_json_content (JArr items) depth max_depth show_types key_name))
     = map (fun i => Some (JStr ("[" ++ str_int i ++ "]")%string))
           (indices (length items))).
Proof.
  split.
  - intros members. rewrite _render_json_content_eq.
    destruct (Z.gtb_spec depth max_depth); [lia|].
    unfold _render_object. destruct members as [|x l] eqn:E; [reflexivity|].
    rewrite <- E. cbn [rows_of rows_box]. apply object_row_labels.
  - intros items. rewrite _render_json_content_eq.
    destruct (Z.gtb_spec depth max_depth); [lia|].
    unfold _render_array. destruct items as [|x l] eqn:E; [reflexivity|].
    rewrite <- E. cbn [rows_of rows_box]. rewrite array_row_labels.
    unfold indices. rewrite map_map. reflexivity.
Qed.

Lemma rows_follow_the_data_witness :
  map row_label
    (rows_of (_render_json_content (JArr [JNull; JBool true; JInt 7]) 0 3 true EmptyString))
  = [Some (JStr "[0]"); Some (JStr "[1]"); Some (JStr "[2]")].
Proof.
  refine (eq_trans
            (proj2 (rows_follow_the_data 0 3 true EmptyString _)
               [JNull; JBool true; JInt 7])
            eq_refl).
  discriminate.
Defined.

(* ===================================================================== *)
(** * Properties of the helpers and tools of [chat.py] *)
(* ===================================================================== *)

Module chat_facts.
Import chat.
Local Open Scope list_scope.

Lemma is_space_lower_char c : is_space (lower_char c) = is_space c.
Proof. destruct c as [[] [] [] [] [] [] [] []]; reflexivity. Qed.

Lemma lower_lstrip s : lower (lstrip s) = lstrip (lower s).
Proof.
  induction s as [|c s IH]; [reflexivity|].
  cbn [lstrip lower]. rewrite is_space_lower_char.
  now destruct (is_space c).
Qed.

Lemma lower_rstrip s : lower (rstrip s) = rstrip (lower s).
Proof.
  induction s as [|c s IH]; [reflexivity|].
  cbn [rstrip lower]. rewrite <- IH, is_space_lower_char.
  destruct (rstrip s); cbn [lower]; [now destruct (is_space c)|reflexivity].
Qed.

Lemma lower_strip s : lower (strip s) = strip (lower s).
Proof. unfold strip. now rewrite lower_rstrip, lower_lstrip. Qed.

Lemma lower_char_idempotent c : lower_char (lower_char c) = lower_char c.
Proof. destruct c as [[] [] [] [] [] [] [] []]; reflexivity. Qed.

Lemma lower_idempotent s : lower (lower s) = lower s.
Proof.
  induction s as [|c s IH]; [reflexivity|].
  cbn [lower]. now rewrite lower_char_idempotent, IH.
Qed.

Lemma rstrip_cons c s :
  rstrip (String c s) =
  match rstrip s with
  | EmptyString => if is_space c then EmptyString else String c EmptyString
  | kept => String c kept
  end.
Proof. reflexivity. Qed.

Lemma rstrip_idempotent s : rstrip (rstrip s) = rstrip s.
Proof.
  induction s as [|c s IH]; [reflexivity|].
  rewrite rstrip_cons. destruct (rstrip s) as [|c' kept] eqn:E.
  - destruct (is_space c) eqn:Ec; [reflexivity|].
    rewrite rstrip_cons. cbn [rstrip]. now rewrite Ec.
  - rewrite rstrip_cons, IH. reflexivity.
Qed.

Lemma lstrip_head s : lstrip s = EmptyString \/ exists c t, lstrip s = String c t /\ is_space c = false.
Proof.
  induction s as [|c s IH]; [now left|].
  cbn [lstrip]. destruct (is_space c) eqn:E; [exact IH|].
  right. eauto.
Qed.

Lemma rstrip_keeps_head c t :
  is_space c = false -> exists t', rstrip (String c t) = String c t'.
Proof.
  intros H. rewrite rstrip_cons. destruct (rstrip t); [rewrite H|]; eauto.
Qed.

Lemma strip_trimmed s : trimmed (strip s).
Proof.
  unfold trimmed, strip. split; [|apply rstrip_idempotent].
  destruct (lstrip_head s) as [->|(c & t & -> & Hc)]; [reflexivity|].
  destruct (rstrip_keeps_head c t Hc) as (t' & ->).
  cbn [lstrip]. now rewrite Hc.
Qed.

(** The scheme depends only on whether ["dark"] and ["light"] occur in
    the stripped, lower-cased text. *)
Lemma _normalize_color_scheme_eq value :
  _normalize_color_scheme value =
  if str_in "dark" (lower (strip value)) then Return "dark"
  else if str_in "light" (lower (strip value)) then Return "light"
  else ValueError "Theme must be either 'light' or 'dark'.".
Proof.
  unfold _normalize_color_scheme.
  destruct (mem (lower (strip value)) SUPPORTED_COLOR_SCHEMES) eqn:E; [|reflexivity].
  cbn in E.
  destruct (String.eqb_spec (lower (strip value)) "light") as [->|_]; [reflexivity|].
  destruct (String.eqb_spec (lower (strip value)) "dark") as [->|_]; [reflexivity|].
  discriminate E.
Qed.

Lemma _normalize_color_scheme_range value scheme :
  _normalize_color_scheme value = Return scheme ->
  scheme = "light" \/ scheme = "dark".
Proof.
  rewrite _normalize_color_scheme_eq.
  destruct (str_in "dark" (lower (strip value)));
    [|destruct (str_in "light" (lower (strip value)))];
    intros [= <-]; auto.
Qed.

(** What the spec-driven entry point and its transcript always are. *)
Lemma spec_driven_output (d : chatkit_widget_renderer.ChatKitWidgetData) :
  valid_root (chatkit_widget_renderer.render_chatkit_widget_from_json d) /\
  chatkit_widget_renderer.chatkit_widget_copy_text d <> EmptyString.
Proof.
  split; [split|].
  - unfold chatkit_widget_renderer.render_chatkit_widget_from_json.
    destruct (chatkit_widget_renderer._parse_widget_component
                (chatkit_widget_renderer.widget_spec d)) as [[[[] kw ch]|]|e];
      reflexivity.
  - unfold chatkit_widget_renderer.render_chatkit_widget_from_json.
    destruct (chatkit_widget_renderer._parse_widget_component
                (chatkit_widget_renderer.widget_spec d)) as [[w|]|e] eqn:H;
      try reflexivity.
    apply renderer_facts._parse_widget_component_well_formed in H.
    destruct w as [c kw ch].
    destruct c; try exact H;
      (apply renderer_facts.container_well_formed; [reflexivity|];
       cbn [forallb]; now rewrite H).
  - unfold chatkit_widget_renderer.chatkit_widget_copy_text.
    destruct (json_dumps (chatkit_widget_renderer.widget_spec d));
      apply sapp_not_empty_r; discriminate.
Qed.

End chat_facts.
Import chat_facts.

(** X18.  [_normalize_color_scheme] answers ["dark"] when the text,
    stripped and lower-cased, contains ["dark"], whether or not it also
    contains ["light"]; it answers ["light"] when it contains ["light"]
    only; and it raises the [ValueError] exactly when it contains
    neither.  So an answer is always one of the two schemes. *)
Theorem color_scheme_outcomes (value : string) :
  (str_in "dark" (lower (chat.strip value)) = true ->
   chat._normalize_color_scheme value = chat.Return "dark") /\
  (str_in "dark" (lower (chat.strip value)) = false ->
   str_in "light" (lower (chat.strip value)) = true ->
   chat._normalize_color_scheme value = chat.Return "light") /\
  (str_in "dark" (lower (chat.strip value)) = false ->
   str_in "light" (lower (chat.strip value)) = false ->
   chat._normalize_color_scheme value
   = chat.ValueError "Theme must be either 'light' or 'dark'.") /\
  (forall scheme,
     chat._normalize_color_scheme value = chat.Return scheme ->
     scheme = "light" \/ scheme = "dark").
Proof.
  rewrite _normalize_color_scheme_eq.
  destruct (str_in "dark" (lower (chat.strip value)));
    destruct (str_in "light" (lower (chat.strip value)));
    repeat split; try discriminate; try reflexivity;
    intros scheme [= <-]; auto.
Qed.

Lemma color_scheme_outcomes_witness :
  chat._normalize_color_scheme "  Light, not DARK " = chat.Return "dark".
Proof.
  apply (proj1 (color_scheme_outcomes "  Light, not DARK ")). reflexivity.
Defined.

(** X19.  The scheme does not depend on letter case, and normalising is
    idempotent: two texts equal up to case get the same outcome, and a
    scheme that was answered is answered again for itself. *)
Theorem color_scheme_ignores_case (value value' : string)
    (Hcase : lower value = lower value') :
  chat._normalize_color_scheme value = chat._normalize_color_scheme value' /\
  (forall scheme,
     chat._normalize_color_scheme value = chat.Return scheme ->
     chat._normalize_color_scheme scheme = chat.Return scheme).
Proof.
  split.
  - rewrite !_normalize_color_scheme_eq, !lower_strip. now rewrite Hcase.
  - intros scheme H.
    destruct (_normalize_color_scheme_range _ _ H) as [->| ->]; reflexivity.
Qed.

Lemma color_scheme_ignores_case_witness :
  chat._normalize_color_scheme "DaRk Mode" = chat._normalize_color_scheme "dark mode".
Proof.
  apply (proj1 (color_scheme_ignores_case "DaRk Mode" "dark mode" eq_refl)).
Defined.

(** X20.  [switch_theme] never raises.  For a theme that names a scheme
    it records a client tool call to ["switch_theme"] whose theme is the
    scheme it returns; for any other theme it returns [None] and leaves
    the pending client tool call as it was. *)
Theorem switch_theme_outcomes (pending : option chat.ClientToolCall) (theme : string) :
  (forall scheme,
     chat._normalize_color_scheme theme = chat.Return scheme ->
     chat.switch_theme pending theme
     = (Some {| chat.name := "switch_theme"; chat.arguments := [("theme", scheme)] |},
        Some [("theme", scheme)])) /\
  (forall msg,
     chat._normalize_color_scheme theme = chat.ValueError msg ->
     chat.switch_theme pending theme = (pending, None)) /\
  (snd (chat.switch_theme pending theme) = None <->
   str_in "dark" (lower (chat.strip theme)) = false /\
   str_in "light" (lower (chat.strip theme)) = false).
Proof.
  unfold chat.switch_theme.
  split; [|split].
  - now intros scheme ->.
  - now intros msg ->.
  - rewrite _normalize_color_scheme_eq.
    destruct (str_in "dark" (lower (chat.strip theme)));
      destruct (str_in "light" (lower (chat.strip theme))); cbn;
      split; try discriminate; auto; intros [? ?]; discriminate.
Qed.

Lemma switch_theme_outcomes_witness :
  chat.switch_theme None "purple" = (None, None).
Proof.
  apply (proj1 (proj2 (switch_theme_outcomes None "purple"))
           "Theme must be either 'light' or 'dark'.").
  reflexivity.
Defined.

(** X21.  The text of a user message has no white space at either end,
    and is empty when no part of the message carries text. *)
Theorem user_message_text_is_trimmed (content : list (option string)) :
  trimmed (chat._user_message_text content) /\
  (Forall (fun part => part = None \/ part = Some EmptyString) content ->
   chat._user_message_text content = EmptyString).
Proof.
  split; [apply strip_trimmed|].
  intros H. unfold chat._user_message_text.
  replace (flat_map _ content) with (@nil string); [reflexivity|].
  induction H as [|part l [->| ->] _ IH]; cbn; auto.
Qed.

Lemma user_message_text_is_trimmed_witness :
  chat._user_message_text [None; Some EmptyString; None] = EmptyString.
Proof.
  apply (proj2 (user_message_text_is_trimmed [None; Some EmptyString; None])).
  constructor; [left; reflexivity|].
  constructor; [right; reflexivity|].
  constructor; [left; reflexivity|].
  constructor.
Defined.

(** X22.  The [render_chatkit_widget] tool, once the JSON text is parsed,
    streams exactly one widget, a valid one, with its transcript.  For a
    spec that is an object it then returns its summary; for any other spec
    it has streamed the empty card and then ends in a [ValueError],
    because the summary reads the spec with [.get]. *)
Theorem render_chatkit_widget_tool (title : string) (widget_spec : json) (hash_value : Z) :
  (exists widget copy_text,
     fst (chat.render_chatkit_widget title widget_spec hash_value) = [(widget, copy_text)] /\
     valid_root widget /\ copy_text <> EmptyString) /\
  (forall members,
     widget_spec = JObj members ->
     snd (chat.render_chatkit_widget title widget_spec hash_value)
     = chat.Return [("title", JStr title);
                    ("status", JStr "success");
                    ("widget_type", get members "type" (JStr "unknown"));
                    ("has_children", JBool (contains "children" members))]) /\
  (is_object widget_spec = false ->
   chat.render_chatkit_widget title widget_spec hash_value
   = ([(default_card ("chatkit_" ++ str_int (hash_value mod 10000))%string [],
        chatkit_widget_copy_text
          {| chatkit_widget_renderer.title := title;
             chatkit_widget_renderer.widget_spec := widget_spec;
             chatkit_widget_renderer.key :=
               ("chatkit_" ++ str_int (hash_value mod 10000))%string |})],
      chat.ValueError
        ("Error rendering ChatKit widget: '" ++ type_name widget_spec
           ++ "' object has no attribute 'get'")%string)).
Proof.
  split; [|split].
  - unfold chat.render_chatkit_widget. cbn [fst]. do 2 eexists.
    split; [reflexivity|].
    match goal with
    | |- valid_root (render_chatkit_widget_from_json ?d) /\ _ =>
        destruct (spec_driven_output d) as (Hv & Ht)
    end.
    split; assumption.
  - intros members ->. reflexivity.
  - intros H. unfold chat.render_chatkit_widget.
    assert (Hm : malformed widget_spec = true)
      by (destruct widget_spec; try reflexivity; discriminate H).
    unfold render_chatkit_widget_from_json. cbn [chatkit_widget_renderer.widget_spec].
    rewrite (_parse_widget_component_malformed _ Hm).
    destruct widget_spec; try discriminate H; reflexivity.
Qed.

Lemma render_chatkit_widget_tool_witness :
  snd (chat.render_chatkit_widget "List" (JArr [JInt 1]) 12345)
  = chat.ValueError "Error rendering ChatKit widget: 'list' object has no attribute 'get'".
Proof.
  exact (f_equal snd
           (proj2 (proj2 (render_chatkit_widget_tool "List" (JArr [JInt 1]) 12345))
              eq_refl)).
Defined.
